(** * Cast-device session management of the MCP servers

    A shallow embedding of the Google Home part of
    [mcp-server/mcp_google_home.py] (class [GoogleHomeMCPServer]) and of
    [mcp-server/mcp_server.py] (class [UnifiedMCPServer]): the device
    registry, discovery, the name-based locator and the command
    dispatcher, followed by the properties the specification states
    about them.

    Conventions of the embedding.
    - A Python [str] is represented by the bytes of its UTF-8 encoding
      (a Rocq [string]); concatenation and substring tests commute with
      that encoding.
    - The server object's attributes ([self.chromecasts],
      [self.last_discovery_time]) live in a record [Server]; they are
      mutated in place, so an assignment survives a later exception.
    - Every call into the cast-device control library is recorded in a
      trace, in call order, whether it returns or raises; what the
      library answers is given by a [DeviceLayer].
    - [try: ... except Exception as e: ...] is [try_catch].
    - Logging and the hand-over of the scan to an executor thread are
      not modelled: the scan is an ordinary blocking call. *)

From Stdlib Require Import List String Ascii ZArith NArith Bool Lia.
From Stdlib Require Import DecimalString.
Import ListNotations.
Open Scope string_scope.

(** ** The Python runtime *)

(** Builtins of the Python runtime the servers rely on and that are not
    code of the repository.  They are taken as parameters. *)
Class PyRuntime : Type := {
  (** JSON numbers and Python floats ([timeout], [volume], durations). *)
  Number : Type;
  (** the number denoted by an integer literal, as in [args.get("timeout", 10)] *)
  number_of_int : Z -> Number;
  (** the literal [0.5] *)
  number_half : Number;
  (** [int(volume * 100)]: the integer, or the exception [int] raises
      for a product that is infinite ([OverflowError]) or not a number
      ([ValueError]) *)
  int_percent : Number -> string + Z;
  (** [str.lower] *)
  lower : string -> string;
  (** [datetime.fromtimestamp(t).strftime("%Y-%m-%d %H:%M:%S")] *)
  strftime : Z -> string
}.

(** [str(n)] for a non-negative machine-independent integer. *)
Definition str_of_nat (n : nat) : string :=
  NilEmpty.string_of_uint (Nat.to_uint n).

(** [str(z)] for an integer. *)
Definition str_of_Z (z : Z) : string :=
  match z with
  | Z0 => "0"
  | Zpos p => str_of_nat (Pos.to_nat p)
  | Zneg p => "-" ++ str_of_nat (Pos.to_nat p)
  end.

(** [needle in haystack] on strings. *)
Fixpoint contains (needle haystack : string) : bool :=
  prefix needle haystack ||
  match haystack with
  | EmptyString => false
  | String _ rest => contains needle rest
  end.

(** *** [urllib.parse.quote] with its default arguments

    [quote(s)] encodes [s] as UTF-8 and keeps the bytes of
    [_ALWAYS_SAFE] (letters, digits, [_.-~]) and of [safe = "/"];
    every other byte becomes [%XX] with upper-case hexadecimal digits. *)

Definition in_range (lo hi : nat) (c : ascii) : bool :=
  (lo <=? nat_of_ascii c)%nat && (nat_of_ascii c <=? hi)%nat.

Definition always_safe (c : ascii) : bool :=
  in_range 65 90 c || in_range 97 122 c || in_range 48 57 c ||
  Ascii.eqb c "_" || Ascii.eqb c "." || Ascii.eqb c "-" || Ascii.eqb c "~".

Definition hex_digit (n : nat) : ascii :=
  if (n <? 10)%nat then ascii_of_nat (48 + n) else ascii_of_nat (55 + n).

Definition percent_byte (c : ascii) : string :=
  let n := nat_of_ascii c in
  String "%" (String (hex_digit (n / 16)) (String (hex_digit (n mod 16)) "")).

Definition quote_byte (c : ascii) : string :=
  if always_safe c || Ascii.eqb c "/" then String c "" else percent_byte c.

Fixpoint quote (s : string) : string :=
  match s with
  | EmptyString => ""
  | String c rest => quote_byte c ++ quote rest
  end.

(** ** Data model *)

(** A [pychromecast.Chromecast] handle, with the attributes the servers
    read: [cast.name], [cast.device.friendly_name], [cast.model_name],
    [cast.device.manufacturer], [str(cast.uuid)], [cast.host],
    [cast.port], [cast.cast_type]. *)
Record Chromecast : Type := {
  name : string;
  friendly_name : string;
  model_name : string;
  manufacturer : string;
  uuid : string;
  host : string;
  port : Z;
  cast_type : string
}.

(** The browser handle returned next to the scan result. *)
Inductive Browser : Type := BrowserHandle (id : nat).

(** A raised exception, identified with [str(e)]. *)
Definition Exn : Type := string.

(** [self.chromecasts] and [self.last_discovery_time]. *)
Record Server : Type := {
  chromecasts : list Chromecast;
  last_discovery_time : option Z
}.

(** The state after [__init__]. *)
Definition init_server : Server :=
  {| chromecasts := []; last_discovery_time := None |}.

(** How a statement ends: normally with a value, or with a raised
    exception. *)
Inductive Outcome (A : Type) : Type :=
| Ok (a : A)
| Raised (e : Exn).
Arguments Ok {A} a.
Arguments Raised {A} e.

Section Model.
Context {RT : PyRuntime}.

(** The result dictionaries, as JSON values.  A Python dict keeps the
    insertion order of its keys, so it is an association list. *)
#[local] Unset Elimination Schemes.
Inductive Json : Type :=
| JNone
| JBool (b : bool)
| JInt (z : Z)
| JNum (x : Number)
| JStr (s : string)
| JList (l : list Json)
| JDict (d : list (string * Json)).
#[local] Set Elimination Schemes.

Definition Dict : Type := list (string * Json).

(** [d.get(k)] *)
Fixpoint dict_get (d : Dict) (k : string) : option Json :=
  match d with
  | [] => None
  | (k', v) :: rest => if String.eqb k' k then Some v else dict_get rest k
  end.

(** An optional attribute rendered as a JSON value. *)
Definition JOptStr (o : option string) : Json :=
  match o with Some s => JStr s | None => JNone end.

Definition JOptNum (o : option Number) : Json :=
  match o with Some x => JNum x | None => JNone end.

(** The tool arguments: [args.get(key, default)] reads a field and
    falls back to the default when the key is absent.  The tools' input
    schemas fix the type of each argument. *)
Record Args : Type := {
  arg_timeout : option Number;
  arg_device_name : option string;
  arg_media_url : option string;
  arg_content_type : option string;
  arg_title : option string;
  arg_volume : option Number;
  arg_text : option string;
  arg_language : option string
}.

Definition no_args : Args :=
  {| arg_timeout := None; arg_device_name := None; arg_media_url := None;
     arg_content_type := None; arg_title := None; arg_volume := None;
     arg_text := None; arg_language := None |}.

Definition get {A : Type} (field : option A) (default : A) : A :=
  match field with Some v => v | None => default end.

(** *** Live device state *)

(** [cast.status] *)
Record CastStatus : Type := {
  volume_level : Number;
  volume_muted : bool
}.

(** [cast.media_controller.status] *)
Record MediaStatus : Type := {
  content_id : option string;
  content_type : option string;
  title : option string;
  artist : option string;
  album_name : option string;
  player_state : string;
  duration : option Number;
  current_time : Number
}.

(** What the attributes of a handle read after [cast.wait()].
    [status = None] is a handle whose [cast.status] is still [None];
    [media_status = None] is a falsy
    [cast.media_controller and cast.media_controller.status]. *)
Record Live : Type := {
  is_idle : bool;
  app_id : option string;
  app_display_name : option string;
  status : option CastStatus;
  media_status : option MediaStatus
}.

(** *** The device layer *)

(** The calls into the control library. *)
Inductive Call : Type :=
| GetChromecasts (timeout : Number)
| StopDiscovery (b : Browser)
| Wait (cast : Chromecast)
| PlayMedia (cast : Chromecast) (url content_type : string) (title : option string)
| BlockUntilActive (cast : Chromecast)
| Pause (cast : Chromecast)
| Play (cast : Chromecast)
| Stop (cast : Chromecast)
| SetVolume (cast : Chromecast) (volume : Number).

(** The library as an opaque capability provider: what the scan
    answers, which calls raise, how long a call takes on the wall
    clock, and what a handle's live attributes read. *)
Record DeviceLayer : Type := {
  get_chromecasts : Number -> Exn + (list Chromecast * option Browser);
  raises : Call -> option Exn;
  elapsed : Call -> N;
  live : Chromecast -> Live
}.

(** ** Effects *)

(** The server object, the trace of device-layer calls made so far
    (oldest first) and the wall clock. *)
Record World : Type := {
  self : Server;
  trace : list Call;
  clock : Z
}.

Definition M (A : Type) : Type := World -> Outcome A * World.

Definition ret {A : Type} (a : A) : M A := fun w => (Ok a, w).

Definition bind {A B : Type} (m : M A) (k : A -> M B) : M B :=
  fun w =>
    match m w with
    | (Ok a, w') => k a w'
    | (Raised e, w') => (Raised e, w')
    end.

Definition raise {A : Type} (e : Exn) : M A := fun w => (Raised e, w).

(** [try: body except Exception as e: handler(e)] *)
Definition try_catch {A : Type} (body : M A) (handler : Exn -> M A) : M A :=
  fun w =>
    match body w with
    | (Ok a, w') => (Ok a, w')
    | (Raised e, w') => handler e w'
    end.

End Model.

Declare Scope py_scope.
Delimit Scope py_scope with py.
Notation "x <- m ;; k" := (bind m (fun x => k))
  (at level 61, m at next level, right associativity) : py_scope.
Notation "m ;; k" := (bind m (fun _ => k))
  (at level 61, right associativity) : py_scope.

(** ** Primitive steps *)

Section Steps.
Context {RT : PyRuntime}.
Variable dl : DeviceLayer.
Local Open Scope py_scope.

(** The world after a device-layer call: the call is appended to the
    trace and the clock has advanced by the time the call took. *)
Definition after_call (c : Call) (w : World) : World :=
  {| self := self w;
     trace := trace w ++ [c];
     clock := clock w + Z.of_N (elapsed dl c) |}.

(** A device-layer call without a result, such as [cast.wait()]. *)
Definition call (c : Call) : M unit :=
  fun w =>
    match raises dl c with
    | Some e => (Raised e, after_call c w)
    | None => (Ok tt, after_call c w)
    end.

(** [pychromecast.get_chromecasts(timeout=timeout)] *)
Definition run_get_chromecasts (timeout : Number)
  : M (list Chromecast * option Browser) :=
  fun w =>
    match get_chromecasts dl timeout with
    | inl e => (Raised e, after_call (GetChromecasts timeout) w)
    | inr r => (Ok r, after_call (GetChromecasts timeout) w)
    end.

(** [time.time()] *)
Definition time_time : M Z := fun w => (Ok (clock w), w).

(** Reading [self]. *)
Definition get_self : M Server := fun w => (Ok (self w), w).

(** [self.chromecasts = casts] *)
Definition set_chromecasts (casts : list Chromecast) : M unit :=
  fun w =>
    (Ok tt,
     {| self := {| chromecasts := casts;
                   last_discovery_time := last_discovery_time (self w) |};
        trace := trace w;
        clock := clock w |}).

(** [self.last_discovery_time = t] *)
Definition set_last_discovery_time (t : Z) : M unit :=
  fun w =>
    (Ok tt,
     {| self := {| chromecasts := chromecasts (self w);
                   last_discovery_time := Some t |};
        trace := trace w;
        clock := clock w |}).

(** [if browser: browser.stop_discovery()] *)
Definition stop_browser (browser : option Browser) : M unit :=
  match browser with
  | Some b => call (StopDiscovery b)
  | None => ret tt
  end.

(** [cast.status.volume_level] and [cast.status.volume_muted]: an
    attribute access on [None] raises [AttributeError]. *)
Definition read_volume_level (cast : Chromecast) : M Number :=
  match status (live dl cast) with
  | Some st => ret (volume_level st)
  | None => raise "'NoneType' object has no attribute 'volume_level'"
  end.

Definition read_volume_muted (cast : Chromecast) : M bool :=
  match status (live dl cast) with
  | Some st => ret (volume_muted st)
  | None => raise "'NoneType' object has no attribute 'volume_muted'"
  end.

(** [int(volume * 100)] where it stands in the success message of
    [set_volume]: evaluated after the device-layer calls, inside the
    [try]. *)
Definition int_of_percent (volume : Number) : M Z :=
  match int_percent volume with
  | inl e => raise e
  | inr percent => ret percent
  end.

(** The text-to-speech URL of [speak_text]:
    [f"https://translate.google.com/translate_tts?ie=UTF-8&client=tw-ob&tl={language}&q={quote(text)}"] *)
Definition tts_url (language text : string) : string :=
  "https://translate.google.com/translate_tts?ie=UTF-8&client=tw-ob&tl="
    ++ language ++ "&q=" ++ quote text.

(** [... if self.last_discovery_time else "Never"]: [None] and [0] are
    falsy. *)
Definition discovery_time_text (t : option Z) : string :=
  match t with
  | Some z => if Z.eqb z 0 then "Never" else strftime z
  | None => "Never"
  end.

End Steps.

(** ** The tool protocol *)

(** [mcp.types.TextContent], with its fields [type] and [text]. *)
Record TextContent : Type := {
  tc_type : string;
  tc_text : string
}.

Section Protocol.
Context {RT : PyRuntime}.

(** [mcp.types.Tool] *)
Record Tool : Type := {
  tool_name : string;
  description : string;
  inputSchema : Json
}.

End Protocol.

(** Library functions the tool layer relies on and that are not code
    of the repository. *)
Class PyLibrary {RT : PyRuntime} : Type := {
  (** [json.dumps(d, indent=2, ensure_ascii=False)] *)
  json_dumps : Dict -> string;
  (** [json.dumps(d, indent=2)] *)
  json_dumps_ascii : Dict -> string;
  (** [f"{value}"], that is [str(value)] *)
  py_str : Json -> string;
  (** [f"{value:,.2f}"] for an [int], a [float] or a [bool] *)
  format_2f : Json -> Exn + string;
  (** the integer a float is equal to, if there is one *)
  number_as_int : Number -> option Z;
  (** the float a decimal literal denotes, as in [10.4606] *)
  float_literal : string -> Number;
  (** [datetime.now().strftime("%d/%m/%Y %H:%M")] when the clock reads
      the given time *)
  now_text : Z -> string;
  (** [ET.fromstring(text).findall('.//Exrate')]: the attributes of the
      [Exrate] elements in document order, or the parse error *)
  xml_exrates : string -> Exn + list (list (string * string));
  (** [str.upper] *)
  upper : string -> string;
  (** [int(value)], or the exception it raises *)
  py_int : Json -> Exn + Z
}.

(** *** The HTTP layer *)

Section Http.
Context {RT : PyRuntime}.

(** The settings of an [httpx.AsyncClient]. *)
Record Client : Type := {
  client_timeout : Number;
  client_verify : bool
}.

(** An [httpx.Response]: what [raise_for_status()] raises, what
    [json()] returns or raises, and [text]. *)
Record Response : Type := {
  raise_for_status : option Exn;
  response_json : Exn + Json;
  response_text : string
}.

(** What a [GET] request answers, or the exception it raises, and how
    long it takes on the wall clock. *)
Record HttpLayer : Type := {
  http_get : Client -> string -> list (string * Json) -> Exn + Response;
  http_elapsed : string -> N
}.

(** The environment variables read when the module is loaded. *)
Record Environ : Type := {
  env_ADAPTER_URL : option string;
  env_VERIFY_SSL : option string
}.

(** The arguments of a tool of the unified server: those of the
    Google Home tools and the [city] of [get_weather]. *)
Record Arguments : Type := {
  device_arguments : Args;
  arg_city : option string
}.

Variable http : HttpLayer.

(** [await client.get(url, params=params)] *)
Definition client_get (client : Client) (url : string)
    (params : list (string * Json)) : M Response :=
  fun w =>
    let w' := {| self := self w; trace := trace w;
                 clock := clock w + Z.of_N (http_elapsed http url) |} in
    match http_get http client url params with
    | inl e => (Raised e, w')
    | inr response => (Ok response, w')
    end.

(** [response.raise_for_status()] *)
Definition check_status (response : Response) : M unit :=
  match raise_for_status response with
  | Some e => raise e
  | None => ret tt
  end.

(** [response.json()] *)
Definition read_json (response : Response) : M Json :=
  match response_json response with
  | inl e => raise e
  | inr data => ret data
  end.

(** [type(value).__name__] *)
Definition type_name (value : Json) : string :=
  match value with
  | JNone => "NoneType"
  | JBool _ => "bool"
  | JInt _ => "int"
  | JNum _ => "float"
  | JStr _ => "str"
  | JList _ => "list"
  | JDict _ => "dict"
  end.

(** [value.get(key, default)]: only a dictionary has [get]. *)
Definition py_get (value : Json) (key : string) (default : Json) : M Json :=
  match value with
  | JDict d =>
      ret match dict_get d key with
          | Some found => found
          | None => default
          end
  | _ =>
      raise ("'" ++ type_name value ++ "' object has no attribute 'get'")
  end.

End Http.

Section Dynamic.
Context {RT : PyRuntime} {LIB : PyLibrary}.

(** [bool(value)] *)
Definition truthy (value : Json) : bool :=
  match value with
  | JNone => false
  | JBool b => b
  | JInt z => negb (Z.eqb z 0)
  | JNum x =>
      match number_as_int x with
      | Some z => negb (Z.eqb z 0)
      | None => true
      end
  | JStr s => negb (String.eqb s "")
  | JList l => match l with [] => false | _ :: _ => true end
  | JDict d => match d with [] => false | _ :: _ => true end
  end.

(** [value.upper()]: only a string has [upper]. *)
Definition py_upper (value : Json) : M string :=
  match value with
  | JStr s => ret (upper s)
  | _ =>
      raise ("'" ++ type_name value ++ "' object has no attribute 'upper'")
  end.

(** The digits of [f"{n:,}"], written from the last one to the first:
    a comma after every third digit that is followed by another. *)
Fixpoint group_thousands (reversed_digits : list ascii) (position : nat)
  : list ascii :=
  match reversed_digits with
  | [] => []
  | d :: rest =>
      match position, rest with
      | 2, _ :: _ => d :: ","%char :: group_thousands rest 0
      | _, _ => d :: group_thousands rest (S position)
      end
  end.

(** [f"{n:,}"] for an integer. *)
Definition format_thousands (n : Z) : string :=
  let digits :=
    list_ascii_of_string (NilEmpty.string_of_uint (N.to_uint (Z.abs_N n))) in
  let grouped :=
    string_of_list_ascii (rev (group_thousands (rev digits) 0)) in
  if Z.ltb n 0 then "-" ++ grouped else grouped.

(** [f"{int(value):,}"] *)
Definition format_price (value : Json) : M string :=
  match py_int value with
  | inl e => raise e
  | inr n => ret (format_thousands n)
  end.

End Dynamic.


(** ** [mcp_google_home.py]: class [GoogleHomeMCPServer] *)

Module GoogleHome.
Section Server.
Context {RT : PyRuntime}.
Variable dl : DeviceLayer.
Local Open Scope py_scope.

(** The [device_info] dictionary built in [discover_devices]. *)
Definition device_info (cast : Chromecast) : Json :=
  JDict [("name", JStr (name cast));
         ("friendly_name", JStr (friendly_name cast));
         ("model", JStr (model_name cast));
         ("manufacturer", JStr (manufacturer cast));
         ("uuid", JStr (uuid cast));
         ("host", JStr (host cast));
         ("port", JInt (port cast));
         ("cast_type", JStr (cast_type cast))].

(** The loop [for cast in self.chromecasts:] of [discover_devices]:
    a device whose [cast.wait()] raises is skipped. *)
Fixpoint discover_loop (casts : list Chromecast) (devices : list Json)
  : M (list Json) :=
  match casts with
  | [] => ret devices
  | cast :: rest =>
      devices' <- try_catch
                    (call dl (Wait cast) ;;
                     ret (devices ++ [device_info cast])%list)
                    (fun _ => ret devices) ;;
      discover_loop rest devices'
  end.

(** The dictionary [discover_devices] returns at the end of the [try]
    block. *)
Definition discovered (devices : list Json) : Dict :=
  [("success", JBool true);
   ("device_count", JInt (Z.of_nat (List.length devices)));
   ("devices", JList devices);
   ("message",
    JStr ("Discovered " ++ str_of_nat (List.length devices)
          ++ " Google Home/Chromecast device(s)"))].

(** The dictionary [discover_devices] returns from its [except]
    clause. *)
Definition discovery_failed (e : Exn) : Dict :=
  [("success", JBool false);
   ("error", JStr e);
   ("message", JStr "Failed to discover devices")].

Definition discover_devices (args : Args) : M Dict :=
  let timeout := get (arg_timeout args) (number_of_int 10) in
  try_catch
    (r <- run_get_chromecasts dl timeout ;;
     set_chromecasts (fst r) ;;
     t <- time_time ;;
     set_last_discovery_time t ;;
     stop_browser dl (snd r) ;;
     s <- get_self ;;
     devices <- discover_loop (chromecasts s) [] ;;
     ret (discovered devices))
    (fun e => ret (discovery_failed e)).

(** The entry of one device in [list_devices]. *)
Definition list_entry (cast : Chromecast) : Json :=
  JDict [("name", JStr (name cast));
         ("model", JStr (model_name cast));
         ("host", JStr (host cast));
         ("uuid", JStr (uuid cast))].

Definition list_devices : M Dict :=
  try_catch
    (s <- get_self ;;
     match chromecasts s with
     | [] =>
         ret [("success", JBool false);
              ("message",
               JStr "No devices found. Please run discover_devices first.");
              ("devices", JList [])]
     | _ :: _ =>
         let devices := map list_entry (chromecasts s) in
         let discovery_time := discovery_time_text (last_discovery_time s) in
         ret [("success", JBool true);
              ("device_count", JInt (Z.of_nat (List.length devices)));
              ("devices", JList devices);
              ("last_discovery", JStr discovery_time);
              ("message",
               JStr ("Found " ++ str_of_nat (List.length devices)
                     ++ " cached device(s)"))]
     end)
    (fun e => ret [("success", JBool false); ("error", JStr e)]).

(** The loop of [_find_device]. *)
Fixpoint find_loop (casts : list Chromecast) (device_name : string)
  : option Chromecast :=
  match casts with
  | [] => None
  | cast :: rest =>
      if String.eqb (lower (name cast)) (lower device_name)
         || String.eqb (lower (friendly_name cast)) (lower device_name)
      then Some cast
      else find_loop rest device_name
  end.

Definition _find_device (s : Server) (device_name : string)
  : option Chromecast :=
  find_loop (chromecasts s) device_name.

(** The [status["media"]] dictionary of [get_device_status]. *)
Definition media_dict (ms : MediaStatus) : Json :=
  JDict [("content_id", JOptStr (content_id ms));
         ("content_type", JOptStr (content_type ms));
         ("title", JOptStr (title ms));
         ("artist", JOptStr (artist ms));
         ("album", JOptStr (album_name ms));
         ("player_state", JStr (player_state ms));
         ("duration", JOptNum (duration ms));
         ("current_time", JNum (current_time ms))].

Definition get_device_status (args : Args) : M Dict :=
  let device_name := get (arg_device_name args) "" in
  try_catch
    (s <- get_self ;;
     match _find_device s device_name with
     | None =>
         ret [("success", JBool false);
              ("error",
               JStr ("Device '" ++ device_name
                     ++ "' not found. Please run discover_devices first."))]
     | Some cast =>
         call dl (Wait cast) ;;
         level <- read_volume_level dl cast ;;
         muted <- read_volume_muted dl cast ;;
         let status :=
           [("name", JStr (name cast));
            ("model", JStr (model_name cast));
            ("is_idle", JBool (is_idle (live dl cast)));
            ("app_id", JOptStr (app_id (live dl cast)));
            ("app_display_name", JOptStr (app_display_name (live dl cast)));
            ("volume_level", JNum level);
            ("volume_muted", JBool muted)] in
         let status :=
           match media_status (live dl cast) with
           | Some ms => (status ++ [("media", media_dict ms)])%list
           | None => status
           end in
         ret [("success", JBool true);
              ("status", JDict status);
              ("message", JStr ("Status retrieved for " ++ device_name))]
     end)
    (fun e => ret [("success", JBool false); ("error", JStr e)]).

(** The error dictionary of the commands for an unknown device. *)
Definition not_found (device_name : string) : Dict :=
  [("success", JBool false);
   ("error", JStr ("Device '" ++ device_name ++ "' not found"))].

Definition play_media (args : Args) : M Dict :=
  let device_name := get (arg_device_name args) "" in
  let media_url := get (arg_media_url args) "" in
  let content_type := get (arg_content_type args) "audio/mp3" in
  let title := get (arg_title args) "" in
  try_catch
    (s <- get_self ;;
     match _find_device s device_name with
     | None => ret (not_found device_name)
     | Some cast =>
         call dl (Wait cast) ;;
         call dl (PlayMedia cast media_url content_type (Some title)) ;;
         call dl (BlockUntilActive cast) ;;
         ret [("success", JBool true);
              ("device", JStr device_name);
              ("media_url", JStr media_url);
              ("message", JStr ("Playing media on " ++ device_name))]
     end)
    (fun e => ret [("success", JBool false); ("error", JStr e)]).

Definition pause_media (args : Args) : M Dict :=
  let device_name := get (arg_device_name args) "" in
  try_catch
    (s <- get_self ;;
     match _find_device s device_name with
     | None => ret (not_found device_name)
     | Some cast =>
         call dl (Wait cast) ;;
         call dl (Pause cast) ;;
         ret [("success", JBool true);
              ("message", JStr ("Paused playback on " ++ device_name))]
     end)
    (fun e => ret [("success", JBool false); ("error", JStr e)]).

Definition resume_media (args : Args) : M Dict :=
  let device_name := get (arg_device_name args) "" in
  try_catch
    (s <- get_self ;;
     match _find_device s device_name with
     | None => ret (not_found device_name)
     | Some cast =>
         call dl (Wait cast) ;;
         call dl (Play cast) ;;
         ret [("success", JBool true);
              ("message", JStr ("Resumed playback on " ++ device_name))]
     end)
    (fun e => ret [("success", JBool false); ("error", JStr e)]).

Definition stop_media (args : Args) : M Dict :=
  let device_name := get (arg_device_name args) "" in
  try_catch
    (s <- get_self ;;
     match _find_device s device_name with
     | None => ret (not_found device_name)
     | Some cast =>
         call dl (Wait cast) ;;
         call dl (Stop cast) ;;
         ret [("success", JBool true);
              ("message", JStr ("Stopped playback on " ++ device_name))]
     end)
    (fun e => ret [("success", JBool false); ("error", JStr e)]).

Definition set_volume (args : Args) : M Dict :=
  let device_name := get (arg_device_name args) "" in
  let volume := get (arg_volume args) number_half in
  try_catch
    (s <- get_self ;;
     match _find_device s device_name with
     | None => ret (not_found device_name)
     | Some cast =>
         call dl (Wait cast) ;;
         call dl (SetVolume cast volume) ;;
         percent <- int_of_percent volume ;;
         ret [("success", JBool true);
              ("device", JStr device_name);
              ("volume", JNum volume);
              ("message",
               JStr ("Set volume to " ++ str_of_Z percent
                     ++ "% on " ++ device_name))]
     end)
    (fun e => ret [("success", JBool false); ("error", JStr e)]).

Definition speak_text (args : Args) : M Dict :=
  let device_name := get (arg_device_name args) "" in
  let text := get (arg_text args) "" in
  let language := get (arg_language args) "vi-VN" in
  try_catch
    (s <- get_self ;;
     match _find_device s device_name with
     | None => ret (not_found device_name)
     | Some cast =>
         let url := tts_url language text in
         call dl (Wait cast) ;;
         call dl (PlayMedia cast url "audio/mp3" None) ;;
         call dl (BlockUntilActive cast) ;;
         ret [("success", JBool true);
              ("device", JStr device_name);
              ("text", JStr text);
              ("language", JStr language);
              ("message", JStr ("Speaking text on " ++ device_name))]
     end)
    (fun e => ret [("success", JBool false); ("error", JStr e)]).

(** *** The tool layer *)

Section Router.
Context {LIB : PyLibrary}.

Definition list_tools : list Tool :=
  [{| tool_name := "discover_devices";
     description :=
       "Discover all Google Home/Chromecast devices on the local network";
     inputSchema :=
       JDict
         [("type", JStr "object");
          ("properties", JDict
           [("timeout", JDict
             [("type", JStr "number");
              ("description", JStr "Discovery timeout in seconds (default: 10)");
              ("default", JInt 10)])])] |};
   {| tool_name := "list_devices";
     description :=
       "List all previously discovered Google Home/Chromecast devices";
     inputSchema :=
       JDict
         [("type", JStr "object");
          ("properties", JDict [])] |};
   {| tool_name := "get_device_status";
     description :=
       "Get current status of a specific Google Home device";
     inputSchema :=
       JDict
         [("type", JStr "object");
          ("properties", JDict
           [("device_name", JDict
             [("type", JStr "string");
              ("description", JStr "Name of the Google Home device")])]);
          ("required", JList [JStr "device_name"])] |};
   {| tool_name := "play_media";
     description :=
       "Play media (audio/video URL) on a Google Home device";
     inputSchema :=
       JDict
         [("type", JStr "object");
          ("properties", JDict
           [("device_name", JDict
             [("type", JStr "string");
              ("description", JStr "Name of the Google Home device")]);
            ("media_url", JDict
             [("type", JStr "string");
              ("description", JStr "URL of the media to play (mp3, mp4, etc.)")]);
            ("content_type", JDict
             [("type", JStr "string");
              ("description", JStr "MIME type of the media (e.g., 'audio/mp3', 'video/mp4')");
              ("default", JStr "audio/mp3")]);
            ("title", JDict
             [("type", JStr "string");
              ("description", JStr "Title to display (optional)")])]);
          ("required", JList [JStr "device_name"; JStr "media_url"])] |};
   {| tool_name := "pause_media";
     description :=
       "Pause playback on a Google Home device";
     inputSchema :=
       JDict
         [("type", JStr "object");
          ("properties", JDict
           [("device_name", JDict
             [("type", JStr "string");
              ("description", JStr "Name of the Google Home device")])]);
          ("required", JList [JStr "device_name"])] |};
   {| tool_name := "resume_media";
     description :=
       "Resume playback on a Google Home device";
     inputSchema :=
       JDict
         [("type", JStr "object");
          ("properties", JDict
           [("device_name", JDict
             [("type", JStr "string");
              ("description", JStr "Name of the Google Home device")])]);
          ("required", JList [JStr "device_name"])] |};
   {| tool_name := "stop_media";
     description :=
       "Stop playback on a Google Home device";
     inputSchema :=
       JDict
         [("type", JStr "object");
          ("properties", JDict
           [("device_name", JDict
             [("type", JStr "string");
              ("description", JStr "Name of the Google Home device")])]);
          ("required", JList [JStr "device_name"])] |};
   {| tool_name := "set_volume";
     description :=
       "Set volume level on a Google Home device";
     inputSchema :=
       JDict
         [("type", JStr "object");
          ("properties", JDict
           [("device_name", JDict
             [("type", JStr "string");
              ("description", JStr "Name of the Google Home device")]);
            ("volume", JDict
             [("type", JStr "number");
              ("description", JStr "Volume level (0.0 to 1.0)");
              ("minimum", JNum (number_of_int 0));
              ("maximum", JNum (number_of_int 1))])]);
          ("required", JList [JStr "device_name"; JStr "volume"])] |};
   {| tool_name := "speak_text";
     description :=
       "Use Google TTS to speak text on a Google Home device";
     inputSchema :=
       JDict
         [("type", JStr "object");
          ("properties", JDict
           [("device_name", JDict
             [("type", JStr "string");
              ("description", JStr "Name of the Google Home device")]);
            ("text", JDict
             [("type", JStr "string");
              ("description", JStr "Text to speak")]);
            ("language", JDict
             [("type", JStr "string");
              ("description", JStr "Language code (e.g., 'en', 'vi', 'en-US', 'vi-VN')");
              ("default", JStr "vi-VN")])]);
          ("required", JList [JStr "device_name"; JStr "text"])] |}].

(** The [else] branch of [call_tool]. *)
Definition unknown_tool (name : string) : Dict :=
  [("success", JBool false); ("error", JStr ("Unknown tool: " ++ name))].

(** The chain [if name == ...: result = await ...] of [call_tool]. *)
Definition dispatch (name : string) (arguments : Args) : M Dict :=
  if String.eqb name "discover_devices" then discover_devices arguments
  else if String.eqb name "list_devices" then list_devices
  else if String.eqb name "get_device_status" then
    get_device_status arguments
  else if String.eqb name "play_media" then play_media arguments
  else if String.eqb name "pause_media" then pause_media arguments
  else if String.eqb name "resume_media" then resume_media arguments
  else if String.eqb name "stop_media" then stop_media arguments
  else if String.eqb name "set_volume" then set_volume arguments
  else if String.eqb name "speak_text" then speak_text arguments
  else ret (unknown_tool name).

Definition call_tool (name : string) (arguments : Args)
  : M (list TextContent) :=
  try_catch
    (result <- dispatch name arguments ;;
     ret [{| tc_type := "text"; tc_text := json_dumps result |}])
    (fun e =>
       ret [{| tc_type := "text";
               tc_text := json_dumps_ascii
                         [("success", JBool false); ("error", JStr e)] |}]).

End Router.

End Server.
End GoogleHome.

(** ** [mcp_server.py]: class [UnifiedMCPServer]

    The same operations with other messages; here the locator runs
    before the [try] block of a command. *)

Module Unified.
Section Server.
Context {RT : PyRuntime}.
Variable dl : DeviceLayer.
Local Open Scope py_scope.

(** The dictionary appended for one device in [discover_devices]. *)
Definition device_info (cast : Chromecast) : Json :=
  JDict [("name", JStr (name cast));
         ("friendly_name", JStr (friendly_name cast));
         ("model", JStr (model_name cast));
         ("host", JStr (host cast));
         ("uuid", JStr (uuid cast))].

Fixpoint discover_loop (casts : list Chromecast) (devices : list Json)
  : M (list Json) :=
  match casts with
  | [] => ret devices
  | cast :: rest =>
      devices' <- try_catch
                    (call dl (Wait cast) ;;
                     ret (devices ++ [device_info cast])%list)
                    (fun _ => ret devices) ;;
      discover_loop rest devices'
  end.

Definition discovered (devices : list Json) : Dict :=
  [("success", JBool true);
   ("device_count", JInt (Z.of_nat (List.length devices)));
   ("devices", JList devices);
   ("message",
    JStr ("Tìm thấy " ++ str_of_nat (List.length devices)
          ++ " thiết bị Google Home/Chromecast"))].

Definition discovery_failed (e : Exn) : Dict :=
  [("success", JBool false);
   ("error", JStr e);
   ("message", JStr "Không thể khám phá thiết bị")].

Definition discover_devices (args : Args) : M Dict :=
  let timeout := get (arg_timeout args) (number_of_int 10) in
  try_catch
    (r <- run_get_chromecasts dl timeout ;;
     set_chromecasts (fst r) ;;
     t <- time_time ;;
     set_last_discovery_time t ;;
     stop_browser dl (snd r) ;;
     s <- get_self ;;
     devices <- discover_loop (chromecasts s) [] ;;
     ret (discovered devices))
    (fun e => ret (discovery_failed e)).

Definition list_entry (cast : Chromecast) : Json :=
  JDict [("name", JStr (name cast));
         ("model", JStr (model_name cast));
         ("host", JStr (host cast))].

Definition list_devices : M Dict :=
  s <- get_self ;;
  match chromecasts s with
  | [] =>
      ret [("success", JBool false);
           ("message",
            JStr "Chưa có thiết bị. Hãy chạy discover_google_home trước.");
           ("devices", JList [])]
  | _ :: _ =>
      let devices := map list_entry (chromecasts s) in
      ret [("success", JBool true);
           ("device_count", JInt (Z.of_nat (List.length devices)));
           ("devices", JList devices);
           ("last_discovery",
            JStr (discovery_time_text (last_discovery_time s)))]
  end.

Fixpoint find_loop (casts : list Chromecast) (device_name : string)
  : option Chromecast :=
  match casts with
  | [] => None
  | cast :: rest =>
      if String.eqb (lower (name cast)) (lower device_name)
         || String.eqb (lower (friendly_name cast)) (lower device_name)
      then Some cast
      else find_loop rest device_name
  end.

Definition _find_device (s : Server) (device_name : string)
  : option Chromecast :=
  find_loop (chromecasts s) device_name.

Definition media_dict (ms : MediaStatus) : Json :=
  JDict [("title", JOptStr (title ms));
         ("artist", JOptStr (artist ms));
         ("player_state", JStr (player_state ms));
         ("duration", JOptNum (duration ms));
         ("current_time", JNum (current_time ms))].

(** The error dictionary that names the device. *)
Definition not_found_named (device_name : string) : Dict :=
  [("success", JBool false);
   ("error", JStr ("Không tìm thấy thiết bị '" ++ device_name ++ "'"))].

(** The error dictionary of [pause_media], [resume_media], [stop_media]
    and [set_volume]. *)
Definition not_found : Dict :=
  [("success", JBool false); ("error", JStr "Không tìm thấy thiết bị")].

Definition failed (e : Exn) : M Dict :=
  ret [("success", JBool false); ("error", JStr e)].

Definition get_device_status (args : Args) : M Dict :=
  let device_name := get (arg_device_name args) "" in
  s <- get_self ;;
  match _find_device s device_name with
  | None => ret (not_found_named device_name)
  | Some cast =>
      try_catch
        (call dl (Wait cast) ;;
         level <- read_volume_level dl cast ;;
         muted <- read_volume_muted dl cast ;;
         let status :=
           [("name", JStr (name cast));
            ("model", JStr (model_name cast));
            ("is_idle", JBool (is_idle (live dl cast)));
            ("app", JOptStr (app_display_name (live dl cast)));
            ("volume_level", JNum level);
            ("volume_muted", JBool muted)] in
         let status :=
           match media_status (live dl cast) with
           | Some ms => (status ++ [("media", media_dict ms)])%list
           | None => status
           end in
         ret [("success", JBool true); ("status", JDict status)])
        failed
  end.

Definition play_media (args : Args) : M Dict :=
  let device_name := get (arg_device_name args) "" in
  let media_url := get (arg_media_url args) "" in
  let content_type := get (arg_content_type args) "audio/mp3" in
  let title := get (arg_title args) "" in
  s <- get_self ;;
  match _find_device s device_name with
  | None => ret (not_found_named device_name)
  | Some cast =>
      try_catch
        (call dl (Wait cast) ;;
         call dl (PlayMedia cast media_url content_type (Some title)) ;;
         call dl (BlockUntilActive cast) ;;
         ret [("success", JBool true);
              ("message", JStr ("Đang phát trên " ++ device_name))])
        failed
  end.

Definition pause_media (args : Args) : M Dict :=
  s <- get_self ;;
  match _find_device s (get (arg_device_name args) "") with
  | None => ret not_found
  | Some cast =>
      try_catch
        (call dl (Wait cast) ;;
         call dl (Pause cast) ;;
         ret [("success", JBool true); ("message", JStr "Đã tạm dừng")])
        failed
  end.

Definition resume_media (args : Args) : M Dict :=
  s <- get_self ;;
  match _find_device s (get (arg_device_name args) "") with
  | None => ret not_found
  | Some cast =>
      try_catch
        (call dl (Wait cast) ;;
         call dl (Play cast) ;;
         ret [("success", JBool true); ("message", JStr "Đã tiếp tục phát")])
        failed
  end.

Definition stop_media (args : Args) : M Dict :=
  s <- get_self ;;
  match _find_device s (get (arg_device_name args) "") with
  | None => ret not_found
  | Some cast =>
      try_catch
        (call dl (Wait cast) ;;
         call dl (Stop cast) ;;
         ret [("success", JBool true); ("message", JStr "Đã dừng phát")])
        failed
  end.

Definition set_volume (args : Args) : M Dict :=
  s <- get_self ;;
  let found := _find_device s (get (arg_device_name args) "") in
  let volume := get (arg_volume args) number_half in
  match found with
  | None => ret not_found
  | Some cast =>
      try_catch
        (call dl (Wait cast) ;;
         call dl (SetVolume cast volume) ;;
         percent <- int_of_percent volume ;;
         ret [("success", JBool true);
              ("volume", JNum volume);
              ("message",
               JStr ("Đã đặt âm lượng " ++ str_of_Z percent ++ "%"))])
        failed
  end.

Definition speak_text (args : Args) : M Dict :=
  let device_name := get (arg_device_name args) "" in
  let text := get (arg_text args) "" in
  let language := get (arg_language args) "vi-VN" in
  s <- get_self ;;
  match _find_device s device_name with
  | None => ret (not_found_named device_name)
  | Some cast =>
      try_catch
        (let url := tts_url language text in
         call dl (Wait cast) ;;
         call dl (PlayMedia cast url "audio/mp3" None) ;;
         call dl (BlockUntilActive cast) ;;
         ret [("success", JBool true);
              ("message", JStr ("Đang nói trên " ++ device_name))])
        failed
  end.

(** *** The data tools *)

Section DataTools.
Context {LIB : PyLibrary}.
Variable http : HttpLayer.
Variable environ : Environ.

(** [ADAPTER_URL = os.getenv("ADAPTER_URL", "https://xiaozhi_music.monpham.work")] *)
Definition ADAPTER_URL : string :=
  get (env_ADAPTER_URL environ) "https://xiaozhi_music.monpham.work".

(** [VERIFY_SSL = os.getenv("VERIFY_SSL", "true").lower() in ("true", "1", "yes")] *)
Definition VERIFY_SSL : bool :=
  let value := lower (get (env_VERIFY_SSL environ) "true") in
  String.eqb value "true" || String.eqb value "1" || String.eqb value "yes".

(** [httpx.AsyncClient(timeout=15.0)] *)
Definition data_client : Client :=
  {| client_timeout := float_literal "15.0"; client_verify := true |}.

(** The state of the loop of [get_gold_price]: [sjc_data],
    [nhan_tron_data] and [seen_types]. *)
Record GoldState : Type := {
  sjc_data : option Json;
  nhan_tron_data : option Json;
  seen_types : list string
}.

Definition seen (key : string) (state : GoldState) : bool :=
  existsb (String.eqb key) (seen_types state).

(** The dictionary built for a matching row. *)
Definition gold_entry (kind : string) (purity buy_price sell_price
    update_date : Json) : M Json :=
  buy <- format_price buy_price ;;
  sell <- format_price sell_price ;;
  ret (JDict [("type", JStr kind);
              ("purity", purity);
              ("buy", JStr buy);
              ("sell", JStr sell);
              ("updated", update_date)]).

(** The body of [for item in data_list:]. *)
Definition gold_step (item : Json) (state : GoldState) : M GoldState :=
  row <- py_get item "@row" (JStr "1") ;;
  name <- py_get item ("@n_" ++ py_str row) (JStr "") ;;
  buy_price <- py_get item ("@pb_" ++ py_str row) (JStr "0") ;;
  sell_price <- py_get item ("@ps_" ++ py_str row) (JStr "0") ;;
  update_date <- py_get item ("@d_" ++ py_str row) (JStr "") ;;
  purity <- py_get item ("@h_" ++ py_str row) (JStr "") ;;
  upper_name <- py_upper name ;;
  state <-
    (if contains "SJC" upper_name && contains "VÀNG MIẾNG" upper_name
        && negb (seen "SJC" state)
     then
       entry <- gold_entry "VÀNG MIẾNG SJC" purity buy_price sell_price
                  update_date ;;
       ret {| sjc_data := Some entry;
              nhan_tron_data := nhan_tron_data state;
              seen_types := ("SJC" :: seen_types state)%list |}
     else ret state) ;;
  if contains "NHẪN TRÒN TRƠN" upper_name && negb (seen "NHAN_TRON" state)
  then
    entry <- gold_entry "NHẪN TRÒN TRƠN" purity buy_price sell_price
               update_date ;;
    ret {| sjc_data := sjc_data state;
           nhan_tron_data := Some entry;
           seen_types := ("NHAN_TRON" :: seen_types state)%list |}
  else ret state.

Fixpoint gold_loop (items : list Json) (state : GoldState) : M GoldState :=
  match items with
  | [] => ret state
  | item :: rest =>
      state' <- gold_step item state ;;
      gold_loop rest state'
  end.

(** [for item in data_list:] for a truthy [data_list]: the items of a
    list are visited; a dictionary or a string yields strings, on the
    first of which [item.get] raises; a number cannot be iterated. *)
Definition gold_rows (data_list : Json) : M GoldState :=
  let state :=
    {| sjc_data := None; nhan_tron_data := None; seen_types := [] |} in
  match data_list with
  | JList items => gold_loop items state
  | JDict _ | JStr _ => raise "'str' object has no attribute 'get'"
  | _ => raise ("'" ++ type_name data_list ++ "' object is not iterable")
  end.

Definition gold_not_found : Exn := "SJC or NHẪN TRÒN TRƠN not found".

Definition get_gold_price : M Dict :=
  try_catch
    (response <- client_get http data_client
                   "http://api.btmc.vn/api/BTMCAPI/getpricebtmc"
                   [("key", JStr "3kd8ub1llcg9t45hnoh8hmn7t5kc2v")] ;;
     check_status response ;;
     data <- read_json response ;;
     current_time <- (fun w => ret (now_text (clock w)) w) ;;
     match data with
     | JDict d =>
         match dict_get d "DataList" with
         | Some data_list_holder =>
             data_list <- py_get data_list_holder "Data" (JList []) ;;
             (if truthy data_list then ret tt
              else raise "No data in BTMC response") ;;
             state <- gold_rows data_list ;;
             let gold_data :=
               (match sjc_data state with Some e => [e] | None => [] end
                ++ match nhan_tron_data state with
                   | Some e => [e]
                   | None => []
                   end)%list in
             match gold_data with
             | _ :: _ =>
                 ret [("success", JBool true);
                      ("timestamp", JStr current_time);
                      ("source", JStr "Bảo Tín Minh Châu (BTMC)");
                      ("data", JList gold_data);
                      ("message",
                       JStr ("Cập nhật giá vàng BTMC lúc " ++ current_time));
                      ("note", JStr "Đơn vị: VNĐ/lượng")]
             | [] => raise gold_not_found
             end
         | None => raise gold_not_found
         end
     | _ => raise gold_not_found
     end)
    (fun e =>
       ret [("success", JBool false);
            ("error", JStr e);
            ("message", JStr "Không thể lấy giá vàng từ API")]).

(** [for exrate in root.findall('.//Exrate'):] of [get_usd_rate] *)
Fixpoint usd_loop (exrates : list (list (string * string))) : M Dict :=
  match exrates with
  | [] => raise "USD rate not found"
  | exrate :: rest =>
      let attribute key :=
        match find (fun kv => String.eqb (fst kv) key) exrate with
        | Some kv => Some (snd kv)
        | None => None
        end in
      match attribute "CurrencyCode" with
      | Some code =>
          if String.eqb code "USD" then
            fun w =>
              ret [("success", JBool true);
                   ("timestamp", JStr (now_text (clock w)));
                   ("bank", JStr "Vietcombank");
                   ("data",
                    JDict [("currency", JStr "USD");
                           ("buy_cash", JOptStr (attribute "Buy"));
                           ("buy_transfer", JOptStr (attribute "Transfer"));
                           ("sell", JOptStr (attribute "Sell"))])] w
          else usd_loop rest
      | None => usd_loop rest
      end
  end.

Definition get_usd_rate : M Dict :=
  try_catch
    (response <- client_get http data_client
                   "https://portal.vietcombank.com.vn/Usercontrols/TVPortal.TyGia/pXML.aspx?b=10"
                   [] ;;
     check_status response ;;
     match xml_exrates (response_text response) with
     | inl e => raise e
     | inr exrates => usd_loop exrates
     end)
    failed.

(** [f"{value:,.2f}"]: only numbers take the format. *)
Definition format_money (value : Json) : M string :=
  match value with
  | JInt _ | JNum _ | JBool _ =>
      match format_2f value with
      | inl e => raise e
      | inr formatted => ret formatted
      end
  | JNone => raise "unsupported format string passed to NoneType.__format__"
  | JStr _ => raise "Unknown format code 'f' for object of type 'str'"
  | JList _ => raise "unsupported format string passed to list.__format__"
  | JDict _ => raise "unsupported format string passed to dict.__format__"
  end.

Definition get_bitcoin_price : M Dict :=
  try_catch
    (response <- client_get http data_client
                   "https://api.coingecko.com/api/v3/simple/price"
                   [("ids", JStr "bitcoin");
                    ("vs_currencies", JStr "usd,vnd");
                    ("include_24hr_change", JStr "true")] ;;
     check_status response ;;
     data <- read_json response ;;
     btc_data <- py_get data "bitcoin" (JDict []) ;;
     timestamp <- (fun w => ret (now_text (clock w)) w) ;;
     price_usd <- py_get btc_data "usd" JNone ;;
     price_vnd <- py_get btc_data "vnd" JNone ;;
     change_24h <- py_get btc_data "usd_24h_change" JNone ;;
     usd <- py_get btc_data "usd" JNone ;;
     formatted <- format_money usd ;;
     ret [("success", JBool true);
          ("timestamp", JStr timestamp);
          ("price_usd", price_usd);
          ("price_vnd", price_vnd);
          ("change_24h", change_24h);
          ("message", JStr ("Bitcoin: $" ++ formatted ++ " USD"))])
    failed.

(** The dictionary [weather_codes] of [get_weather]. *)
Definition weather_codes : list (Z * string) :=
  [(0, "Quang đãng"); (1, "Chủ yếu quang đãng"); (2, "Một phần có mây");
   (3, "U ám"); (61, "Mưa nhỏ"); (63, "Mưa vừa"); (65, "Mưa to");
   (95, "Dông")]%Z.

Definition lookup_code (code : Z) (default : string) : string :=
  match find (fun entry => Z.eqb (fst entry) code) weather_codes with
  | Some entry => snd entry
  | None => default
  end.

(** [weather_codes.get(key, default)]: an integer key is looked up, as
    is a boolean or a float equal to an integer; a string or [None]
    is no key of the dictionary; a list or a dictionary cannot be
    hashed. *)
Definition weather_codes_get (key : Json) (default : string) : M string :=
  match key with
  | JInt code => ret (lookup_code code default)
  | JBool b => ret (lookup_code (if b then 1 else 0)%Z default)
  | JNum x =>
      match number_as_int x with
      | Some code => ret (lookup_code code default)
      | None => ret default
      end
  | JStr _ | JNone => ret default
  | JList _ => raise "unhashable type: 'list'"
  | JDict _ => raise "unhashable type: 'dict'"
  end.

(** The city, latitude and longitude [get_weather] asks for. *)
Definition weather_place (city : string) : string * Number * Number :=
  if String.eqb (lower city) "cao lanh"
     || String.eqb (lower city) "cao lãnh"
  then ("Cao Lanh", float_literal "10.4606", float_literal "105.6328")
  else ("Ho Chi Minh City", float_literal "10.8231",
        float_literal "106.6297").

Definition get_weather (args : Arguments) : M Dict :=
  let city := get (arg_city args) "Ho Chi Minh" in
  let '(city_name, lat, lon) := weather_place city in
  try_catch
    (response <- client_get http data_client
                   "https://api.open-meteo.com/v1/forecast"
                   [("latitude", JNum lat);
                    ("longitude", JNum lon);
                    ("current",
                     JStr "temperature_2m,relative_humidity_2m,weather_code");
                    ("timezone", JStr "Asia/Bangkok");
                    ("forecast_days", JInt 1)] ;;
     check_status response ;;
     data <- read_json response ;;
     current <- py_get data "current" (JDict []) ;;
     temperature <- py_get current "temperature_2m" JNone ;;
     humidity <- py_get current "relative_humidity_2m" JNone ;;
     code <- py_get current "weather_code" (JInt 0) ;;
     weather <- weather_codes_get code "Không xác định" ;;
     shown <- py_get current "temperature_2m" JNone ;;
     ret [("success", JBool true);
          ("city", JStr city_name);
          ("temperature", temperature);
          ("humidity", humidity);
          ("weather", JStr weather);
          ("message", JStr (city_name ++ ": " ++ py_str shown ++ "°C"))])
    failed.

Definition get_adapter_status : M Dict :=
  try_catch
    (response <- client_get http
                   {| client_timeout := float_literal "5.0";
                      client_verify := VERIFY_SSL |}
                   (ADAPTER_URL ++ "/health") [] ;;
     check_status response ;;
     ret [("success", JBool true);
          ("adapter_url", JStr ADAPTER_URL);
          ("status", JStr "connected")])
    (fun e =>
       ret [("success", JBool false);
            ("adapter_url", JStr ADAPTER_URL);
            ("status", JStr "disconnected");
            ("error", JStr e)]).

(** *** The tool layer *)

Definition list_tools : list Tool :=
  [{| tool_name := "get_gold_price";
     description :=
       "Lấy giá vàng trong nước (SJC, PNJ, DOJI, etc.)";
     inputSchema :=
       JDict
         [("type", JStr "object");
          ("properties", JDict [])] |};
   {| tool_name := "get_usd_rate";
     description :=
       "Lấy tỷ giá USD/VND (Vietcombank, giá chợ đen)";
     inputSchema :=
       JDict
         [("type", JStr "object");
          ("properties", JDict [])] |};
   {| tool_name := "get_bitcoin_price";
     description :=
       "Lấy giá Bitcoin hiện tại (USD và VND)";
     inputSchema :=
       JDict
         [("type", JStr "object");
          ("properties", JDict [])] |};
   {| tool_name := "get_weather";
     description :=
       "Lấy thông tin thời tiết cho khu vực Cao Lãnh hoặc TP. Hồ Chí Minh";
     inputSchema :=
       JDict
         [("type", JStr "object");
          ("properties", JDict
           [("city", JDict
             [("type", JStr "string");
              ("description", JStr "Tên thành phố: 'Cao Lãnh' hoặc 'Ho Chi Minh'");
              ("enum", JList [JStr "Cao Lãnh"; JStr "Ho Chi Minh"; JStr "Cao Lanh"; JStr "HCM"; JStr "Saigon"])])]);
          ("required", JList [JStr "city"])] |};
   {| tool_name := "adapter_status";
     description :=
       "Check adapter service connection status";
     inputSchema :=
       JDict
         [("type", JStr "object");
          ("properties", JDict [])] |};
   {| tool_name := "discover_google_home";
     description :=
       "Khám phá thiết bị Google Home/Chromecast trên mạng";
     inputSchema :=
       JDict
         [("type", JStr "object");
          ("properties", JDict
           [("timeout", JDict
             [("type", JStr "number");
              ("description", JStr "Thời gian chờ (giây, mặc định: 10)");
              ("default", JInt 10)])])] |};
   {| tool_name := "list_google_home";
     description :=
       "Liệt kê các thiết bị Google Home đã tìm thấy";
     inputSchema :=
       JDict
         [("type", JStr "object");
          ("properties", JDict [])] |};
   {| tool_name := "google_home_status";
     description :=
       "Kiểm tra trạng thái thiết bị Google Home";
     inputSchema :=
       JDict
         [("type", JStr "object");
          ("properties", JDict
           [("device_name", JDict
             [("type", JStr "string");
              ("description", JStr "Tên thiết bị Google Home")])]);
          ("required", JList [JStr "device_name"])] |};
   {| tool_name := "play_on_google_home";
     description :=
       "Phát nhạc/audio trên Google Home";
     inputSchema :=
       JDict
         [("type", JStr "object");
          ("properties", JDict
           [("device_name", JDict
             [("type", JStr "string");
              ("description", JStr "Tên thiết bị Google Home")]);
            ("media_url", JDict
             [("type", JStr "string");
              ("description", JStr "URL của file nhạc/audio (mp3, mp4, etc.)")]);
            ("content_type", JDict
             [("type", JStr "string");
              ("description", JStr "MIME type (e.g., 'audio/mp3')");
              ("default", JStr "audio/mp3")]);
            ("title", JDict
             [("type", JStr "string");
              ("description", JStr "Tiêu đề hiển thị")])]);
          ("required", JList [JStr "device_name"; JStr "media_url"])] |};
   {| tool_name := "google_home_pause";
     description :=
       "Tạm dừng phát nhạc trên Google Home";
     inputSchema :=
       JDict
         [("type", JStr "object");
          ("properties", JDict
           [("device_name", JDict
             [("type", JStr "string");
              ("description", JStr "Tên thiết bị")])]);
          ("required", JList [JStr "device_name"])] |};
   {| tool_name := "google_home_resume";
     description :=
       "Tiếp tục phát nhạc trên Google Home";
     inputSchema :=
       JDict
         [("type", JStr "object");
          ("properties", JDict
           [("device_name", JDict
             [("type", JStr "string");
              ("description", JStr "Tên thiết bị")])]);
          ("required", JList [JStr "device_name"])] |};
   {| tool_name := "google_home_stop";
     description :=
       "Dừng phát nhạc trên Google Home";
     inputSchema :=
       JDict
         [("type", JStr "object");
          ("properties", JDict
           [("device_name", JDict
             [("type", JStr "string");
              ("description", JStr "Tên thiết bị")])]);
          ("required", JList [JStr "device_name"])] |};
   {| tool_name := "google_home_volume";
     description :=
       "Điều chỉnh âm lượng Google Home";
     inputSchema :=
       JDict
         [("type", JStr "object");
          ("properties", JDict
           [("device_name", JDict
             [("type", JStr "string");
              ("description", JStr "Tên thiết bị")]);
            ("volume", JDict
             [("type", JStr "number");
              ("description", JStr "Mức âm lượng (0.0 - 1.0)");
              ("minimum", JNum (number_of_int 0));
              ("maximum", JNum (number_of_int 1))])]);
          ("required", JList [JStr "device_name"; JStr "volume"])] |};
   {| tool_name := "google_home_speak";
     description :=
       "Dùng Google TTS để nói văn bản trên Google Home";
     inputSchema :=
       JDict
         [("type", JStr "object");
          ("properties", JDict
           [("device_name", JDict
             [("type", JStr "string");
              ("description", JStr "Tên thiết bị")]);
            ("text", JDict
             [("type", JStr "string");
              ("description", JStr "Văn bản cần nói")]);
            ("language", JDict
             [("type", JStr "string");
              ("description", JStr "Mã ngôn ngữ (vi-VN, en-US, etc.)");
              ("default", JStr "vi-VN")])]);
          ("required", JList [JStr "device_name"; JStr "text"])] |}].

Definition unknown_tool (name : string) : Dict :=
  [("success", JBool false); ("error", JStr ("Unknown tool: " ++ name))].

(** The chain [if name == ...: result = await ...] of [call_tool]. *)
Definition dispatch (name : string) (arguments : Arguments) : M Dict :=
  if String.eqb name "get_gold_price" then get_gold_price
  else if String.eqb name "get_usd_rate" then get_usd_rate
  else if String.eqb name "get_bitcoin_price" then get_bitcoin_price
  else if String.eqb name "get_weather" then get_weather arguments
  else if String.eqb name "adapter_status" then get_adapter_status
  else if String.eqb name "discover_google_home" then
    discover_devices (device_arguments arguments)
  else if String.eqb name "list_google_home" then list_devices
  else if String.eqb name "google_home_status" then
    get_device_status (device_arguments arguments)
  else if String.eqb name "play_on_google_home" then
    play_media (device_arguments arguments)
  else if String.eqb name "google_home_pause" then
    pause_media (device_arguments arguments)
  else if String.eqb name "google_home_resume" then
    resume_media (device_arguments arguments)
  else if String.eqb name "google_home_stop" then
    stop_media (device_arguments arguments)
  else if String.eqb name "google_home_volume" then
    set_volume (device_arguments arguments)
  else if String.eqb name "google_home_speak" then
    speak_text (device_arguments arguments)
  else ret (unknown_tool name).

Definition call_tool (name : string) (arguments : Arguments)
  : M (list TextContent) :=
  try_catch
    (result <- dispatch name arguments ;;
     ret [{| tc_type := "text"; tc_text := json_dumps result |}])
    (fun e =>
       ret [{| tc_type := "text";
               tc_text := json_dumps_ascii
                            [("success", JBool false); ("error", JStr e)] |}]).

End DataTools.

End Server.
End Unified.

(** ** Vocabulary of the properties *)

Section Vocabulary.
Context {RT : PyRuntime}.

(** A world in which the server object is [s], no device-layer call
    has been made yet and the wall clock reads [now]. *)
Definition start (s : Server) (now : Z) : World :=
  {| self := s; trace := []; clock := now |}.

(** The name [device_name] designates [cast] under the comparison of
    [_find_device]: equal to the internal name or to the display name
    once both sides are lower-cased. *)
Definition designates (device_name : string) (cast : Chromecast) : Prop :=
  lower (name cast) = lower device_name
  \/ lower (friendly_name cast) = lower device_name.

(** No entry of [casts] is designated by [device_name]. *)
Definition no_match (device_name : string) (casts : list Chromecast) : Prop :=
  Forall (fun c => ~ designates device_name c) casts.

(** The value under ["success"] in a result dictionary. *)
Definition success (d : Dict) : option bool :=
  match dict_get d "success" with
  | Some (JBool b) => Some b
  | _ => None
  end.

(** The string under key [k] in a result dictionary. *)
Definition str_field (d : Dict) (k : string) : option string :=
  match dict_get d k with
  | Some (JStr s) => Some s
  | _ => None
  end.

(** The [play_media] calls of a trace, as (url, content type) pairs. *)
Fixpoint played (calls : list Call) : list (string * string) :=
  match calls with
  | [] => []
  | PlayMedia _ url ctype _ :: rest => (url, ctype) :: played rest
  | _ :: rest => played rest
  end.

(** Whether [cast.wait()] returns normally. *)
Definition reachable (dl : DeviceLayer) (cast : Chromecast) : bool :=
  match raises dl (Wait cast) with
  | None => true
  | Some _ => false
  end.

(** The world after [cast.wait()] was called on every entry of
    [casts], in order. *)
Definition after_waits (dl : DeviceLayer) (casts : list Chromecast)
    (w : World) : World :=
  fold_left (fun w' cast => after_call dl (Wait cast) w') casts w.

(** The world after [self.chromecasts] and [self.last_discovery_time]
    were assigned. *)
Definition with_registry (casts : list Chromecast) (t : Z) (w : World)
  : World :=
  {| self := {| chromecasts := casts; last_discovery_time := Some t |};
     trace := trace w;
     clock := clock w |}.

(** The timeout handed to the scan: [args.get("timeout", 10)]. *)
Definition timeout_of (args : Args) : Number :=
  get (arg_timeout args) (number_of_int 10).

(** The world after the scan returned [casts] and the two attributes
    were assigned. *)
Definition scanned (dl : DeviceLayer) (casts : list Chromecast)
    (args : Args) (w : World) : World :=
  let w1 := after_call dl (GetChromecasts (timeout_of args)) w in
  with_registry casts (clock w1) w1.

(** The exception of [if browser: browser.stop_discovery()], if any,
    and the world after that statement. *)
Definition stop_raises (dl : DeviceLayer) (browser : option Browser)
  : option Exn :=
  match browser with
  | Some b => raises dl (StopDiscovery b)
  | None => None
  end.

Definition after_stop (dl : DeviceLayer) (browser : option Browser)
    (w : World) : World :=
  match browser with
  | Some b => after_call dl (StopDiscovery b) w
  | None => w
  end.

(** The ["name"] entries of the reported device dictionaries. *)
Fixpoint reported_names (devices : list Json) : list string :=
  match devices with
  | [] => []
  | JDict d :: rest =>
      match dict_get d "name" with
      | Some (JStr n) => n :: reported_names rest
      | _ => reported_names rest
      end
  | _ :: rest => reported_names rest
  end.

(** The pairs [key=value] of the query component of a URL.  The
    fragment starts at the first [#] and is no part of the query; the
    query is the text after the first [?] of what stands before the
    fragment.  It is cut at every [&], and each piece at its first
    [=]. *)
Fixpoint split_at (sep : ascii) (s : string) : string * option string :=
  match s with
  | EmptyString => (EmptyString, None)
  | String c rest =>
      if Ascii.eqb c sep then (EmptyString, Some rest)
      else let '(head, tail) := split_at sep rest in (String c head, tail)
  end.

Fixpoint split_all (fuel : nat) (sep : ascii) (s : string) : list string :=
  match fuel with
  | O => [s]
  | S fuel' =>
      match split_at sep s with
      | (head, None) => [head]
      | (head, Some tail) => head :: split_all fuel' sep tail
      end
  end.

Definition query_params (url : string) : list (string * string) :=
  match snd (split_at "?" (fst (split_at "#" url))) with
  | None => []
  | Some q =>
      map (fun piece =>
             let '(k, v) := split_at "=" piece in (k, get v ""))
          (split_all (String.length q) "&" q)
  end.

(** *** Concrete devices and device layers *)

Definition bedroom : Chromecast :=
  {| name := "Bedroom"; friendly_name := "Bedroom Speaker";
     model_name := "Google Home Mini"; manufacturer := "Google Inc.";
     uuid := "4e9c1b2a-0000-4000-8000-000000000001";
     host := "192.168.1.20"; port := 8009; cast_type := "audio" |}.

Definition living_room : Chromecast :=
  {| name := "Living Room"; friendly_name := "Living Room";
     model_name := "Google Nest Hub"; manufacturer := "Google Inc.";
     uuid := "4e9c1b2a-0000-4000-8000-000000000002";
     host := "192.168.1.21"; port := 8009; cast_type := "cast" |}.

Definition idle_live : Live :=
  {| is_idle := true; app_id := None; app_display_name := None;
     status := Some {| volume_level := number_half; volume_muted := false |};
     media_status := None |}.

(** A device layer whose scan answers [scan], whose calls raise as
    [failing] says and take one clock tick each. *)
Definition layer (scan : Exn + (list Chromecast * option Browser))
    (failing : Call -> option Exn) : DeviceLayer :=
  {| get_chromecasts := fun _ => scan;
     raises := failing;
     elapsed := fun _ => 1%N;
     live := fun _ => idle_live |}.

Definition nothing_fails : Call -> option Exn := fun _ => None.

(** [browser.stop_discovery()] raises. *)
Definition stop_fails : Call -> option Exn :=
  fun c =>
    match c with
    | StopDiscovery _ => Some "Zeroconf instance already closed"
    | _ => None
    end.

(** [cast.wait()] raises for the device whose internal name is [n]. *)
Definition wait_fails_for (n : string) : Call -> option Exn :=
  fun c =>
    match c with
    | Wait cast =>
        if String.eqb (name cast) n then Some "Timed out waiting for device"
        else None
    | _ => None
    end.

(** The arguments as a command reads them, with its defaults. *)
Definition device_name_of (args : Args) : string :=
  get (arg_device_name args) "".

Definition text_of (args : Args) : string := get (arg_text args) "".

Definition language_of (args : Args) : string :=
  get (arg_language args) "vi-VN".

(** The arguments [{"device_name": d, "text": t, "language": l}]. *)
Definition speak_args (device_name text language : string) : Args :=
  {| arg_timeout := None; arg_device_name := Some device_name;
     arg_media_url := None; arg_content_type := None; arg_title := None;
     arg_volume := None; arg_text := Some text;
     arg_language := Some language |}.

(** The arguments [{"device_name": d}]. *)
Definition device_args (device_name : string) : Args :=
  {| arg_timeout := None; arg_device_name := Some device_name;
     arg_media_url := None; arg_content_type := None; arg_title := None;
     arg_volume := None; arg_text := None; arg_language := None |}.

(** The arguments [{"device_name": d, "volume": v}]. *)
Definition volume_args (device_name : string) (volume : Number) : Args :=
  {| arg_timeout := None; arg_device_name := Some device_name;
     arg_media_url := None; arg_content_type := None; arg_title := None;
     arg_volume := Some volume; arg_text := None; arg_language := None |}.

(** The number of occurrences of the byte [c] in [s]. *)
Fixpoint count_char (c : ascii) (s : string) : nat :=
  match s with
  | EmptyString => 0
  | String c' rest =>
      (if Ascii.eqb c' c then 1 else 0) + count_char c rest
  end.

(** A registry left by an earlier discovery. *)
Definition prior : Server :=
  {| chromecasts := [living_room]; last_discovery_time := Some 50%Z |}.

(** The scan raises. *)
Definition offline_layer : DeviceLayer :=
  layer (inl "[Errno 101] Network is unreachable") nothing_fails.

(** The scan finds both devices and everything answers. *)
Definition home_layer : DeviceLayer :=
  layer (inr ([bedroom; living_room], Some (BrowserHandle 1))) nothing_fails.

(** The scan finds the bedroom device, then stopping the browser
    raises. *)
Definition stop_error_layer : DeviceLayer :=
  layer (inr ([bedroom], Some (BrowserHandle 1))) stop_fails.

(** The scan finds nothing. *)
Definition empty_layer : DeviceLayer :=
  layer (inr ([], Some (BrowserHandle 1))) nothing_fails.

(** The scan finds nothing, then stopping the browser raises. *)
Definition empty_stop_error_layer : DeviceLayer :=
  layer (inr ([], Some (BrowserHandle 1))) stop_fails.

(** The scan finds both devices; the bedroom device does not answer
    [wait]. *)
Definition bedroom_down_layer : DeviceLayer :=
  layer (inr ([bedroom; living_room], Some (BrowserHandle 1)))
        (wait_fails_for "Bedroom").

(** The living-room device does not answer [wait]. *)
Definition living_room_down_layer : DeviceLayer :=
  layer (inr ([living_room], None)) (wait_fails_for "Living Room").

End Vocabulary.

(** *** A runtime for closed examples

    Numbers are integers counted in hundredths, [lower] maps the ASCII
    capitals to small letters (as [str.lower] does on ASCII text) and
    [strftime] prints the clock reading in decimal.  A float whose
    magnitude reaches [2^1024] is infinite, and [int] refuses it. *)

Definition double_limit : Z := Z.shiftl 1 1024.

Definition lower_ascii (c : ascii) : ascii :=
  if in_range 65 90 c then ascii_of_nat (nat_of_ascii c + 32) else c.

Fixpoint lower_string (s : string) : string :=
  match s with
  | EmptyString => EmptyString
  | String c rest => String (lower_ascii c) (lower_string rest)
  end.

#[export] Instance example_runtime : PyRuntime := {|
  Number := Z;
  number_of_int := fun z => (100 * z)%Z;
  number_half := 50%Z;
  int_percent := fun hundredths =>
    if (Z.abs hundredths <? double_limit)%Z then inr hundredths
    else inl "cannot convert float infinity to integer";
  lower := lower_string;
  strftime := str_of_Z
|}.

(** A volume whose hundredfold is beyond the floats, as the JSON
    number [1e307] is. *)
Definition too_loud : Z := double_limit.

(** ** Vocabulary of the further properties *)

Section Scripts.
Context {RT : PyRuntime}.

(** The device a call is made on, if it is made on a device. *)
Definition call_device (c : Call) : option Chromecast :=
  match c with
  | GetChromecasts _ => None
  | StopDiscovery _ => None
  | Wait cast => Some cast
  | PlayMedia cast _ _ _ => Some cast
  | BlockUntilActive cast => Some cast
  | Pause cast => Some cast
  | Play cast => Some cast
  | Stop cast => Some cast
  | SetVolume cast _ => Some cast
  end.

(** The calls of [calls] that are made when they are issued in order
    and the first one that raises ends the series. *)
Fixpoint attempted (dl : DeviceLayer) (calls : list Call) : list Call :=
  match calls with
  | [] => []
  | c :: rest =>
      match raises dl c with
      | Some _ => [c]
      | None => c :: attempted dl rest
      end
  end.

(** The exception of the first call of [calls] that raises. *)
Fixpoint first_failure (dl : DeviceLayer) (calls : list Call)
  : option Exn :=
  match calls with
  | [] => None
  | c :: rest =>
      match raises dl c with
      | Some e => Some e
      | None => first_failure dl rest
      end
  end.

(** The world after the calls of [calls] were made, in order. *)
Definition after_calls (dl : DeviceLayer) (calls : list Call) (w : World)
  : World :=
  fold_left (fun w' c => after_call dl c w') calls w.

(** The dictionary every command returns from its [except] clause. *)
Definition failure (e : Exn) : Dict :=
  [("success", JBool false); ("error", JStr e)].

(** The ["name"] entries of a list of JSON dictionaries, [None] for an
    entry without one. *)
Definition entry_name (entry : Json) : option string :=
  match entry with
  | JDict d => str_field d "name"
  | _ => None
  end.

(** Percent-decoding: [%XY] with two hexadecimal digits stands for the
    byte [XY], any other byte for itself. *)
Definition hex_value (c : ascii) : option nat :=
  let n := nat_of_ascii c in
  if in_range 48 57 c then Some (n - 48)
  else if in_range 65 70 c then Some (n - 55)
  else if in_range 97 102 c then Some (n - 87)
  else None.

Fixpoint decode_percent (s : string) : string :=
  match s with
  | EmptyString => EmptyString
  | String c rest =>
      match rest with
      | String x (String y rest') =>
          match Ascii.eqb c "%", hex_value x, hex_value y with
          | true, Some hi, Some lo =>
              String (ascii_of_nat (16 * hi + lo)) (decode_percent rest')
          | _, _, _ => String c (decode_percent rest)
          end
      | _ => String c (decode_percent rest)
      end
  end.

(** The bytes [quote] keeps as they are. *)
Definition kept (c : ascii) : bool := always_safe c || Ascii.eqb c "/".

Fixpoint all_bytes (p : ascii -> bool) (s : string) : bool :=
  match s with
  | EmptyString => true
  | String c rest => p c && all_bytes p rest
  end.

(** The bytes that occur in the output of [quote]. *)
Definition quoted_byte (c : ascii) : bool :=
  kept c || Ascii.eqb c "%".

(** The calls of [calls] issued one after the other, then [k]. *)
Fixpoint run_calls (dl : DeviceLayer) (calls : list Call) (k : M Dict)
  : M Dict :=
  match calls with
  | [] => k
  | c :: rest => bind (call dl c) (fun _ => run_calls dl rest k)
  end.

(** [command] issues the calls of [script] in order up to the first
    one that raises, and nothing else; it reports [success: true] when
    none raised and otherwise the exception of the one that did. *)
Definition runs_script (dl : DeviceLayer) (command : Args -> M Dict)
    (args : Args) (w : World) (script : list Call) : Prop :=
  exists d,
    command args w = (Ok d, after_calls dl (attempted dl script) w)
    /\ match first_failure dl script with
       | Some e => d = failure e
       | None => success d = Some true
       end.

(** [command] issues the calls of [script] like [runs_script], and
    when none raised it evaluates one more expression inside its [try]
    block, whose outcome is [final]: an exception of that expression
    is reported like one of a call, after all the calls were made. *)
Definition runs_script_then {A : Type} (dl : DeviceLayer)
    (command : Args -> M Dict) (args : Args) (w : World)
    (script : list Call) (final : Exn + A) : Prop :=
  exists d,
    command args w = (Ok d, after_calls dl (attempted dl script) w)
    /\ match first_failure dl script, final with
       | Some e, _ => d = failure e
       | None, inl e => d = failure e
       | None, inr _ => success d = Some true
       end.

(** An operation that returns a dictionary with a boolean under
    ["success"], does not raise, and leaves the registry and the
    timestamp as they were. *)
Definition contained (op : Args -> M Dict) (args : Args) (w : World)
  : Prop :=
  exists d w' b,
    op args w = (Ok d, w')
    /\ success d = Some b
    /\ self w' = self w.

(** A computation that leaves the server object and the trace of
    device-layer calls as they were, and whose value, when it returns
    one, satisfies [P]. *)
Definition keeps {A : Type} (P : A -> Prop) (m : M A) : Prop :=
  forall w,
    self (snd (m w)) = self w
    /\ trace (snd (m w)) = trace w
    /\ match fst (m w) with
       | Ok a => P a
       | Raised _ => True
       end.

(** A result dictionary has a boolean under ["success"]. *)
Definition enveloped (d : Dict) : Prop := exists b, success d = Some b.

(** A tool that always returns an enveloped dictionary, raises
    nothing and leaves the server object and the device-layer trace as
    they were. *)
Definition answers (m : M Dict) : Prop :=
  forall w,
    exists d w',
      m w = (Ok d, w')
      /\ enveloped d
      /\ self w' = self w
      /\ trace w' = trace w.

End Scripts.

Section DataVocabulary.
Context {RT : PyRuntime} {LIB : PyLibrary}.

(** The city [get_weather] reads from its arguments. *)
Definition city_of (args : Arguments) : string :=
  get (arg_city args) "Ho Chi Minh".

(** The query parameters [get_weather] sends for a latitude and a
    longitude. *)
Definition weather_params (lat lon : Number) : list (string * Json) :=
  [("latitude", JNum lat);
   ("longitude", JNum lon);
   ("current", JStr "temperature_2m,relative_humidity_2m,weather_code");
   ("timezone", JStr "Asia/Bangkok");
   ("forecast_days", JInt 1)].

(** What the weather service answers to the request for the place
    [get_weather] chose. *)
Definition weather_answer (http : HttpLayer) (args : Arguments)
  : Exn + Response :=
  let '(_, lat, lon) := Unified.weather_place (city_of args) in
  http_get http Unified.data_client
    "https://api.open-meteo.com/v1/forecast" (weather_params lat lon).

(** What the price service answers to the request of
    [get_bitcoin_price]. *)
Definition bitcoin_answer (http : HttpLayer) : Exn + Response :=
  http_get http Unified.data_client
    "https://api.coingecko.com/api/v3/simple/price"
    [("ids", JStr "bitcoin");
     ("vs_currencies", JStr "usd,vnd");
     ("include_24hr_change", JStr "true")].

(** What the bank answers to the request of [get_usd_rate]. *)
Definition usd_answer (http : HttpLayer) : Exn + Response :=
  http_get http Unified.data_client
    "https://portal.vietcombank.com.vn/Usercontrols/TVPortal.TyGia/pXML.aspx?b=10"
    [].

(** What the gold service answers to the request of
    [get_gold_price]. *)
Definition gold_answer (http : HttpLayer) : Exn + Response :=
  http_get http Unified.data_client
    "http://api.btmc.vn/api/BTMCAPI/getpricebtmc"
    [("key", JStr "3kd8ub1llcg9t45hnoh8hmn7t5kc2v")].

(** [element.get(key)] on the attributes of an XML element. *)
Definition attribute_of (element : list (string * string)) (key : string)
  : option string :=
  match find (fun kv => String.eqb (fst kv) key) element with
  | Some kv => Some (snd kv)
  | None => None
  end.

(** An [Exrate] element for the US dollar. *)
Definition is_usd (element : list (string * string)) : bool :=
  match attribute_of element "CurrencyCode" with
  | Some code => String.eqb code "USD"
  | None => false
  end.

(** In the loop of [get_gold_price] a kind of gold is marked as seen
    exactly when its entry is set. *)
Definition gold_consistent (state : Unified.GoldState) : Prop :=
  (Unified.seen "SJC" state = true <-> Unified.sjc_data state <> None)
  /\ (Unified.seen "NHAN_TRON" state = true
      <-> Unified.nhan_tron_data state <> None).

(** The value of a field of a price row: the key is the prefix
    followed by the row's ["@row"] value, "1" when there is none. *)
Definition row_field (fields : Dict) (prefix : string) (default : Json)
  : Json :=
  let row :=
    match dict_get fields "@row" with
    | Some r => r
    | None => JStr "1"
    end in
  match dict_get fields (prefix ++ py_str row) with
  | Some v => v
  | None => default
  end.

(** A price row whose name is a string that names neither kind of
    gold [get_gold_price] looks for. *)
Definition unmatched (item : Json) : Prop :=
  exists fields n,
    item = JDict fields
    /\ row_field fields "@n_" (JStr "") = JStr n
    /\ contains "SJC" (upper n) && contains "VÀNG MIẾNG" (upper n) = false
    /\ contains "NHẪN TRÒN TRƠN" (upper n) = false.

(** What the loop of [get_gold_price] guarantees about the state it
    started from: the bookkeeping stays consistent and an entry that
    was set is still the same. *)
Definition gold_kept (before after : Unified.GoldState) : Prop :=
  gold_consistent after
  /\ (forall entry,
         Unified.sjc_data before = Some entry ->
         Unified.sjc_data after = Some entry)
  /\ (forall entry,
         Unified.nhan_tron_data before = Some entry ->
         Unified.nhan_tron_data after = Some entry).

End DataVocabulary.

(** *** A library and services for closed examples

    Stand-ins of the library functions, for the runtime of the closed
    examples: [str()] of the values that occur, [int()] of integers and
    digit strings, [upper] on ASCII letters, and a float literal read
    as its integer part. *)

Fixpoint digits_value (s : string) (acc : Z) : Z :=
  match s with
  | EmptyString => acc
  | String c rest =>
      if in_range 48 57 c
      then digits_value rest (10 * acc + Z.of_nat (nat_of_ascii c - 48))
      else acc
  end.

Definition upper_ascii (c : ascii) : ascii :=
  if in_range 97 122 c then ascii_of_nat (nat_of_ascii c - 32) else c.

Fixpoint upper_string (s : string) : string :=
  match s with
  | EmptyString => EmptyString
  | String c rest => String (upper_ascii c) (upper_string rest)
  end.

#[export] Instance example_library : PyLibrary := {|
  json_dumps := fun d =>
    match success d with
    | Some true => "{success: true, ...}"
    | _ => "{success: false, ...}"
    end;
  json_dumps_ascii := fun _ => "{success: false, ...}";
  py_str := fun value =>
    match value with
    | JNone => "None"
    | JStr s => s
    | JInt z => str_of_Z z
    | _ => "?"
    end;
  format_2f := fun value =>
    match value with
    | JInt z => inr (str_of_Z z ++ ".00")
    | _ => inl "not formatted in this example"
    end;
  number_as_int := fun hundredths =>
    if Z.eqb (hundredths mod 100) 0 then Some (hundredths / 100)%Z
    else None;
  float_literal := fun literal => (100 * digits_value literal 0)%Z;
  now_text := str_of_Z;
  xml_exrates := fun document =>
    if String.eqb document "" then inl "no element found: line 1, column 0"
    else inr [[("CurrencyCode", "EUR"); ("Buy", "27,000.00");
               ("Transfer", "27,100.00"); ("Sell", "28,300.00")];
              [("CurrencyCode", "USD"); ("Buy", "25,100.00");
               ("Transfer", "25,130.00"); ("Sell", "25,470.00")];
              [("CurrencyCode", "USD"); ("Buy", "1.00")]];
  upper := upper_string;
  py_int := fun value =>
    match value with
    | JInt z => inr z
    | JStr s =>
        if all_bytes (in_range 48 57) s && negb (String.eqb s "")
        then inr (digits_value s 0)
        else inl ("invalid literal for int() with base 10: '" ++ s ++ "'")
    | _ => inl "int() argument must be a string or a real number"
    end
|}.

(** A service that answers every request with [answer]. *)
Definition answering (answer : Exn + Response) : HttpLayer :=
  {| http_get := fun _ _ _ => answer; http_elapsed := fun _ => 1%N |}.

(** A response with status 200 and the JSON body [body]. *)
Definition json_response (body : Json) : Response :=
  {| raise_for_status := None;
     response_json := inr body;
     response_text := "" |}.

(** A response with status 200 and an XML document. *)
Definition xml_response : Response :=
  {| raise_for_status := None;
     response_json := inl "Expecting value: line 1 column 1 (char 0)";
     response_text := "<ExrateList>...</ExrateList>" |}.

(** Price rows of the gold service: gold bars, rings, silver. *)
Definition bars_row : Json :=
  JDict [("@row", JStr "1");
         ("@n_1", JStr "VÀNG MIẾNG SJC (Vàng SJC)");
         ("@h_1", JStr "999.9");
         ("@pb_1", JStr "8150000");
         ("@ps_1", JStr "8350000");
         ("@d_1", JStr "04/11/2026 09:00")].

(** A later row of gold bars, with other prices. *)
Definition later_bars_row : Json :=
  JDict [("@row", JStr "3");
         ("@n_3", JStr "VÀNG MIẾNG SJC");
         ("@h_3", JStr "99.9");
         ("@pb_3", JStr "1");
         ("@ps_3", JStr "2");
         ("@d_3", JStr "05/11/2026 10:00")].

Definition silver_row : Json :=
  JDict [("@row", JStr "2");
         ("@n_2", JStr "BAC MIENG");
         ("@pb_2", JStr "not a number")].

Definition no_arguments : Arguments :=
  {| device_arguments := no_args; arg_city := None |}.

Definition city_arguments (city : string) : Arguments :=
  {| device_arguments := no_args; arg_city := Some city |}.

(** * Properties *)

(** ** The device locator *)

Section Locator.
Context {RT : PyRuntime}.

Lemma test_designates (device_name : string) (cast : Chromecast) :
  String.eqb (lower (name cast)) (lower device_name)
  || String.eqb (lower (friendly_name cast)) (lower device_name) = true
  <-> designates device_name cast.
Proof.
  unfold designates.
  rewrite orb_true_iff, !String.eqb_eq.
  reflexivity.
Qed.

Lemma find_loop_step (cast : Chromecast) (rest : list Chromecast)
    (device_name : string) :
  (designates device_name cast ->
   GoogleHome.find_loop (cast :: rest) device_name = Some cast)
  /\ (~ designates device_name cast ->
      GoogleHome.find_loop (cast :: rest) device_name
      = GoogleHome.find_loop rest device_name).
Proof.
  simpl.
  destruct (String.eqb (lower (name cast)) (lower device_name)
            || String.eqb (lower (friendly_name cast)) (lower device_name))
    eqn:Htest.
  - split; [reflexivity|].
    intros Hno. exfalso. apply Hno, test_designates, Htest.
  - split; [|reflexivity].
    intros Hyes. apply test_designates in Hyes. congruence.
Qed.

(** What the loop returns, by induction on the registry. *)
Lemma find_loop_first (casts : list Chromecast) (device_name : string) :
  match GoogleHome.find_loop casts device_name with
  | Some cast =>
      exists before after,
        casts = (before ++ cast :: after)%list
        /\ designates device_name cast
        /\ no_match device_name before
  | None => no_match device_name casts
  end.
Proof.
  induction casts as [|c rest IH].
  - simpl. constructor.
  - destruct (find_loop_step c rest device_name) as [Hhit Hmiss].
    destruct (String.eqb (lower (name c)) (lower device_name)
              || String.eqb (lower (friendly_name c)) (lower device_name))
      eqn:Htest.
    + assert (Hd : designates device_name c) by (apply test_designates, Htest).
      rewrite (Hhit Hd).
      exists [], rest. repeat split; [assumption | constructor].
    + assert (Hn : ~ designates device_name c).
      { intros Hd. apply test_designates in Hd. congruence. }
      rewrite (Hmiss Hn).
      destruct (GoogleHome.find_loop rest device_name) as [found|].
      * destruct IH as (before & after & Heq & Hd & Hb).
        exists (c :: before), after. subst rest.
        repeat split; [assumption | constructor; assumption].
      * constructor; assumption.
Qed.

(** A decomposition of the registry around its first match determines
    the result. *)
Lemma find_loop_decomposed (before after : list Chromecast)
    (cast : Chromecast) (device_name : string) :
  no_match device_name before ->
  designates device_name cast ->
  GoogleHome.find_loop (before ++ cast :: after) device_name = Some cast.
Proof.
  intros Hb Hd.
  induction Hb as [|c before Hc Hb IH].
  - apply (find_loop_step cast after device_name), Hd.
  - change ((c :: before) ++ cast :: after)%list
      with (c :: (before ++ cast :: after))%list.
    destruct (find_loop_step c (before ++ cast :: after) device_name)
      as [_ Hmiss].
    rewrite (Hmiss Hc). exact IH.
Qed.

Lemma no_match_find_loop (casts : list Chromecast) (device_name : string) :
  no_match device_name casts ->
  GoogleHome.find_loop casts device_name = None.
Proof.
  intros Hn.
  induction Hn as [|c rest Hc Hn IH]; [reflexivity|].
  destruct (find_loop_step c rest device_name) as [_ Hmiss].
  rewrite (Hmiss Hc). exact IH.
Qed.

(** The two servers define the same locator. *)
Lemma find_loop_same (casts : list Chromecast) (device_name : string) :
  Unified.find_loop casts device_name
  = GoogleHome.find_loop casts device_name.
Proof.
  induction casts as [|c rest IH]; simpl; [reflexivity|].
  rewrite IH. reflexivity.
Qed.

(** C1. [_find_device] returns the first entry of the registry, in
    registry order, whose internal name or display name equals the
    input once both are lower-cased, and [None] exactly when no entry
    matches, in particular on an empty registry.  Both servers have
    this locator. *)
Theorem find_device_first_match (s : Server) (device_name : string) :
  (forall cast,
      GoogleHome._find_device s device_name = Some cast
      <-> exists before after,
            chromecasts s = (before ++ cast :: after)%list
            /\ designates device_name cast
            /\ no_match device_name before)
  /\ (GoogleHome._find_device s device_name = None
      <-> no_match device_name (chromecasts s))
  /\ (forall t,
        GoogleHome._find_device
          {| chromecasts := []; last_discovery_time := t |} device_name
        = None)
  /\ Unified._find_device s device_name
     = GoogleHome._find_device s device_name.
Proof.
  unfold GoogleHome._find_device, Unified._find_device.
  pose proof (find_loop_first (chromecasts s) device_name) as Hfirst.
  split; [|split; [|split]].
  - intros cast. split.
    + intros Hsome. rewrite Hsome in Hfirst. exact Hfirst.
    + intros (before & after & Heq & Hd & Hb).
      rewrite Heq. apply find_loop_decomposed; assumption.
  - split.
    + intros Hnone. rewrite Hnone in Hfirst. exact Hfirst.
    + apply no_match_find_loop.
  - intros t. reflexivity.
  - apply find_loop_same.
Qed.

End Locator.

(** ** Discovery *)

(** Runs the statements of [discover_devices] up to the loop, on each
    path: the scan raises, the browser raises when stopped, the browser
    stops, or there is no browser. *)
Ltac discover_paths :=
  unfold try_catch, bind at 1, run_get_chromecasts, timeout_of;
  match goal with
  | |- context [get_chromecasts ?dl ?t] =>
      destruct (get_chromecasts dl t) as [?e|[?casts [?b|]]];
      [ reflexivity | | ]
  end;
  unfold bind at 1, set_chromecasts; cbn [fst snd];
  unfold bind at 1, time_time;
  unfold bind at 1, set_last_discovery_time;
  unfold bind at 1, stop_browser, stop_raises, after_stop;
  [ unfold call; cbn [clock self trace];
    match goal with
    | |- context [raises ?dl (StopDiscovery ?b)] =>
        destruct (raises dl (StopDiscovery b)) as [?e|]; [reflexivity|]
    end
  | unfold ret at 1 ];
  unfold bind at 1, get_self; unfold bind at 1;
  cbn [self chromecasts after_call].


Section Discovery.
Context {RT : PyRuntime}.
Variable dl : DeviceLayer.

(** *** The world after a series of [cast.wait()] calls *)

Lemma after_waits_cons (cast : Chromecast) (rest : list Chromecast)
    (w : World) :
  after_waits dl (cast :: rest) w
  = after_waits dl rest (after_call dl (Wait cast) w).
Proof. reflexivity. Qed.

Lemma self_after_waits (casts : list Chromecast) (w : World) :
  self (after_waits dl casts w) = self w.
Proof.
  revert w. induction casts as [|c rest IH]; intros w; [reflexivity|].
  rewrite after_waits_cons, IH. reflexivity.
Qed.

Lemma trace_after_waits (casts : list Chromecast) (w : World) :
  trace (after_waits dl casts w) = (trace w ++ map Wait casts)%list.
Proof.
  revert w. induction casts as [|c rest IH]; intros w.
  - simpl. rewrite app_nil_r. reflexivity.
  - rewrite after_waits_cons, IH. simpl.
    rewrite <- app_assoc. reflexivity.
Qed.

Lemma clock_after_call (c : Call) (w : World) :
  (clock w <= clock (after_call dl c w))%Z.
Proof. simpl. lia. Qed.

Lemma clock_after_waits (casts : list Chromecast) (w : World) :
  (clock w <= clock (after_waits dl casts w))%Z.
Proof.
  revert w. induction casts as [|c rest IH]; intros w.
  - simpl. lia.
  - rewrite after_waits_cons.
    pose proof (IH (after_call dl (Wait c) w)).
    pose proof (clock_after_call (Wait c) w). lia.
Qed.

(** *** The loop over the scanned devices *)

Lemma discover_loop_run (casts : list Chromecast) (devices : list Json)
    (w : World) :
  GoogleHome.discover_loop dl casts devices w
  = (Ok (devices
         ++ map GoogleHome.device_info (filter (reachable dl) casts))%list,
     after_waits dl casts w).
Proof.
  revert devices w.
  induction casts as [|c rest IH]; intros devices w.
  - simpl. rewrite app_nil_r. reflexivity.
  - rewrite after_waits_cons.
    cbn [GoogleHome.discover_loop filter].
    unfold bind at 1, try_catch, bind, call, reachable, ret.
    destruct (raises dl (Wait c)) as [e|].
    + apply IH.
    + rewrite IH. cbn [map]. rewrite <- app_assoc. reflexivity.
Qed.

Lemma unified_discover_loop_run (casts : list Chromecast)
    (devices : list Json) (w : World) :
  Unified.discover_loop dl casts devices w
  = (Ok (devices
         ++ map Unified.device_info (filter (reachable dl) casts))%list,
     after_waits dl casts w).
Proof.
  revert devices w.
  induction casts as [|c rest IH]; intros devices w.
  - simpl. rewrite app_nil_r. reflexivity.
  - rewrite after_waits_cons.
    cbn [Unified.discover_loop filter].
    unfold bind at 1, try_catch, bind, call, reachable, ret.
    destruct (raises dl (Wait c)) as [e|].
    + apply IH.
    + rewrite IH. cbn [map]. rewrite <- app_assoc. reflexivity.
Qed.

(** *** One call of [discover_devices], path by path *)

Lemma discover_devices_run (args : Args) (w : World) :
  GoogleHome.discover_devices dl args w
  = match get_chromecasts dl (timeout_of args) with
    | inl e =>
        (Ok (GoogleHome.discovery_failed e),
         after_call dl (GetChromecasts (timeout_of args)) w)
    | inr (casts, browser) =>
        let w2 := after_stop dl browser (scanned dl casts args w) in
        match stop_raises dl browser with
        | Some e => (Ok (GoogleHome.discovery_failed e), w2)
        | None =>
            (Ok (GoogleHome.discovered
                   (map GoogleHome.device_info
                        (filter (reachable dl) casts))),
             after_waits dl casts w2)
        end
    end.
Proof.
  unfold GoogleHome.discover_devices. discover_paths.
  - rewrite discover_loop_run. reflexivity.
  - rewrite discover_loop_run. reflexivity.
Qed.

Lemma unified_discover_devices_run (args : Args) (w : World) :
  Unified.discover_devices dl args w
  = match get_chromecasts dl (timeout_of args) with
    | inl e =>
        (Ok (Unified.discovery_failed e),
         after_call dl (GetChromecasts (timeout_of args)) w)
    | inr (casts, browser) =>
        let w2 := after_stop dl browser (scanned dl casts args w) in
        match stop_raises dl browser with
        | Some e => (Ok (Unified.discovery_failed e), w2)
        | None =>
            (Ok (Unified.discovered
                   (map Unified.device_info
                        (filter (reachable dl) casts))),
             after_waits dl casts w2)
        end
    end.
Proof.
  unfold Unified.discover_devices. discover_paths.
  - rewrite unified_discover_loop_run. reflexivity.
  - rewrite unified_discover_loop_run. reflexivity.
Qed.

End Discovery.

Section DiscoveryOutcome.
Context {RT : PyRuntime}.
Variable dl : DeviceLayer.

Lemma self_after_stop (browser : option Browser) (w : World) :
  self (after_stop dl browser w) = self w.
Proof. destruct browser; reflexivity. Qed.

Lemma clock_after_stop (browser : option Browser) (w : World) :
  (clock w <= clock (after_stop dl browser w))%Z.
Proof. destruct browser; simpl; lia. Qed.

(** Where a call of [discover_devices] leaves the registry once the
    scan has returned [casts], whatever happens afterwards. *)
Lemma registry_after_scan (casts : list Chromecast)
    (browser : option Browser) (args : Args) (w : World) :
  let w2 := after_stop dl browser (scanned dl casts args w) in
  self w2
  = {| chromecasts := casts;
       last_discovery_time :=
         Some (clock (after_call dl (GetChromecasts (timeout_of args)) w)) |}
  /\ self (after_waits dl casts w2) = self w2.
Proof.
  simpl. rewrite self_after_waits, self_after_stop. split; reflexivity.
Qed.

(** A [success: true] result of [discover_devices] comes from the
    path on which the scan returned and the browser, if any, stopped
    without raising. *)
Lemma discover_success_path (args : Args) (w w' : World) (d : Dict) :
  GoogleHome.discover_devices dl args w = (Ok d, w') ->
  success d = Some true ->
  exists casts browser,
    get_chromecasts dl (timeout_of args) = inr (casts, browser)
    /\ stop_raises dl browser = None
    /\ d = GoogleHome.discovered
             (map GoogleHome.device_info (filter (reachable dl) casts))
    /\ w' = after_waits dl casts
              (after_stop dl browser (scanned dl casts args w)).
Proof.
  rewrite discover_devices_run.
  destruct (get_chromecasts dl (timeout_of args)) as [e|[casts browser]].
  - intros [= <- <-] Hs. discriminate Hs.
  - cbv zeta. destruct (stop_raises dl browser) as [e|] eqn:Hstop.
    + intros [= <- <-] Hs. discriminate Hs.
    + intros [= <- <-] _. exists casts, browser. repeat split.
      exact Hstop.
Qed.

Lemma unified_discover_success_path (args : Args) (w w' : World)
    (d : Dict) :
  Unified.discover_devices dl args w = (Ok d, w') ->
  success d = Some true ->
  exists casts browser,
    get_chromecasts dl (timeout_of args) = inr (casts, browser)
    /\ stop_raises dl browser = None
    /\ d = Unified.discovered
             (map Unified.device_info (filter (reachable dl) casts))
    /\ w' = after_waits dl casts
              (after_stop dl browser (scanned dl casts args w)).
Proof.
  rewrite unified_discover_devices_run.
  destruct (get_chromecasts dl (timeout_of args)) as [e|[casts browser]].
  - intros [= <- <-] Hs. discriminate Hs.
  - cbv zeta. destruct (stop_raises dl browser) as [e|] eqn:Hstop.
    + intros [= <- <-] Hs. discriminate Hs.
    + intros [= <- <-] _. exists casts, browser. repeat split.
      exact Hstop.
Qed.

(** C2, amended. When the scan itself raises, [discover_devices]
    reports [success: false] with the cause, and the registry and the
    last-discovery timestamp are what they were before the call.  The
    same holds in both servers. *)
Theorem discover_scan_error_keeps_registry (args : Args) (w : World)
    (e : Exn) :
  get_chromecasts dl (timeout_of args) = inl e ->
  (exists d w',
      GoogleHome.discover_devices dl args w = (Ok d, w')
      /\ success d = Some false
      /\ str_field d "error" = Some e
      /\ self w' = self w)
  /\ (exists d w',
         Unified.discover_devices dl args w = (Ok d, w')
         /\ success d = Some false
         /\ str_field d "error" = Some e
         /\ self w' = self w).
Proof.
  intros Hscan.
  rewrite discover_devices_run, unified_discover_devices_run, Hscan.
  split; eexists; eexists; repeat split.
Qed.

(** C3. After a call of [discover_devices] that reports
    [success: true], the registry is exactly the list the scan
    returned, whatever it held before, and the last-discovery timestamp
    is a clock reading taken during the call, hence not earlier than
    the start of the call. *)
Theorem discover_success_replaces_registry (args : Args) (w w' : World)
    (d : Dict) :
  GoogleHome.discover_devices dl args w = (Ok d, w') ->
  success d = Some true ->
  exists casts browser t,
    get_chromecasts dl (timeout_of args) = inr (casts, browser)
    /\ chromecasts (self w') = casts
    /\ last_discovery_time (self w') = Some t
    /\ (clock w <= t <= clock w')%Z.
Proof.
  intros Hrun Hs.
  destruct (discover_success_path args w w' d Hrun Hs)
    as (casts & browser & Hscan & _ & _ & ->).
  destruct (registry_after_scan casts browser args w) as [Hself Hkeep].
  exists casts, browser,
    (clock (after_call dl (GetChromecasts (timeout_of args)) w)).
  rewrite Hkeep, Hself. repeat split; try assumption.
  - apply clock_after_call.
  - pose proof (clock_after_waits dl casts
                  (after_stop dl browser (scanned dl casts args w))).
    pose proof (clock_after_stop browser (scanned dl casts args w)).
    simpl in *. lia.
Qed.

End DiscoveryOutcome.

Section DiscoveryTeardown.
Context {RT : PyRuntime}.
Variable dl : DeviceLayer.

Lemma trace_scanned (casts : list Chromecast) (args : Args) (w : World) :
  trace (scanned dl casts args w)
  = (trace w ++ [GetChromecasts (timeout_of args)])%list.
Proof. reflexivity. Qed.

(** C6. Whenever the scan hands back a browser handle,
    [discover_devices] returns a result and [stop_discovery] has been
    called on that handle by then: it is the first device-layer call
    after the scan, on the path where the stop itself raises (nothing
    follows), and on the paths where it returns (the [wait] calls on the
    scanned devices follow, none when the scan found no device).  The
    same holds in both servers. *)
Theorem discover_stops_browser (args : Args) (w : World)
    (casts : list Chromecast) (b : Browser) :
  get_chromecasts dl (timeout_of args) = inr (casts, Some b) ->
  (exists d w' later,
      GoogleHome.discover_devices dl args w = (Ok d, w')
      /\ trace w'
         = (trace w
            ++ GetChromecasts (timeout_of args) :: StopDiscovery b :: later)%list
      /\ (later = [] \/ later = map Wait casts))
  /\ (exists d w' later,
         Unified.discover_devices dl args w = (Ok d, w')
         /\ trace w'
            = (trace w
               ++ GetChromecasts (timeout_of args) :: StopDiscovery b :: later)%list
         /\ (later = [] \/ later = map Wait casts)).
Proof.
  intros Hscan.
  rewrite discover_devices_run, unified_discover_devices_run, Hscan.
  cbv zeta. unfold stop_raises, after_stop.
  destruct (raises dl (StopDiscovery b)) as [e|].
  - split; eexists; eexists; exists []; (split; [reflexivity|]);
      (split; [|left; reflexivity]);
      simpl; rewrite <- app_assoc; reflexivity.
  - split; eexists; eexists; exists (map Wait casts);
      (split; [reflexivity|]); (split; [|right; reflexivity]);
      rewrite trace_after_waits; simpl; rewrite <- !app_assoc; reflexivity.
Qed.

(** C7, amended. When the scan returns no device the registry becomes
    empty; and if stopping the browser does not raise (or the scan
    handed back no browser), the result is [success: true] with
    [device_count] 0 and an empty [devices] list. *)
Theorem discover_zero_devices (args : Args) (w : World)
    (browser : option Browser) :
  get_chromecasts dl (timeout_of args) = inr ([], browser) ->
  exists d w',
    GoogleHome.discover_devices dl args w = (Ok d, w')
    /\ chromecasts (self w') = []
    /\ (stop_raises dl browser = None ->
        success d = Some true
        /\ dict_get d "device_count" = Some (JInt 0)
        /\ dict_get d "devices" = Some (JList [])).
Proof.
  intros Hscan.
  rewrite discover_devices_run, Hscan. cbv zeta.
  destruct (stop_raises dl browser) as [e|];
    eexists; eexists; (split; [reflexivity|]).
  - rewrite self_after_stop. split; [reflexivity|]. discriminate.
  - rewrite self_after_waits, self_after_stop. split; [reflexivity|].
    intros _. repeat split.
Qed.

End DiscoveryTeardown.

(** ** Devices skipped by the discovery report *)

Section Skipped.
Context {RT : PyRuntime}.
Variable dl : DeviceLayer.

Lemma filter_drops (A : Type) (f : A -> bool) (x : A) (l : list A) :
  In x l -> f x = false ->
  (List.length (filter f l) < List.length l)%nat.
Proof.
  intros Hin Hfx.
  induction l as [|y l IH]; [contradiction|].
  pose proof (filter_length_le f l) as Hle.
  simpl. destruct Hin as [->|Hin].
  - rewrite Hfx. lia.
  - specialize (IH Hin). destruct (f y); simpl; lia.
Qed.

Lemma own_name_found (casts : list Chromecast) (cast : Chromecast) :
  In cast casts ->
  exists found,
    GoogleHome.find_loop casts (name cast) = Some found
    /\ designates (name cast) found.
Proof.
  intros Hin.
  pose proof (find_loop_first casts (name cast)) as Hfirst.
  destruct (GoogleHome.find_loop casts (name cast)) as [found|].
  - destruct Hfirst as (_ & _ & _ & Hd & _). exists found. split; auto.
  - exfalso. unfold no_match in Hfirst. rewrite Forall_forall in Hfirst.
    apply (Hfirst cast Hin). left. reflexivity.
Qed.

Lemma reported_names_google (casts : list Chromecast) :
  reported_names (map GoogleHome.device_info casts) = map name casts.
Proof.
  induction casts as [|c rest IH]; [reflexivity|].
  simpl. rewrite IH. reflexivity.
Qed.

Lemma reported_names_unified (casts : list Chromecast) :
  reported_names (map Unified.device_info casts) = map name casts.
Proof.
  induction casts as [|c rest IH]; [reflexivity|].
  simpl. rewrite IH. reflexivity.
Qed.

(** A device of the scan result whose [wait] raises: it is not among
    the reported ones, which are therefore fewer than the registered
    ones, and the locator still resolves its name. *)
Lemma skipped_device (casts : list Chromecast) (cast : Chromecast) :
  In cast casts -> reachable dl cast = false ->
  ~ In cast (filter (reachable dl) casts)
  /\ (List.length (filter (reachable dl) casts) < List.length casts)%nat
  /\ (exists found,
         GoogleHome.find_loop casts (name cast) = Some found
         /\ designates (name cast) found)
  /\ ((forall other,
          In other (filter (reachable dl) casts) ->
          name other <> name cast) ->
      ~ In (name cast) (map name (filter (reachable dl) casts))).
Proof.
  intros Hin Hdown. repeat split.
  - intros Hlisted. apply filter_In in Hlisted. destruct Hlisted. congruence.
  - apply (filter_drops _ _ cast); assumption.
  - apply own_name_found. exact Hin.
  - intros Hother Hnamed. apply in_map_iff in Hnamed.
    destruct Hnamed as (other & Hname & Hin'). exact (Hother other Hin' Hname).
Qed.

(** C8. A call of [discover_devices] that reports [success: true] has
    scanned, and it leaves the whole result of the scan in the
    registry.  The reported [devices] are those of the scan result
    whose [wait] returned, and [device_count] is their number.  A
    scanned device whose [wait] raised is left out of the report but is
    in the registry: the count is then strictly less than the registry
    size, the locator resolves the device's name, and the report does
    not list that name unless a reported device bears it too. *)
Theorem discover_skipped_device_stays_registered (args : Args)
    (w w' : World) (d : Dict) :
  GoogleHome.discover_devices dl args w = (Ok d, w') ->
  success d = Some true ->
  exists casts browser listed,
    get_chromecasts dl (timeout_of args) = inr (casts, browser)
    /\ chromecasts (self w') = casts
    /\ listed = filter (reachable dl) casts
    /\ dict_get d "devices"
       = Some (JList (map GoogleHome.device_info listed))
    /\ dict_get d "device_count"
       = Some (JInt (Z.of_nat (List.length listed)))
    /\ forall cast,
        In cast casts -> reachable dl cast = false ->
        In cast (chromecasts (self w'))
        /\ ~ In cast listed
        /\ (List.length listed < List.length (chromecasts (self w')))%nat
        /\ (exists found,
               GoogleHome._find_device (self w') (name cast) = Some found
               /\ designates (name cast) found)
        /\ ((forall other, In other listed -> name other <> name cast) ->
            ~ In (name cast)
                 (reported_names (map GoogleHome.device_info listed))).
Proof.
  intros Hrun Hs.
  destruct (discover_success_path dl args w w' d Hrun Hs)
    as (casts & browser & Hscan & _ & -> & ->).
  destruct (registry_after_scan dl casts browser args w) as [Hself Hkeep].
  rewrite Hkeep, Hself. cbn [chromecasts].
  exists casts, browser, (filter (reachable dl) casts).
  split; [exact Hscan|].
  split; [reflexivity|]. split; [reflexivity|]. split; [reflexivity|].
  split; [simpl; rewrite length_map; reflexivity|].
  intros cast Hin Hdown. split; [exact Hin|].
  rewrite reported_names_google.
  unfold GoogleHome._find_device. cbn [chromecasts].
  apply skipped_device; assumption.
Qed.

(** The same in the unified server. *)
Lemma unified_discover_skipped_device_stays_registered (args : Args)
    (w w' : World) (d : Dict) :
  Unified.discover_devices dl args w = (Ok d, w') ->
  success d = Some true ->
  exists casts browser listed,
    get_chromecasts dl (timeout_of args) = inr (casts, browser)
    /\ chromecasts (self w') = casts
    /\ listed = filter (reachable dl) casts
    /\ dict_get d "devices"
       = Some (JList (map Unified.device_info listed))
    /\ dict_get d "device_count"
       = Some (JInt (Z.of_nat (List.length listed)))
    /\ forall cast,
        In cast casts -> reachable dl cast = false ->
        In cast (chromecasts (self w'))
        /\ ~ In cast listed
        /\ (List.length listed < List.length (chromecasts (self w')))%nat
        /\ (exists found,
               Unified._find_device (self w') (name cast) = Some found
               /\ designates (name cast) found)
        /\ ((forall other, In other listed -> name other <> name cast) ->
            ~ In (name cast)
                 (reported_names (map Unified.device_info listed))).
Proof.
  intros Hrun Hs.
  destruct (unified_discover_success_path dl args w w' d Hrun Hs)
    as (casts & browser & Hscan & _ & -> & ->).
  destruct (registry_after_scan dl casts browser args w) as [Hself Hkeep].
  rewrite Hkeep, Hself. cbn [chromecasts].
  exists casts, browser, (filter (reachable dl) casts).
  split; [exact Hscan|].
  split; [reflexivity|]. split; [reflexivity|]. split; [reflexivity|].
  split; [simpl; rewrite length_map; reflexivity|].
  intros cast Hin Hdown. split; [exact Hin|].
  rewrite reported_names_unified.
  unfold Unified._find_device. cbn [chromecasts].
  rewrite find_loop_same.
  apply skipped_device; assumption.
Qed.

End Skipped.

(** ** The command dispatcher *)

Section Substrings.

Lemma prefix_append (n rest : string) : prefix n (n ++ rest) = true.
Proof.
  induction n as [|c n IH]; [destruct rest; reflexivity|].
  simpl. destruct (ascii_dec c c) as [_|Hne]; [exact IH|].
  exfalso. apply Hne. reflexivity.
Qed.

Lemma contains_of_prefix (n s : string) :
  prefix n s = true -> contains n s = true.
Proof. intros H. destruct s; cbn [contains]; rewrite H; reflexivity. Qed.

Lemma contains_prefixed (n rest : string) : contains n (n ++ rest) = true.
Proof. apply contains_of_prefix, prefix_append. Qed.

(** A string contains each piece it is concatenated from. *)
Lemma contains_middle (before n rest : string) :
  contains n (before ++ n ++ rest) = true.
Proof.
  induction before as [|c before IH].
  - change ("" ++ n ++ rest) with (n ++ rest). apply contains_prefixed.
  - change (String c before ++ n ++ rest)
      with (String c (before ++ n ++ rest)).
    cbn [contains]. rewrite IH. apply orb_true_r.
Qed.

Lemma contains_suffix (before n : string) :
  contains n (before ++ n) = true.
Proof.
  pose proof (contains_middle before n "") as H.
  assert (Hnil : forall s : string, s ++ "" = s).
  { induction s as [|c s IH]; [reflexivity|]. simpl. rewrite IH. reflexivity. }
  rewrite Hnil in H. exact H.
Qed.

End Substrings.

Section Commands.
Context {RT : PyRuntime}.
Variable dl : DeviceLayer.

(** The commands short-circuit in the same way; one proof serves. *)
Ltac short_circuit args Hnone :=
  unfold try_catch, bind, get_self, ret;
  fold (device_name_of args); rewrite Hnone;
  eexists; eexists;
  split; [reflexivity|];
  split; [reflexivity|];
  split; [reflexivity|];
  apply (contains_middle "Device '").

(** C4. When the locator does not resolve the device name, each of
    the seven commands returns a [success: false] dictionary whose
    error text contains the name, and leaves the world as it was: no
    device-layer call is made, the registry and the clock are
    untouched. *)
Theorem unknown_device_short_circuits (args : Args) (w : World) :
  GoogleHome._find_device (self w) (device_name_of args) = None ->
  Forall
    (fun command : Args -> M Dict =>
       exists d err,
         command args w = (Ok d, w)
         /\ success d = Some false
         /\ str_field d "error" = Some err
         /\ contains (device_name_of args) err = true)
    [GoogleHome.get_device_status dl;
     GoogleHome.play_media dl;
     GoogleHome.pause_media dl;
     GoogleHome.resume_media dl;
     GoogleHome.stop_media dl;
     GoogleHome.set_volume dl;
     GoogleHome.speak_text dl].
Proof.
  intros Hnone.
  repeat apply Forall_cons; [ | | | | | | | apply Forall_nil ].
  - unfold GoogleHome.get_device_status. short_circuit args Hnone.
  - unfold GoogleHome.play_media. short_circuit args Hnone.
  - unfold GoogleHome.pause_media. short_circuit args Hnone.
  - unfold GoogleHome.resume_media. short_circuit args Hnone.
  - unfold GoogleHome.stop_media. short_circuit args Hnone.
  - unfold GoogleHome.set_volume. short_circuit args Hnone.
  - unfold GoogleHome.speak_text. short_circuit args Hnone.
Qed.

End Commands.

(** ** Text to speech *)

Section Speech.
Context {RT : PyRuntime}.
Variable dl : DeviceLayer.

Lemma append_assoc (a b c : string) : (a ++ b) ++ c = a ++ b ++ c.
Proof.
  induction a as [|x a IH]; [reflexivity|].
  simpl. rewrite IH. reflexivity.
Qed.

Lemma tts_url_contains_text (language text : string) :
  contains (quote text) (tts_url language text) = true.
Proof.
  unfold tts_url.
  rewrite <- (append_assoc language "&q=" (quote text)).
  rewrite <- append_assoc.
  apply contains_suffix.
Qed.

Lemma tts_url_contains_language (language text : string) :
  contains ("tl=" ++ language) (tts_url language text) = true.
Proof.
  change (tts_url language text)
    with ("https://translate.google.com/translate_tts?ie=UTF-8&client=tw-ob&"
          ++ "tl=" ++ language ++ "&q=" ++ quote text).
  rewrite <- (append_assoc "tl=" language).
  apply contains_middle.
Qed.

Lemma played_app (a b : list Call) :
  played (a ++ b) = (played a ++ played b)%list.
Proof.
  induction a as [|c a IH]; [reflexivity|].
  destruct c; simpl; rewrite IH; reflexivity.
Qed.

(** The statements of [speak_text] after the locator, for a device
    whose [wait] returns: the play command is issued whether or not it
    or the following [block_until_active] raises. *)
Ltac speak_paths args cast :=
  unfold try_catch, bind, get_self, ret, call;
  match goal with
  | |- context [raises dl (PlayMedia cast ?u ?c ?t)] =>
      destruct (raises dl (PlayMedia cast u c t)) as [?e|];
      [ | destruct (raises dl (BlockUntilActive cast)) as [?e|] ]
  end;
  eexists; eexists;
  [ exists [Wait cast;
            PlayMedia cast
              (tts_url (language_of args) (text_of args)) "audio/mp3" None]
  | exists [Wait cast;
            PlayMedia cast
              (tts_url (language_of args) (text_of args)) "audio/mp3" None;
            BlockUntilActive cast]
  | exists [Wait cast;
            PlayMedia cast
              (tts_url (language_of args) (text_of args)) "audio/mp3" None;
            BlockUntilActive cast] ];
  (split; [reflexivity|]);
  (split; [simpl; rewrite <- ?app_assoc; reflexivity | reflexivity]).

(** The play command of [speak_text] in both servers. *)
Lemma speak_text_dispatch (args : Args) (w : World) (cast : Chromecast) :
  GoogleHome._find_device (self w) (device_name_of args) = Some cast ->
  reachable dl cast = true ->
  (exists d w' new,
      GoogleHome.speak_text dl args w = (Ok d, w')
      /\ trace w' = (trace w ++ new)%list
      /\ played new
         = [(tts_url (language_of args) (text_of args), "audio/mp3")])
  /\ (exists d w' new,
         Unified.speak_text dl args w = (Ok d, w')
         /\ trace w' = (trace w ++ new)%list
         /\ played new
            = [(tts_url (language_of args) (text_of args), "audio/mp3")]).
Proof.
  intros Hfound Hup.
  assert (Hfound' :
            Unified._find_device (self w) (device_name_of args) = Some cast).
  { unfold Unified._find_device. rewrite find_loop_same. exact Hfound. }
  unfold reachable in Hup.
  destruct (raises dl (Wait cast)) as [e|] eqn:Hwait; [discriminate|].
  split.
  - unfold GoogleHome.speak_text.
    fold (device_name_of args) (text_of args) (language_of args).
    unfold try_catch at 1, bind at 1, get_self at 1.
    rewrite Hfound. unfold bind at 1, call at 1. rewrite Hwait.
    speak_paths args cast.
  - unfold Unified.speak_text.
    fold (device_name_of args) (text_of args) (language_of args).
    unfold bind at 1, get_self at 1.
    rewrite Hfound'. unfold try_catch at 1, bind at 1, call at 1.
    rewrite Hwait.
    speak_paths args cast.
Qed.

(** C5, amended. For a device the locator resolves and whose [wait]
    returns, [speak_text] issues exactly one play command; its URL is
    the text-to-speech URL, which contains the percent-encoded text
    and [tl=] followed by the language as given, and its MIME type is
    [audio/mp3].  The text "Xin chào" is encoded as
    [Xin%20ch%C3%A0o].  The same holds in both servers. *)
Theorem speak_text_plays_tts_url (args : Args) (w : World)
    (cast : Chromecast) :
  GoogleHome._find_device (self w) (device_name_of args) = Some cast ->
  reachable dl cast = true ->
  (exists d w' new,
      GoogleHome.speak_text dl args w = (Ok d, w')
      /\ trace w' = (trace w ++ new)%list
      /\ played new
         = [(tts_url (language_of args) (text_of args), "audio/mp3")])
  /\ (exists d w' new,
         Unified.speak_text dl args w = (Ok d, w')
         /\ trace w' = (trace w ++ new)%list
         /\ played new
            = [(tts_url (language_of args) (text_of args), "audio/mp3")])
  /\ contains (quote (text_of args))
       (tts_url (language_of args) (text_of args)) = true
  /\ contains ("tl=" ++ language_of args)
       (tts_url (language_of args) (text_of args)) = true
  /\ quote "Xin chào" = "Xin%20ch%C3%A0o".
Proof.
  intros Hfound Hup.
  assert (Hfound' :
            Unified._find_device (self w) (device_name_of args) = Some cast).
  { unfold Unified._find_device. rewrite find_loop_same. exact Hfound. }
  unfold reachable in Hup.
  destruct (raises dl (Wait cast)) as [e|] eqn:Hwait; [discriminate|].
  split; [|split; [|split; [|split]]].
  - unfold GoogleHome.speak_text.
    fold (device_name_of args) (text_of args) (language_of args).
    unfold try_catch at 1, bind at 1, get_self at 1.
    rewrite Hfound. unfold bind at 1, call at 1. rewrite Hwait.
    speak_paths args cast.
  - unfold Unified.speak_text.
    fold (device_name_of args) (text_of args) (language_of args).
    unfold bind at 1, get_self at 1.
    rewrite Hfound'. unfold try_catch at 1, bind at 1, call at 1.
    rewrite Hwait.
    speak_paths args cast.
  - apply tts_url_contains_text.
  - apply tts_url_contains_language.
  - reflexivity.
Qed.

End Speech.

(** *** The query string of the text-to-speech URL *)

Section QueryString.
Context {RT : PyRuntime}.
Variable dl : DeviceLayer.

Lemma count_char_app (c : ascii) (a b : string) :
  count_char c (a ++ b) = count_char c a + count_char c b.
Proof.
  induction a as [|x a IH]; [reflexivity|].
  simpl. rewrite IH. lia.
Qed.

(** Cutting at the first separator: either there is none, or one
    occurrence is consumed and the rest is shorter. *)
Lemma split_at_cases (sep : ascii) (s : string) :
  match split_at sep s with
  | (_, None) => count_char sep s = 0
  | (_, Some rest) =>
      count_char sep s = S (count_char sep rest)
      /\ String.length rest < String.length s
  end.
Proof.
  induction s as [|c s IH]; [reflexivity|].
  simpl. destruct (Ascii.eqb c sep).
  - split; [reflexivity | lia].
  - destruct (split_at sep s) as [head [rest|]]; simpl.
    + destruct IH as [Hcount Hlen]. split; [exact Hcount | lia].
    + exact IH.
Qed.

Lemma split_all_length (sep : ascii) (fuel : nat) (s : string) :
  String.length s <= fuel ->
  List.length (split_all fuel sep s) = S (count_char sep s).
Proof.
  revert s. induction fuel as [|fuel IH]; intros s Hfuel.
  - destruct s; [reflexivity | simpl in Hfuel; lia].
  - simpl. pose proof (split_at_cases sep s) as Hcut.
    destruct (split_at sep s) as [head [rest|]].
    + destruct Hcut as [Hcount Hlen]. simpl.
      rewrite IH by lia. rewrite Hcount. reflexivity.
    + simpl. rewrite Hcut. reflexivity.
Qed.

(** [quote] never produces an ampersand. *)
Lemma quote_byte_no_ampersand (c : ascii) :
  count_char "&" (quote_byte c) = 0.
Proof.
  destruct c as [[] [] [] [] [] [] [] []]; reflexivity.
Qed.

Lemma quote_no_ampersand (text : string) :
  count_char "&" (quote text) = 0.
Proof.
  induction text as [|c text IH]; [reflexivity|].
  simpl. rewrite count_char_app, quote_byte_no_ampersand, IH. reflexivity.
Qed.

(** Nor a number sign. *)
Lemma quote_byte_no_hash (c : ascii) :
  count_char "#" (quote_byte c) = 0.
Proof.
  destruct c as [[] [] [] [] [] [] [] []]; reflexivity.
Qed.

Lemma quote_no_hash (text : string) : count_char "#" (quote text) = 0.
Proof.
  induction text as [|c text IH]; [reflexivity|].
  simpl. rewrite count_char_app, quote_byte_no_hash, IH. reflexivity.
Qed.

(** Cutting a string in which the separator does not occur. *)
Lemma split_at_absent (sep : ascii) (s : string) :
  count_char sep s = 0 -> split_at sep s = (s, None).
Proof.
  induction s as [|c s IH]; [reflexivity|].
  simpl. destruct (Ascii.eqb c sep); [discriminate|].
  intros Hcount. rewrite (IH Hcount). reflexivity.
Qed.

Lemma split_at_whole (sep : ascii) (s head : string) :
  split_at sep s = (head, None) -> head = s /\ count_char sep s = 0.
Proof.
  revert head. induction s as [|c s IH]; intros head.
  - intros [= <-]. split; reflexivity.
  - simpl. destruct (Ascii.eqb c sep); [discriminate|].
    destruct (split_at sep s) as [h [t|]]; [discriminate|].
    intros [= <-]. destruct (IH h eq_refl) as [-> Hcount].
    split; [reflexivity | exact Hcount].
Qed.

(** Cutting a concatenation. *)
Lemma split_at_app (sep : ascii) (a b : string) :
  split_at sep (a ++ b)
  = match split_at sep a with
    | (head, Some tail) => (head, Some (tail ++ b))
    | (_, None) => let '(head, tail) := split_at sep b in (a ++ head, tail)
    end.
Proof.
  induction a as [|c a IH].
  - simpl. destruct (split_at sep b) as [head tail]. reflexivity.
  - cbn [append split_at]. destruct (Ascii.eqb c sep); [reflexivity|].
    rewrite IH. destruct (split_at sep a) as [head [tail|]]; [reflexivity|].
    destruct (split_at sep b) as [head' tail']. reflexivity.
Qed.

(** The part of the text-to-speech URL before its fragment: all of it
    when the language has no [#], otherwise what precedes the first
    [#] of the language. *)
Lemma tts_url_before_fragment (language text : string) :
  fst (split_at "#" (tts_url language text))
  = "https://translate.google.com/translate_tts?ie=UTF-8&client=tw-ob&tl="
      ++ match split_at "#" language with
         | (kept, Some _) => kept
         | (_, None) => language ++ "&q=" ++ quote text
         end.
Proof.
  unfold tts_url.
  rewrite (split_at_app "#"
             "https://translate.google.com/translate_tts?ie=UTF-8&client=tw-ob&tl=").
  rewrite (split_at_absent "#"
             "https://translate.google.com/translate_tts?ie=UTF-8&client=tw-ob&tl=")
    by reflexivity.
  rewrite (split_at_app "#" language).
  destruct (split_at "#" language) as [kept [rest|]]; [reflexivity|].
  rewrite (split_at_absent "#" ("&q=" ++ quote text)); [reflexivity|].
  rewrite count_char_app, quote_no_hash. reflexivity.
Qed.

(** The number of parameters in the query of the text-to-speech
    URL. *)
Lemma tts_url_parameters (language text : string) :
  List.length (query_params (tts_url language text))
  = match split_at "#" language with
    | (kept, Some _) => 3 + count_char "&" kept
    | (_, None) => 4 + count_char "&" language
    end.
Proof.
  unfold query_params. rewrite tts_url_before_fragment.
  set (rest := match split_at "#" language with
               | (kept, Some _) => kept
               | (_, None) => language ++ "&q=" ++ quote text
               end).
  change (snd (split_at "?"
                 ("https://translate.google.com/translate_tts?ie=UTF-8&client=tw-ob&tl="
                  ++ rest)))
    with (Some ("ie=UTF-8&client=tw-ob&tl=" ++ rest)).
  cbv beta iota.
  rewrite length_map, split_all_length by lia.
  rewrite count_char_app. subst rest.
  destruct (split_at "#" language) as [kept [tail|]].
  - simpl. lia.
  - rewrite !count_char_app, quote_no_ampersand. simpl. lia.
Qed.

(** C10. For a device the locator resolves and whose [wait] returns,
    [speak_text] of either server plays the URL in which the language
    stands as it was given, while the text went through [quote].  The
    query of that URL has four parameters plus one for every [&] of the
    language; when the language has a [#], the query ends there: it
    has three parameters plus one for every [&] before the first [#],
    and the text is no part of it.  Had the language gone through
    [quote] too, the query would always have four parameters.  The
    language [en&client=x] yields a second [client] parameter and the
    [tl] parameter [en], where quoting would have given
    [en%26client%3Dx]; the language [en#x] leaves no [q] parameter. *)
Theorem tts_language_not_escaped (args : Args) (w : World)
    (cast : Chromecast) :
  GoogleHome._find_device (self w) (device_name_of args) = Some cast ->
  reachable dl cast = true ->
  let url :=
    "https://translate.google.com/translate_tts?ie=UTF-8&client=tw-ob&tl="
      ++ language_of args ++ "&q=" ++ quote (text_of args) in
  (exists d w' new,
      GoogleHome.speak_text dl args w = (Ok d, w')
      /\ trace w' = (trace w ++ new)%list
      /\ played new = [(url, "audio/mp3")])
  /\ (exists d w' new,
         Unified.speak_text dl args w = (Ok d, w')
         /\ trace w' = (trace w ++ new)%list
         /\ played new = [(url, "audio/mp3")])
  /\ List.length (query_params url)
     = match split_at "#" (language_of args) with
       | (kept, Some _) => 3 + count_char "&" kept
       | (_, None) => 4 + count_char "&" (language_of args)
       end
  /\ List.length
       (query_params
          ("https://translate.google.com/translate_tts?ie=UTF-8&client=tw-ob&tl="
             ++ quote (language_of args) ++ "&q=" ++ quote (text_of args)))
     = 4
  /\ query_params (tts_url "vi-VN" "hi")
     = [("ie", "UTF-8"); ("client", "tw-ob"); ("tl", "vi-VN"); ("q", "hi")]
  /\ query_params (tts_url "en&client=x" "hi")
     = [("ie", "UTF-8"); ("client", "tw-ob"); ("tl", "en");
        ("client", "x"); ("q", "hi")]
  /\ query_params (tts_url "en#x" "hi")
     = [("ie", "UTF-8"); ("client", "tw-ob"); ("tl", "en")]
  /\ quote "en&client=x" = "en%26client%3Dx".
Proof.
  intros Hfound Hup url.
  destruct (speak_text_dispatch dl args w cast Hfound Hup)
    as [Hgoogle Hunified].
  split; [exact Hgoogle|]. split; [exact Hunified|].
  split; [apply (tts_url_parameters (language_of args) (text_of args))|].
  split; [|repeat split].
  pose proof (tts_url_parameters (quote (language_of args)) (text_of args))
    as Hquoted.
  rewrite (split_at_absent "#" (quote (language_of args))) in Hquoted
    by apply quote_no_hash.
  rewrite quote_no_ampersand in Hquoted. exact Hquoted.
Qed.

End QueryString.

(** ** Listing *)

Section Listing.
Context {RT : PyRuntime}.

(** C9. On an empty registry [list_devices] returns [success: false]
    with a message that asks for a discovery first and an empty
    [devices] list, in both servers, and changes nothing. *)
Theorem list_devices_empty_registry (t : option Z) (calls : list Call)
    (now : Z) :
  GoogleHome.list_devices
    {| self := {| chromecasts := []; last_discovery_time := t |};
       trace := calls; clock := now |}
  = (Ok [("success", JBool false);
         ("message",
          JStr "No devices found. Please run discover_devices first.");
         ("devices", JList [])],
     {| self := {| chromecasts := []; last_discovery_time := t |};
        trace := calls; clock := now |})
  /\ Unified.list_devices
       {| self := {| chromecasts := []; last_discovery_time := t |};
          trace := calls; clock := now |}
     = (Ok [("success", JBool false);
            ("message",
             JStr "Chưa có thiết bị. Hãy chạy discover_google_home trước.");
            ("devices", JList [])],
        {| self := {| chromecasts := []; last_discovery_time := t |};
           trace := calls; clock := now |}).
Proof. split; reflexivity. Qed.

(** The contrast with discovery: after a discovery that found no
    device and reported [success: true], listing reports
    [success: false]. *)
Lemma list_after_empty_discovery (dl : DeviceLayer) (args : Args)
    (w : World) (browser : option Browser) :
  get_chromecasts dl (timeout_of args) = inr ([], browser) ->
  stop_raises dl browser = None ->
  exists d w' d',
    GoogleHome.discover_devices dl args w = (Ok d, w')
    /\ success d = Some true
    /\ GoogleHome.list_devices w' = (Ok d', w')
    /\ success d' = Some false.
Proof.
  intros Hscan Hstop.
  rewrite discover_devices_run, Hscan. cbv zeta. rewrite Hstop.
  eexists; eexists; eexists.
  split; [reflexivity|]. split; [reflexivity|].
  unfold GoogleHome.list_devices, try_catch, bind, get_self.
  rewrite self_after_waits, self_after_stop. cbn [scanned with_registry self chromecasts].
  split; reflexivity.
Qed.

End Listing.

(** ** The unified server on an unknown device *)

Section UnifiedCommands.
Context {RT : PyRuntime}.
Variable dl : DeviceLayer.

(** In [mcp_server.py] too an unresolved name makes every command
    return [success: false] without touching the world; only
    [get_device_status], [play_media] and [speak_text] put the name
    into the error text, the other four return a fixed text. *)
Lemma unified_unknown_device_short_circuits (args : Args) (w : World) :
  Unified._find_device (self w) (device_name_of args) = None ->
  Forall
    (fun command : Args -> M Dict =>
       command args w = (Ok (Unified.not_found_named (device_name_of args)), w))
    [Unified.get_device_status dl; Unified.play_media dl;
     Unified.speak_text dl]
  /\ Forall
       (fun command : Args -> M Dict =>
          command args w = (Ok Unified.not_found, w))
       [Unified.pause_media dl; Unified.resume_media dl;
        Unified.stop_media dl; Unified.set_volume dl].
Proof.
  intros Hnone.
  split; repeat apply Forall_cons; try apply Forall_nil.
  - unfold Unified.get_device_status, bind, get_self.
    fold (device_name_of args). rewrite Hnone. reflexivity.
  - unfold Unified.play_media, bind, get_self.
    fold (device_name_of args). rewrite Hnone. reflexivity.
  - unfold Unified.speak_text, bind, get_self.
    fold (device_name_of args). rewrite Hnone. reflexivity.
  - unfold Unified.pause_media, bind, get_self.
    fold (device_name_of args). rewrite Hnone. reflexivity.
  - unfold Unified.resume_media, bind, get_self.
    fold (device_name_of args). rewrite Hnone. reflexivity.
  - unfold Unified.stop_media, bind, get_self.
    fold (device_name_of args). rewrite Hnone. reflexivity.
  - unfold Unified.set_volume, bind, get_self.
    fold (device_name_of args). rewrite Hnone. reflexivity.
Qed.

End UnifiedCommands.

(** * Concrete runs *)

(** The scenario of the specification: the registry holds the one
    entry with internal name "Bedroom" and display name
    "Bedroom Speaker". *)
Example find_bedroom_speaker :
  GoogleHome._find_device
    {| chromecasts := [bedroom]; last_discovery_time := None |}
    "bedroom speaker" = Some bedroom
  /\ GoogleHome._find_device
       {| chromecasts := [bedroom]; last_discovery_time := None |}
       "kitchen" = None.
Proof. split; reflexivity. Qed.

(** C2, counterexample. The scan returns the bedroom device and a
    browser whose [stop_discovery] raises: the call reports
    [success: false], yet the registry and the timestamp left by the
    earlier discovery have been replaced. *)
Lemma discover_stop_error_replaces_registry :
  exists d w',
    GoogleHome.discover_devices stop_error_layer no_args (start prior 100)
    = (Ok d, w')
    /\ success d = Some false
    /\ self w'
       = {| chromecasts := [bedroom]; last_discovery_time := Some 101%Z |}
    /\ self w' <> self (start prior 100).
Proof.
  eexists. eexists.
  split; [reflexivity|]. split; [reflexivity|]. split; [reflexivity|].
  discriminate.
Qed.

(** The network is unreachable: the scan raises and the registry of
    the earlier discovery stays. *)
Lemma discover_scan_error_keeps_registry_witness :
  get_chromecasts offline_layer (timeout_of no_args)
  = inl "[Errno 101] Network is unreachable"
  /\ (exists d w',
         GoogleHome.discover_devices offline_layer no_args (start prior 100)
         = (Ok d, w')
         /\ success d = Some false
         /\ str_field d "error" = Some "[Errno 101] Network is unreachable"
         /\ self w' = self (start prior 100))
  /\ (exists d w',
         Unified.discover_devices offline_layer no_args (start prior 100)
         = (Ok d, w')
         /\ success d = Some false
         /\ str_field d "error" = Some "[Errno 101] Network is unreachable"
         /\ self w' = self (start prior 100)).
Proof.
  split; [reflexivity|].
  apply (discover_scan_error_keeps_registry offline_layer no_args
           (start prior 100) "[Errno 101] Network is unreachable").
  reflexivity.
Defined.

(** A discovery that finds both devices replaces the one-device
    registry of the earlier discovery. *)
Lemma discover_success_replaces_registry_witness :
  exists d w',
    GoogleHome.discover_devices home_layer no_args (start prior 100)
    = (Ok d, w')
    /\ success d = Some true
    /\ exists casts browser t,
        get_chromecasts home_layer (timeout_of no_args)
        = inr (casts, browser)
        /\ chromecasts (self w') = casts
        /\ last_discovery_time (self w') = Some t
        /\ (clock (start prior 100) <= t <= clock w')%Z.
Proof.
  eexists. eexists.
  split; [reflexivity|]. split; [reflexivity|].
  eapply (discover_success_replaces_registry home_layer no_args
            (start prior 100)); reflexivity.
Defined.

(** The browser is stopped even on the path where stopping raises. *)
Lemma discover_stops_browser_witness :
  get_chromecasts stop_error_layer (timeout_of no_args)
  = inr ([bedroom], Some (BrowserHandle 1))
  /\ (exists d w' later,
         GoogleHome.discover_devices stop_error_layer no_args
           (start prior 100)
         = (Ok d, w')
         /\ trace w'
            = (trace (start prior 100)
               ++ GetChromecasts (timeout_of no_args)
                  :: StopDiscovery (BrowserHandle 1) :: later)%list
         /\ (later = [] \/ later = map Wait [bedroom]))
  /\ (exists d w' later,
         Unified.discover_devices stop_error_layer no_args (start prior 100)
         = (Ok d, w')
         /\ trace w'
            = (trace (start prior 100)
               ++ GetChromecasts (timeout_of no_args)
                  :: StopDiscovery (BrowserHandle 1) :: later)%list
         /\ (later = [] \/ later = map Wait [bedroom])).
Proof.
  split; [reflexivity|].
  apply (discover_stops_browser stop_error_layer no_args (start prior 100)
           [bedroom] (BrowserHandle 1)).
  reflexivity.
Defined.

(** C7, counterexample. The scan completes with no device and a
    browser whose [stop_discovery] raises: the result is
    [success: false] and carries no [device_count]. *)
Lemma discover_zero_devices_stop_error :
  get_chromecasts empty_stop_error_layer (timeout_of no_args)
  = inr ([], Some (BrowserHandle 1))
  /\ exists d w',
      GoogleHome.discover_devices empty_stop_error_layer no_args
        (start prior 100)
      = (Ok d, w')
      /\ success d = Some false
      /\ dict_get d "device_count" = None
      /\ dict_get d "devices" = None.
Proof.
  split; [reflexivity|].
  eexists. eexists. repeat split.
Qed.

(** A scan that finds nothing, with a browser that stops normally. *)
Lemma discover_zero_devices_witness :
  get_chromecasts empty_layer (timeout_of no_args)
  = inr ([], Some (BrowserHandle 1))
  /\ stop_raises empty_layer (Some (BrowserHandle 1)) = None
  /\ exists d w',
      GoogleHome.discover_devices empty_layer no_args (start prior 100)
      = (Ok d, w')
      /\ chromecasts (self w') = []
      /\ success d = Some true
      /\ dict_get d "device_count" = Some (JInt 0)
      /\ dict_get d "devices" = Some (JList []).
Proof.
  split; [reflexivity|]. split; [reflexivity|].
  destruct (discover_zero_devices empty_layer no_args (start prior 100)
              (Some (BrowserHandle 1)) eq_refl)
    as (d & w' & Hrun & Hempty & Hreport).
  exists d, w'.
  split; [exact Hrun|]. split; [exact Hempty|].
  exact (Hreport eq_refl).
Defined.

(** The bedroom device does not answer [wait] during discovery. *)
Lemma discover_skipped_device_stays_registered_witness :
  exists d w',
    GoogleHome.discover_devices bedroom_down_layer no_args (start prior 100)
    = (Ok d, w')
    /\ success d = Some true
    /\ exists casts browser listed,
        get_chromecasts bedroom_down_layer (timeout_of no_args)
        = inr (casts, browser)
        /\ chromecasts (self w') = casts
        /\ listed = filter (reachable bedroom_down_layer) casts
        /\ dict_get d "devices"
           = Some (JList (map GoogleHome.device_info listed))
        /\ dict_get d "device_count"
           = Some (JInt (Z.of_nat (List.length listed)))
        /\ forall cast,
            In cast casts ->
            reachable bedroom_down_layer cast = false ->
            In cast (chromecasts (self w'))
            /\ ~ In cast listed
            /\ (List.length listed
                < List.length (chromecasts (self w')))%nat
            /\ (exists found,
                   GoogleHome._find_device (self w') (name cast)
                   = Some found
                   /\ designates (name cast) found)
            /\ ((forall other,
                    In other listed -> name other <> name cast) ->
                ~ In (name cast)
                     (reported_names
                        (map GoogleHome.device_info listed))).
Proof.
  eexists. eexists.
  split; [reflexivity|]. split; [reflexivity|].
  eapply (discover_skipped_device_stays_registered bedroom_down_layer
            no_args (start prior 100)); reflexivity.
Defined.

(** The bedroom device does not answer [wait] during discovery: the
    report counts one device and lists only "Living Room", the
    registry holds two, and the locator resolves "Bedroom". *)
Example bedroom_skipped_but_found :
  exists d w',
    GoogleHome.discover_devices bedroom_down_layer no_args (start prior 100)
    = (Ok d, w')
    /\ success d = Some true
    /\ dict_get d "device_count" = Some (JInt 1)
    /\ dict_get d "devices"
       = Some (JList [GoogleHome.device_info living_room])
    /\ chromecasts (self w') = [bedroom; living_room]
    /\ GoogleHome._find_device (self w') "Bedroom" = Some bedroom.
Proof. eexists. eexists. repeat split. Qed.

(** No device is called "Kitchen". *)
Lemma unknown_device_short_circuits_witness :
  GoogleHome._find_device (self (start prior 100))
    (device_name_of (device_args "Kitchen")) = None
  /\ Forall
       (fun command : Args -> M Dict =>
          exists d err,
            command (device_args "Kitchen") (start prior 100)
            = (Ok d, start prior 100)
            /\ success d = Some false
            /\ str_field d "error" = Some err
            /\ contains (device_name_of (device_args "Kitchen")) err = true)
       [GoogleHome.get_device_status home_layer;
        GoogleHome.play_media home_layer;
        GoogleHome.pause_media home_layer;
        GoogleHome.resume_media home_layer;
        GoogleHome.stop_media home_layer;
        GoogleHome.set_volume home_layer;
        GoogleHome.speak_text home_layer].
Proof.
  split; [reflexivity|].
  apply (unknown_device_short_circuits home_layer (device_args "Kitchen")
           (start prior 100)).
  reflexivity.
Defined.

(** C5, counterexample. The locator resolves "Living Room", but the
    device does not answer [wait]: [speak_text] returns
    [success: false] and no play command has been issued. *)
Lemma speak_unreachable_device_plays_nothing :
  GoogleHome._find_device (self (start prior 100)) "Living Room"
  = Some living_room
  /\ exists d w',
      GoogleHome.speak_text living_room_down_layer
        (speak_args "Living Room" "Xin chào" "vi-VN") (start prior 100)
      = (Ok d, w')
      /\ success d = Some false
      /\ trace w' = [Wait living_room]
      /\ played (trace w') = [].
Proof.
  split; [reflexivity|].
  eexists. eexists. repeat split.
Qed.

(** The scenario of the specification:
    [speak_text("Living Room", "Xin chào", "vi-VN")] on a device that
    answers. *)
Lemma speak_text_plays_tts_url_witness :
  GoogleHome._find_device (self (start prior 100))
    (device_name_of (speak_args "Living Room" "Xin chào" "vi-VN"))
  = Some living_room
  /\ reachable home_layer living_room = true
  /\ (exists d w' new,
         GoogleHome.speak_text home_layer
           (speak_args "Living Room" "Xin chào" "vi-VN") (start prior 100)
         = (Ok d, w')
         /\ trace w' = (trace (start prior 100) ++ new)%list
         /\ played new
            = [("https://translate.google.com/translate_tts?ie=UTF-8&client=tw-ob&tl=vi-VN&q=Xin%20ch%C3%A0o",
                "audio/mp3")])
  /\ contains "Xin%20ch%C3%A0o"
       (tts_url "vi-VN" "Xin chào") = true
  /\ contains "tl=vi-VN" (tts_url "vi-VN" "Xin chào") = true.
Proof.
  split; [reflexivity|]. split; [reflexivity|].
  pose proof (speak_text_plays_tts_url home_layer
                (speak_args "Living Room" "Xin chào" "vi-VN")
                (start prior 100) living_room eq_refl eq_refl)
    as (Hgoogle & _ & Htext & Hlanguage & _).
  split; [exact Hgoogle|]. split; [exact Htext | exact Hlanguage].
Defined.

(** [speak_text("Living Room", "hi", "en&client=x")] on a device that
    answers: the URL that is played has five parameters. *)
Lemma tts_language_not_escaped_witness :
  GoogleHome._find_device (self (start prior 100))
    (device_name_of (speak_args "Living Room" "hi" "en&client=x"))
  = Some living_room
  /\ reachable home_layer living_room = true
  /\ (exists d w' new,
         GoogleHome.speak_text home_layer
           (speak_args "Living Room" "hi" "en&client=x") (start prior 100)
         = (Ok d, w')
         /\ trace w' = (trace (start prior 100) ++ new)%list
         /\ played new
            = [("https://translate.google.com/translate_tts?ie=UTF-8&client=tw-ob&tl=en&client=x&q=hi",
                "audio/mp3")])
  /\ (exists d w' new,
         Unified.speak_text home_layer
           (speak_args "Living Room" "hi" "en&client=x") (start prior 100)
         = (Ok d, w')
         /\ trace w' = (trace (start prior 100) ++ new)%list
         /\ played new
            = [("https://translate.google.com/translate_tts?ie=UTF-8&client=tw-ob&tl=en&client=x&q=hi",
                "audio/mp3")])
  /\ List.length
       (query_params
          "https://translate.google.com/translate_tts?ie=UTF-8&client=tw-ob&tl=en&client=x&q=hi")
     = 5.
Proof.
  split; [reflexivity|]. split; [reflexivity|].
  pose proof (tts_language_not_escaped home_layer
                (speak_args "Living Room" "hi" "en&client=x")
                (start prior 100) living_room eq_refl eq_refl)
    as (Hgoogle & Hunified & Hcount & _).
  split; [exact Hgoogle|]. split; [exact Hunified | exact Hcount].
Defined.

(** * Further properties *)

(** ** Commands on a resolved device *)

Section Scripted.
Context {RT : PyRuntime}.
Variable dl : DeviceLayer.

Lemma after_calls_cons (c : Call) (rest : list Call) (w : World) :
  after_calls dl (c :: rest) w = after_calls dl rest (after_call dl c w).
Proof. reflexivity. Qed.

Lemma self_after_calls (calls : list Call) (w : World) :
  self (after_calls dl calls w) = self w.
Proof.
  revert w. induction calls as [|c rest IH]; intros w; [reflexivity|].
  rewrite after_calls_cons, IH. reflexivity.
Qed.

Lemma trace_after_calls (calls : list Call) (w : World) :
  trace (after_calls dl calls w) = (trace w ++ calls)%list.
Proof.
  revert w. induction calls as [|c rest IH]; intros w.
  - simpl. rewrite app_nil_r. reflexivity.
  - rewrite after_calls_cons, IH. simpl.
    rewrite <- app_assoc. reflexivity.
Qed.

Lemma clock_after_calls (calls : list Call) (w : World) :
  (clock w <= clock (after_calls dl calls w))%Z.
Proof.
  revert w. induction calls as [|c rest IH]; intros w.
  - simpl. lia.
  - rewrite after_calls_cons.
    pose proof (IH (after_call dl c w)). simpl in *. lia.
Qed.

(** A series of calls inside [try: ... except Exception as e:] whose
    handler returns the failure dictionary. *)
Lemma run_calls_caught (calls : list Call) (d : Dict) (w : World) :
  try_catch (run_calls dl calls (ret d)) (fun e => ret (failure e)) w
  = (Ok match first_failure dl calls with
        | Some e => failure e
        | None => d
        end,
     after_calls dl (attempted dl calls) w).
Proof.
  revert w. induction calls as [|c rest IH]; intros w; [reflexivity|].
  specialize (IH (after_call dl c w)).
  unfold try_catch in *. cbn [run_calls attempted first_failure].
  unfold bind at 1, call at 1.
  destruct (raises dl c) as [e|]; [reflexivity|].
  rewrite after_calls_cons. exact IH.
Qed.

Lemma runs_script_intro (command : Args -> M Dict) (args : Args)
    (w : World) (script : list Call) (d : Dict) :
  success d = Some true ->
  command args w
  = try_catch (run_calls dl script (ret d)) (fun e => ret (failure e)) w ->
  runs_script dl command args w script.
Proof.
  intros Hd Hrun. unfold runs_script.
  rewrite Hrun, run_calls_caught.
  eexists. split; [reflexivity|].
  destruct (first_failure dl script); [reflexivity | exact Hd].
Qed.

(** The same when the series of calls is followed by further steps. *)
Lemma run_calls_then_caught (calls : list Call) (k : M Dict) (w : World) :
  try_catch (run_calls dl calls k) (fun e => ret (failure e)) w
  = match first_failure dl calls with
    | Some e => (Ok (failure e), after_calls dl (attempted dl calls) w)
    | None =>
        try_catch k (fun e => ret (failure e))
          (after_calls dl (attempted dl calls) w)
    end.
Proof.
  revert w. induction calls as [|c rest IH]; intros w; [reflexivity|].
  specialize (IH (after_call dl c w)).
  unfold try_catch in *. cbn [run_calls attempted first_failure].
  unfold bind at 1, call at 1.
  destruct (raises dl c) as [e|]; [reflexivity|].
  rewrite after_calls_cons. exact IH.
Qed.

Lemma runs_script_then_intro (command : Args -> M Dict) (args : Args)
    (w : World) (script : list Call) (volume : Number) (k : Z -> Dict) :
  (forall percent, success (k percent) = Some true) ->
  command args w
  = try_catch
      (run_calls dl script
         (bind (int_of_percent volume) (fun percent => ret (k percent))))
      (fun e => ret (failure e)) w ->
  runs_script_then dl command args w script (int_percent volume).
Proof.
  intros Hd Hrun. unfold runs_script_then.
  rewrite Hrun, run_calls_then_caught.
  destruct (first_failure dl script) as [e|].
  - eexists. split; reflexivity.
  - unfold try_catch, bind, int_of_percent.
    destruct (int_percent volume) as [e|percent].
    + eexists. split; reflexivity.
    + eexists. split; [reflexivity | apply Hd].
Qed.

End Scripted.

Section CommandScripts.
Context {RT : PyRuntime}.
Variable dl : DeviceLayer.

(** After the locator has resolved the device, a command of
    [mcp_google_home.py] is a series of calls inside its [try]
    block. *)
Ltac google_script args Hfound :=
  eapply runs_script_intro;
  [ | unfold try_catch at 1, bind at 1, get_self;
      fold (device_name_of args); rewrite Hfound; reflexivity ];
  reflexivity.

(** In [mcp_server.py] the locator runs before the [try] block. *)
Ltac unified_script args Hfound :=
  eapply runs_script_intro;
  [ | unfold bind at 1, get_self;
      fold (device_name_of args); rewrite Hfound; reflexivity ];
  reflexivity.

(** [set_volume] formats [int(volume * 100)] after its calls. *)
Ltac google_volume_script args Hfound :=
  eapply runs_script_then_intro;
  [ | unfold try_catch at 1, bind at 1, get_self;
      fold (device_name_of args); rewrite Hfound; reflexivity ];
  intros percent; reflexivity.

Ltac unified_volume_script args Hfound :=
  eapply runs_script_then_intro;
  [ | unfold bind at 1, get_self;
      fold (device_name_of args); rewrite Hfound; reflexivity ];
  intros percent; reflexivity.

Lemma google_commands_run (args : Args) (w : World) (cast : Chromecast) :
  GoogleHome._find_device (self w) (device_name_of args) = Some cast ->
  runs_script dl (GoogleHome.play_media dl) args w
    [Wait cast;
     PlayMedia cast (get (arg_media_url args) "")
       (get (arg_content_type args) "audio/mp3")
       (Some (get (arg_title args) ""));
     BlockUntilActive cast]
  /\ runs_script dl (GoogleHome.pause_media dl) args w
       [Wait cast; Pause cast]
  /\ runs_script dl (GoogleHome.resume_media dl) args w
       [Wait cast; Play cast]
  /\ runs_script dl (GoogleHome.stop_media dl) args w
       [Wait cast; Stop cast]
  /\ runs_script_then dl (GoogleHome.set_volume dl) args w
       [Wait cast; SetVolume cast (get (arg_volume args) number_half)]
       (int_percent (get (arg_volume args) number_half))
  /\ runs_script dl (GoogleHome.speak_text dl) args w
       [Wait cast;
        PlayMedia cast (tts_url (language_of args) (text_of args))
          "audio/mp3" None;
        BlockUntilActive cast].
Proof.
  intros Hfound.
  repeat split.
  - unfold GoogleHome.play_media. google_script args Hfound.
  - unfold GoogleHome.pause_media. google_script args Hfound.
  - unfold GoogleHome.resume_media. google_script args Hfound.
  - unfold GoogleHome.stop_media. google_script args Hfound.
  - unfold GoogleHome.set_volume. google_volume_script args Hfound.
  - unfold GoogleHome.speak_text. google_script args Hfound.
Qed.

Lemma unified_commands_run (args : Args) (w : World) (cast : Chromecast) :
  Unified._find_device (self w) (device_name_of args) = Some cast ->
  runs_script dl (Unified.play_media dl) args w
    [Wait cast;
     PlayMedia cast (get (arg_media_url args) "")
       (get (arg_content_type args) "audio/mp3")
       (Some (get (arg_title args) ""));
     BlockUntilActive cast]
  /\ runs_script dl (Unified.pause_media dl) args w
       [Wait cast; Pause cast]
  /\ runs_script dl (Unified.resume_media dl) args w
       [Wait cast; Play cast]
  /\ runs_script dl (Unified.stop_media dl) args w
       [Wait cast; Stop cast]
  /\ runs_script_then dl (Unified.set_volume dl) args w
       [Wait cast; SetVolume cast (get (arg_volume args) number_half)]
       (int_percent (get (arg_volume args) number_half))
  /\ runs_script dl (Unified.speak_text dl) args w
       [Wait cast;
        PlayMedia cast (tts_url (language_of args) (text_of args))
          "audio/mp3" None;
        BlockUntilActive cast].
Proof.
  intros Hfound.
  repeat split.
  - unfold Unified.play_media. unified_script args Hfound.
  - unfold Unified.pause_media. unified_script args Hfound.
  - unfold Unified.resume_media. unified_script args Hfound.
  - unfold Unified.stop_media. unified_script args Hfound.
  - unfold Unified.set_volume. unified_volume_script args Hfound.
  - unfold Unified.speak_text. unified_script args Hfound.
Qed.

(** X1. On a device the locator resolves, each command of
    [mcp_google_home.py] issues its calls in a fixed order, starting
    with [wait], stops at the first call that raises and reports that
    exception.  [play_media], [pause_media], [resume_media],
    [stop_media] and [speak_text] report [success: true] exactly when
    no call raised.  [set_volume] then still evaluates
    [int(volume * 100)] for its message: when that raises, the volume
    has been set on the device and the command reports [success: false]
    with that exception; it reports [success: true] exactly when
    neither a call nor that conversion raised.  The arguments reach the
    device layer as given: [content_type] defaults to [audio/mp3],
    [title] to the empty string, [volume] to 0.5, and the volume is
    not checked against any range. *)
Theorem google_commands_follow_script (args : Args) (w : World) (cast : Chromecast) :
  GoogleHome._find_device (self w) (device_name_of args) = Some cast ->
  runs_script dl (GoogleHome.play_media dl) args w
    [Wait cast;
     PlayMedia cast (get (arg_media_url args) "")
       (get (arg_content_type args) "audio/mp3")
       (Some (get (arg_title args) ""));
     BlockUntilActive cast]
  /\ runs_script dl (GoogleHome.pause_media dl) args w
       [Wait cast; Pause cast]
  /\ runs_script dl (GoogleHome.resume_media dl) args w
       [Wait cast; Play cast]
  /\ runs_script dl (GoogleHome.stop_media dl) args w
       [Wait cast; Stop cast]
  /\ runs_script_then dl (GoogleHome.set_volume dl) args w
       [Wait cast; SetVolume cast (get (arg_volume args) number_half)]
       (int_percent (get (arg_volume args) number_half))
  /\ runs_script dl (GoogleHome.speak_text dl) args w
       [Wait cast;
        PlayMedia cast (tts_url (language_of args) (text_of args))
          "audio/mp3" None;
        BlockUntilActive cast].
Proof.
  intros Hfound.
  repeat split.
  - unfold GoogleHome.play_media. google_script args Hfound.
  - unfold GoogleHome.pause_media. google_script args Hfound.
  - unfold GoogleHome.resume_media. google_script args Hfound.
  - unfold GoogleHome.stop_media. google_script args Hfound.
  - unfold GoogleHome.set_volume. google_volume_script args Hfound.
  - unfold GoogleHome.speak_text. google_script args Hfound.
Qed.

(** X2. The same for the commands of [mcp_server.py], [set_volume]
    with its [int(volume * 100)] included. *)
Theorem unified_commands_follow_script (args : Args) (w : World) (cast : Chromecast) :
  Unified._find_device (self w) (device_name_of args) = Some cast ->
  runs_script dl (Unified.play_media dl) args w
    [Wait cast;
     PlayMedia cast (get (arg_media_url args) "")
       (get (arg_content_type args) "audio/mp3")
       (Some (get (arg_title args) ""));
     BlockUntilActive cast]
  /\ runs_script dl (Unified.pause_media dl) args w
       [Wait cast; Pause cast]
  /\ runs_script dl (Unified.resume_media dl) args w
       [Wait cast; Play cast]
  /\ runs_script dl (Unified.stop_media dl) args w
       [Wait cast; Stop cast]
  /\ runs_script_then dl (Unified.set_volume dl) args w
       [Wait cast; SetVolume cast (get (arg_volume args) number_half)]
       (int_percent (get (arg_volume args) number_half))
  /\ runs_script dl (Unified.speak_text dl) args w
       [Wait cast;
        PlayMedia cast (tts_url (language_of args) (text_of args))
          "audio/mp3" None;
        BlockUntilActive cast].
Proof.
  intros Hfound.
  repeat split.
  - unfold Unified.play_media. unified_script args Hfound.
  - unfold Unified.pause_media. unified_script args Hfound.
  - unfold Unified.resume_media. unified_script args Hfound.
  - unfold Unified.stop_media. unified_script args Hfound.
  - unfold Unified.set_volume. unified_volume_script args Hfound.
  - unfold Unified.speak_text. unified_script args Hfound.
Qed.

End CommandScripts.

(** ** Status queries *)

Section StatusQuery.
Context {RT : PyRuntime}.
Variable dl : DeviceLayer.

(** What [get_device_status] of [mcp_google_home.py] does on a
    resolved device. *)
Lemma google_status_run (args : Args) (w : World) (cast : Chromecast) :
  GoogleHome._find_device (self w) (device_name_of args) = Some cast ->
  exists d,
    GoogleHome.get_device_status dl args w
    = (Ok d, after_call dl (Wait cast) w)
    /\ match raises dl (Wait cast), status (live dl cast) with
       | Some e, _ => d = failure e
       | None, None =>
           d = failure "'NoneType' object has no attribute 'volume_level'"
       | None, Some st =>
           success d = Some true
           /\ exists fields,
               dict_get d "status" = Some (JDict fields)
               /\ dict_get fields "name" = Some (JStr (name cast))
               /\ dict_get fields "is_idle"
                  = Some (JBool (is_idle (live dl cast)))
               /\ dict_get fields "volume_level"
                  = Some (JNum (volume_level st))
               /\ dict_get fields "volume_muted"
                  = Some (JBool (volume_muted st))
               /\ dict_get fields "media"
                  = option_map GoogleHome.media_dict
                      (media_status (live dl cast))
       end.
Proof.
  intros Hfound.
  unfold GoogleHome.get_device_status, try_catch, bind at 1, get_self.
  fold (device_name_of args). rewrite Hfound.
  unfold bind at 1, call.
  destruct (raises dl (Wait cast)) as [e|].
  - eexists. split; reflexivity.
  - unfold bind, read_volume_level, read_volume_muted, raise, ret.
    destruct (status (live dl cast)) as [st|].
    + eexists. split; [reflexivity|]. split; [reflexivity|].
      destruct (media_status (live dl cast)) as [ms|];
        eexists; repeat split.
    + eexists. split; reflexivity.
Qed.

Lemma unified_status_run (args : Args) (w : World) (cast : Chromecast) :
  Unified._find_device (self w) (device_name_of args) = Some cast ->
  exists d,
    Unified.get_device_status dl args w
    = (Ok d, after_call dl (Wait cast) w)
    /\ match raises dl (Wait cast), status (live dl cast) with
       | Some e, _ => d = failure e
       | None, None =>
           d = failure "'NoneType' object has no attribute 'volume_level'"
       | None, Some st =>
           success d = Some true
           /\ exists fields,
               dict_get d "status" = Some (JDict fields)
               /\ dict_get fields "name" = Some (JStr (name cast))
               /\ dict_get fields "is_idle"
                  = Some (JBool (is_idle (live dl cast)))
               /\ dict_get fields "volume_level"
                  = Some (JNum (volume_level st))
               /\ dict_get fields "volume_muted"
                  = Some (JBool (volume_muted st))
               /\ dict_get fields "media"
                  = option_map Unified.media_dict
                      (media_status (live dl cast))
       end.
Proof.
  intros Hfound.
  unfold Unified.get_device_status, bind at 1, get_self.
  fold (device_name_of args). rewrite Hfound.
  unfold try_catch, bind at 1, call.
  destruct (raises dl (Wait cast)) as [e|].
  - eexists. split; reflexivity.
  - unfold bind, read_volume_level, read_volume_muted, raise, ret,
      Unified.failed.
    destruct (status (live dl cast)) as [st|].
    + eexists. split; [reflexivity|]. split; [reflexivity|].
      destruct (media_status (live dl cast)) as [ms|];
        eexists; repeat split.
    + eexists. split; reflexivity.
Qed.

(** X3. On a device the locator resolves, [get_device_status] of
    [mcp_google_home.py] makes one device-layer call, [wait], and no
    other.  It reports the exception of [wait] when that raises, an
    attribute error when [cast.status] is [None], and otherwise
    [success: true] with the live volume, mute and idle state; the
    status has a ["media"] entry exactly when the media controller has
    a status. *)
Theorem google_status_waits_once (args : Args) (w : World) (cast : Chromecast) :
  GoogleHome._find_device (self w) (device_name_of args) = Some cast ->
  exists d,
    GoogleHome.get_device_status dl args w
    = (Ok d, after_call dl (Wait cast) w)
    /\ match raises dl (Wait cast), status (live dl cast) with
       | Some e, _ => d = failure e
       | None, None =>
           d = failure "'NoneType' object has no attribute 'volume_level'"
       | None, Some st =>
           success d = Some true
           /\ exists fields,
               dict_get d "status" = Some (JDict fields)
               /\ dict_get fields "name" = Some (JStr (name cast))
               /\ dict_get fields "is_idle"
                  = Some (JBool (is_idle (live dl cast)))
               /\ dict_get fields "volume_level"
                  = Some (JNum (volume_level st))
               /\ dict_get fields "volume_muted"
                  = Some (JBool (volume_muted st))
               /\ dict_get fields "media"
                  = option_map GoogleHome.media_dict
                      (media_status (live dl cast))
       end.
Proof.
  intros Hfound.
  unfold GoogleHome.get_device_status, try_catch, bind at 1, get_self.
  fold (device_name_of args). rewrite Hfound.
  unfold bind at 1, call.
  destruct (raises dl (Wait cast)) as [e|].
  - eexists. split; reflexivity.
  - unfold bind, read_volume_level, read_volume_muted, raise, ret.
    destruct (status (live dl cast)) as [st|].
    + eexists. split; [reflexivity|]. split; [reflexivity|].
      destruct (media_status (live dl cast)) as [ms|];
        eexists; repeat split.
    + eexists. split; reflexivity.
Qed.

(** X4. The same for [get_device_status] of [mcp_server.py]. *)
Theorem unified_status_waits_once (args : Args) (w : World) (cast : Chromecast) :
  Unified._find_device (self w) (device_name_of args) = Some cast ->
  exists d,
    Unified.get_device_status dl args w
    = (Ok d, after_call dl (Wait cast) w)
    /\ match raises dl (Wait cast), status (live dl cast) with
       | Some e, _ => d = failure e
       | None, None =>
           d = failure "'NoneType' object has no attribute 'volume_level'"
       | None, Some st =>
           success d = Some true
           /\ exists fields,
               dict_get d "status" = Some (JDict fields)
               /\ dict_get fields "name" = Some (JStr (name cast))
               /\ dict_get fields "is_idle"
                  = Some (JBool (is_idle (live dl cast)))
               /\ dict_get fields "volume_level"
                  = Some (JNum (volume_level st))
               /\ dict_get fields "volume_muted"
                  = Some (JBool (volume_muted st))
               /\ dict_get fields "media"
                  = option_map Unified.media_dict
                      (media_status (live dl cast))
       end.
Proof.
  intros Hfound.
  unfold Unified.get_device_status, bind at 1, get_self.
  fold (device_name_of args). rewrite Hfound.
  unfold try_catch, bind at 1, call.
  destruct (raises dl (Wait cast)) as [e|].
  - eexists. split; reflexivity.
  - unfold bind, read_volume_level, read_volume_muted, raise, ret,
      Unified.failed.
    destruct (status (live dl cast)) as [st|].
    + eexists. split; [reflexivity|]. split; [reflexivity|].
      destruct (media_status (live dl cast)) as [ms|];
        eexists; repeat split.
    + eexists. split; reflexivity.
Qed.

End StatusQuery.

(** ** What the operations other than discovery leave alone *)

Section Untouched.
Context {RT : PyRuntime}.
Variable dl : DeviceLayer.

Lemma runs_script_contained (command : Args -> M Dict) (args : Args)
    (w : World) (script : list Call) :
  runs_script dl command args w script -> contained command args w.
Proof.
  intros (d & Hrun & Hd). unfold contained.
  exists d, (after_calls dl (attempted dl script) w).
  destruct (first_failure dl script) as [e|].
  - exists false. subst d. repeat split; [exact Hrun|].
    apply self_after_calls.
  - exists true. repeat split; [exact Hrun | exact Hd |].
    apply self_after_calls.
Qed.

Lemma runs_script_then_contained {A : Type} (command : Args -> M Dict)
    (args : Args) (w : World) (script : list Call) (final : Exn + A) :
  runs_script_then dl command args w script final ->
  contained command args w.
Proof.
  intros (d & Hrun & Hd). unfold contained.
  exists d, (after_calls dl (attempted dl script) w).
  destruct (first_failure dl script) as [e|]; [|destruct final as [e|a]].
  - exists false. subst d. repeat split; [exact Hrun|].
    apply self_after_calls.
  - exists false. subst d. repeat split; [exact Hrun|].
    apply self_after_calls.
  - exists true. repeat split; [exact Hrun | exact Hd |].
    apply self_after_calls.
Qed.

Lemma google_unknown_run (args : Args) (w : World) :
  GoogleHome._find_device (self w) (device_name_of args) = None ->
  GoogleHome.get_device_status dl args w
  = (Ok [("success", JBool false);
         ("error",
          JStr ("Device '" ++ device_name_of args
                ++ "' not found. Please run discover_devices first."))],
     w)
  /\ Forall
       (fun command : Args -> M Dict =>
          command args w
          = (Ok (GoogleHome.not_found (device_name_of args)), w))
       [GoogleHome.play_media dl; GoogleHome.pause_media dl;
        GoogleHome.resume_media dl; GoogleHome.stop_media dl;
        GoogleHome.set_volume dl; GoogleHome.speak_text dl].
Proof.
  intros Hnone.
  split; [|repeat apply Forall_cons; try apply Forall_nil].
  - unfold GoogleHome.get_device_status, try_catch, bind, get_self.
    fold (device_name_of args). rewrite Hnone. reflexivity.
  - unfold GoogleHome.play_media, try_catch, bind, get_self.
    fold (device_name_of args). rewrite Hnone. reflexivity.
  - unfold GoogleHome.pause_media, try_catch, bind, get_self.
    fold (device_name_of args). rewrite Hnone. reflexivity.
  - unfold GoogleHome.resume_media, try_catch, bind, get_self.
    fold (device_name_of args). rewrite Hnone. reflexivity.
  - unfold GoogleHome.stop_media, try_catch, bind, get_self.
    fold (device_name_of args). rewrite Hnone. reflexivity.
  - unfold GoogleHome.set_volume, try_catch, bind, get_self.
    fold (device_name_of args). rewrite Hnone. reflexivity.
  - unfold GoogleHome.speak_text, try_catch, bind, get_self.
    fold (device_name_of args). rewrite Hnone. reflexivity.
Qed.

Lemma google_listing_contained (args : Args) (w : World) :
  contained (fun _ => GoogleHome.list_devices) args w.
Proof.
  unfold contained, GoogleHome.list_devices, try_catch, bind, get_self.
  destruct (chromecasts (self w)) as [|c rest];
    eexists; eexists; eexists; repeat split.
Qed.

Lemma unified_listing_contained (args : Args) (w : World) :
  contained (fun _ => Unified.list_devices) args w.
Proof.
  unfold contained, Unified.list_devices, bind, get_self.
  destruct (chromecasts (self w)) as [|c rest];
    eexists; eexists; eexists; repeat split.
Qed.

(** Listing, the status query and the six commands of
    [mcp_google_home.py] are contained, whatever the arguments and the
    device layer. *)
Lemma google_operations_contained (args : Args) (w : World) :
  Forall (fun op : Args -> M Dict => contained op args w)
    [(fun _ => GoogleHome.list_devices);
     GoogleHome.get_device_status dl;
     GoogleHome.play_media dl;
     GoogleHome.pause_media dl;
     GoogleHome.resume_media dl;
     GoogleHome.stop_media dl;
     GoogleHome.set_volume dl;
     GoogleHome.speak_text dl].
Proof.
  apply Forall_cons; [apply google_listing_contained|].
  destruct (GoogleHome._find_device (self w) (device_name_of args))
    as [cast|] eqn:Hfind.
  - destruct (google_commands_run dl args w cast Hfind)
      as (Hplay & Hpause & Hresume & Hstop & Hvolume & Hspeak).
    destruct (google_status_run dl args w cast Hfind) as (d & Hrun & Hd).
    repeat apply Forall_cons; try apply Forall_nil;
      try (eapply runs_script_contained; eassumption);
      try (eapply runs_script_then_contained; eassumption).
    assert (Hb : exists b, success d = Some b).
    { destruct (raises dl (Wait cast)) as [e|];
        [|destruct (status (live dl cast)) as [st|]].
      - subst d. exists false. reflexivity.
      - destruct Hd as [Hd _]. exists true. exact Hd.
      - subst d. exists false. reflexivity. }
    destruct Hb as [b Hb].
    exists d, (after_call dl (Wait cast) w), b. repeat split; assumption.
  - destruct (google_unknown_run args w Hfind) as [Hstatus Hrest].
    apply Forall_cons.
    + eexists; eexists; exists false. split; [exact Hstatus|].
      split; reflexivity.
    + eapply Forall_impl; [|exact Hrest].
      intros command Hrun. eexists; eexists; exists false.
      split; [exact Hrun|]. split; reflexivity.
Qed.

(** The same in [mcp_server.py]. *)
Lemma unified_operations_contained (args : Args) (w : World) :
  Forall (fun op : Args -> M Dict => contained op args w)
    [(fun _ => Unified.list_devices);
     Unified.get_device_status dl;
     Unified.play_media dl;
     Unified.pause_media dl;
     Unified.resume_media dl;
     Unified.stop_media dl;
     Unified.set_volume dl;
     Unified.speak_text dl].
Proof.
  apply Forall_cons; [apply unified_listing_contained|].
  destruct (Unified._find_device (self w) (device_name_of args))
    as [cast|] eqn:Hfind.
  - destruct (unified_commands_run dl args w cast Hfind)
      as (Hplay & Hpause & Hresume & Hstop & Hvolume & Hspeak).
    destruct (unified_status_run dl args w cast Hfind) as (d & Hrun & Hd).
    repeat apply Forall_cons; try apply Forall_nil;
      try (eapply runs_script_contained; eassumption);
      try (eapply runs_script_then_contained; eassumption).
    assert (Hb : exists b, success d = Some b).
    { destruct (raises dl (Wait cast)) as [e|];
        [|destruct (status (live dl cast)) as [st|]].
      - subst d. exists false. reflexivity.
      - destruct Hd as [Hd _]. exists true. exact Hd.
      - subst d. exists false. reflexivity. }
    destruct Hb as [b Hb].
    exists d, (after_call dl (Wait cast) w), b. repeat split; assumption.
  - destruct (unified_unknown_device_short_circuits dl args w Hfind)
      as [Hnamed Hplain].
    inversion Hnamed as [|? ? Hstatus Hnamed']; subst.
    inversion Hnamed' as [|? ? Hplay Hnamed'']; subst.
    inversion Hnamed'' as [|? ? Hspeak _]; subst.
    inversion Hplain as [|? ? Hpause Hplain']; subst.
    inversion Hplain' as [|? ? Hresume Hplain'']; subst.
    inversion Hplain'' as [|? ? Hstop Hplain3]; subst.
    inversion Hplain3 as [|? ? Hvolume _]; subst.
    repeat apply Forall_cons; try apply Forall_nil;
      eexists; eexists; exists false;
      (split; [eassumption|]); split; reflexivity.
Qed.

End Untouched.

(** ** Listing a registry that holds devices *)

Section ListingDevices.
Context {RT : PyRuntime}.

Lemma entry_names_google (casts : list Chromecast) :
  map entry_name (map GoogleHome.list_entry casts)
  = map (fun c => Some (name c)) casts.
Proof.
  induction casts as [|c rest IH]; [reflexivity|].
  simpl. rewrite IH. reflexivity.
Qed.

Lemma entry_names_unified (casts : list Chromecast) :
  map entry_name (map Unified.list_entry casts)
  = map (fun c => Some (name c)) casts.
Proof.
  induction casts as [|c rest IH]; [reflexivity|].
  simpl. rewrite IH. reflexivity.
Qed.

(** X7. On a registry that holds at least one device, [list_devices]
    of either server reports [success: true], one entry per registered
    device in registry order, their number as [device_count], and as
    [last_discovery] the formatted timestamp, or "Never" when there is
    none (or it reads 0); it makes no device-layer call. *)
Theorem list_devices_lists_registry (w : World) :
  chromecasts (self w) <> [] ->
  Forall
    (fun list_devices : M Dict =>
       exists d devices,
         list_devices w = (Ok d, w)
         /\ success d = Some true
         /\ dict_get d "devices" = Some (JList devices)
         /\ map entry_name devices
            = map (fun c => Some (name c)) (chromecasts (self w))
         /\ dict_get d "device_count"
            = Some (JInt (Z.of_nat (List.length (chromecasts (self w)))))
         /\ str_field d "last_discovery"
            = Some match last_discovery_time (self w) with
                   | Some t => if Z.eqb t 0 then "Never" else strftime t
                   | None => "Never"
                   end)
    [GoogleHome.list_devices; Unified.list_devices].
Proof.
  intros Hsome.
  repeat apply Forall_cons; try apply Forall_nil.
  - unfold GoogleHome.list_devices, try_catch, bind, get_self.
    destruct (chromecasts (self w)) as [|c rest] eqn:Hreg;
      [contradiction|].
    eexists. eexists.
    split; [reflexivity|]. split; [reflexivity|]. split; [reflexivity|].
    split; [apply entry_names_google|].
    split; [|reflexivity].
    cbn [dict_get String.eqb Ascii.eqb Bool.eqb].
    rewrite length_map. reflexivity.
  - unfold Unified.list_devices, bind, get_self.
    destruct (chromecasts (self w)) as [|c rest] eqn:Hreg;
      [contradiction|].
    eexists. eexists.
    split; [reflexivity|]. split; [reflexivity|]. split; [reflexivity|].
    split; [apply entry_names_unified|].
    split; [|reflexivity].
    cbn [dict_get String.eqb Ascii.eqb Bool.eqb].
    rewrite length_map. reflexivity.
Qed.

End ListingDevices.

(** ** Discovery followed by other operations *)

Section AfterDiscovery.
Context {RT : PyRuntime}.
Variable dl : DeviceLayer.

Lemma member_found (casts : list Chromecast) (cast : Chromecast)
    (device_name : string) :
  In cast casts -> designates device_name cast ->
  exists found,
    GoogleHome.find_loop casts device_name = Some found
    /\ In found casts
    /\ designates device_name found.
Proof.
  intros Hin Hd.
  pose proof (find_loop_first casts device_name) as Hfirst.
  destruct (GoogleHome.find_loop casts device_name) as [found|].
  - destruct Hfirst as (before & after & Heq & Hfound & _).
    exists found. repeat split; [|exact Hfound].
    rewrite Heq. apply in_elt.
  - exfalso. unfold no_match in Hfirst. rewrite Forall_forall in Hfirst.
    exact (Hfirst cast Hin Hd).
Qed.

(** X8. Once the scan of [discover_devices] has returned, every
    scanned device can be addressed: any name that equals its internal
    name or its display name up to case is resolved by the locator to
    a registered device bearing that name.  This holds whether or not
    the call then reports success (stopping the browser may raise) and
    whether or not the device answered [wait]. *)
Theorem scanned_devices_resolvable (args : Args) (w : World)
    (casts : list Chromecast) (browser : option Browser) :
  get_chromecasts dl (timeout_of args) = inr (casts, browser) ->
  exists d w',
    GoogleHome.discover_devices dl args w = (Ok d, w')
    /\ forall cast device_name,
        In cast casts -> designates device_name cast ->
        exists found,
          GoogleHome._find_device (self w') device_name = Some found
          /\ In found casts
          /\ designates device_name found.
Proof.
  intros Hscan.
  rewrite discover_devices_run, Hscan. cbv zeta.
  destruct (registry_after_scan dl casts browser args w) as [Hself Hkeep].
  destruct (stop_raises dl browser) as [e|];
    eexists; eexists; (split; [reflexivity|]);
    intros cast device_name Hin Hd;
    unfold GoogleHome._find_device;
    rewrite ?Hkeep, Hself; cbn [chromecasts];
    apply (member_found casts cast); assumption.
Qed.

(** X9. After a discovery that reported [success: true] and found at
    least one device, [list_devices] succeeds and counts every
    registered device, also those the discovery report skipped: the
    count of the listing is the registry size and is never below the
    count of the discovery report. *)
Theorem listing_counts_skipped_devices (args : Args) (w w' : World)
    (d : Dict) :
  GoogleHome.discover_devices dl args w = (Ok d, w') ->
  success d = Some true ->
  chromecasts (self w') <> [] ->
  exists d' reported listed,
    GoogleHome.list_devices w' = (Ok d', w')
    /\ success d' = Some true
    /\ dict_get d "device_count" = Some (JInt (Z.of_nat reported))
    /\ dict_get d' "device_count" = Some (JInt (Z.of_nat listed))
    /\ listed = List.length (chromecasts (self w'))
    /\ (reported <= listed)%nat
    /\ (reported = listed
        <-> forall cast,
              In cast (chromecasts (self w')) -> reachable dl cast = true).
Proof.
  intros Hrun Hs Hsome.
  destruct (discover_success_path dl args w w' d Hrun Hs)
    as (casts & browser & _ & _ & -> & ->).
  destruct (registry_after_scan dl casts browser args w) as [Hself Hkeep].
  rewrite Hself in Hkeep. clear Hself.
  rewrite Hkeep in Hsome. cbn [chromecasts] in Hsome.
  unfold GoogleHome.list_devices, try_catch, bind, get_self.
  rewrite Hkeep. cbn [chromecasts last_discovery_time].
  destruct casts as [|c rest] eqn:Hcasts; [contradiction|].
  rewrite <- Hcasts in *.
  eexists. exists (List.length (filter (reachable dl) casts)),
    (List.length casts).
  split; [rewrite Hcasts; reflexivity|].
  split; [reflexivity|].
  split.
  { cbn [GoogleHome.discovered dict_get String.eqb Ascii.eqb Bool.eqb].
    rewrite length_map. reflexivity. }
  split.
  { cbn [dict_get String.eqb Ascii.eqb Bool.eqb].
    rewrite length_map. reflexivity. }
  split; [reflexivity|].
  split; [apply filter_length_le|].
  split.
  - intros Hsame cast Hin.
    destruct (reachable dl cast) eqn:Hup; [reflexivity|].
    pose proof (filter_drops _ (reachable dl) cast casts Hin Hup). lia.
  - intros Hall. f_equal.
    apply forallb_filter_id. apply forallb_forall. exact Hall.
Qed.

End AfterDiscovery.

(** ** Percent-encoding of the spoken text *)

Section Quoting.

Lemma decode_plain_byte (c : ascii) (rest : string) :
  Ascii.eqb c "%" = false ->
  decode_percent (String c rest) = String c (decode_percent rest).
Proof.
  intros Hc. destruct rest as [|x [|y rest']]; cbn [decode_percent];
    try reflexivity.
  rewrite Hc. reflexivity.
Qed.

Lemma kept_not_percent (c : ascii) :
  kept c = true -> Ascii.eqb c "%" = false.
Proof.
  destruct c as [[] [] [] [] [] [] [] []]; intros H;
    solve [reflexivity | discriminate H].
Qed.

Lemma decode_escaped_byte (c : ascii) (rest : string) :
  kept c = false ->
  decode_percent (percent_byte c ++ rest) = String c (decode_percent rest).
Proof.
  destruct c as [[] [] [] [] [] [] [] []]; intros H;
    solve [reflexivity | discriminate H].
Qed.

Lemma decode_quote_byte (c : ascii) (rest : string) :
  decode_percent (quote_byte c ++ rest) = String c (decode_percent rest).
Proof.
  unfold quote_byte. fold (kept c).
  destruct (kept c) eqn:Hkept.
  - apply decode_plain_byte, kept_not_percent, Hkept.
  - apply decode_escaped_byte, Hkept.
Qed.

(** X10. Percent-decoding the output of [quote] gives the text back,
    so distinct texts have distinct text-to-speech URLs for a given
    language. *)
Theorem quote_round_trip :
  (forall text, decode_percent (quote text) = text)
  /\ (forall a b, quote a = quote b -> a = b)
  /\ (forall language a b,
         tts_url language a = tts_url language b -> a = b).
Proof.
  assert (Hback : forall text, decode_percent (quote text) = text).
  { induction text as [|c text IH]; [reflexivity|].
    cbn [quote]. rewrite decode_quote_byte, IH. reflexivity. }
  assert (Hinj : forall a b, quote a = quote b -> a = b).
  { intros a b Heq. rewrite <- (Hback a), <- (Hback b), Heq. reflexivity. }
  split; [exact Hback|]. split; [exact Hinj|].
  intros language a b Heq. apply Hinj.
  unfold tts_url in Heq.
  assert (Hcancel : forall p x y : string, p ++ x = p ++ y -> x = y).
  { induction p as [|c p IH]; intros x y H; [exact H|].
    injection H as H. apply IH, H. }
  apply Hcancel in Heq. apply Hcancel in Heq. apply Hcancel in Heq.
  exact Heq.
Qed.

Lemma all_bytes_app (p : ascii -> bool) (a b : string) :
  all_bytes p (a ++ b) = all_bytes p a && all_bytes p b.
Proof.
  induction a as [|c a IH]; [reflexivity|].
  simpl. rewrite IH. apply andb_assoc.
Qed.

Lemma quote_byte_alphabet (c : ascii) :
  all_bytes quoted_byte (quote_byte c) = true.
Proof. destruct c as [[] [] [] [] [] [] [] []]; reflexivity. Qed.

(** X11. Whatever the text, the output of [quote] consists of ASCII
    letters, digits, [_ . - ~ /] and [%] only: no space, [&], [=],
    [?], [#] or byte above 127 of the text reaches the URL. *)
Theorem quote_alphabet (text : string) :
  all_bytes quoted_byte (quote text) = true
  /\ count_char " " (quote text) = 0
  /\ count_char "&" (quote text) = 0
  /\ count_char "=" (quote text) = 0
  /\ count_char "?" (quote text) = 0
  /\ count_char "#" (quote text) = 0.
Proof.
  assert (Hnone : forall sep : ascii,
             quoted_byte sep = false ->
             forall s, all_bytes quoted_byte s = true ->
                       count_char sep s = 0).
  { intros sep Hsep. induction s as [|c s IH]; [reflexivity|].
    cbn [all_bytes count_char]. intros H.
    apply andb_true_iff in H. destruct H as [Hc Hs].
    rewrite (IH Hs).
    destruct (Ascii.eqb c sep) eqn:Heq; [|reflexivity].
    apply Ascii.eqb_eq in Heq. subst c. congruence. }
  assert (Hall : all_bytes quoted_byte (quote text) = true).
  { induction text as [|c text IH]; [reflexivity|].
    cbn [quote]. rewrite all_bytes_app, quote_byte_alphabet, IH.
    reflexivity. }
  split; [exact Hall|].
  repeat split; apply Hnone; try reflexivity; exact Hall.
Qed.

Lemma length_app_string (a b : string) :
  String.length (a ++ b) = String.length a + String.length b.
Proof.
  induction a as [|c a IH]; [reflexivity|].
  simpl. rewrite IH. reflexivity.
Qed.

Lemma quote_byte_length (c : ascii) :
  String.length (quote_byte c) = if kept c then 1 else 3.
Proof.
  unfold quote_byte. fold (kept c). destruct (kept c); reflexivity.
Qed.

Lemma quote_length_ge (text : string) :
  String.length text <= String.length (quote text).
Proof.
  induction text as [|c text IH]; [reflexivity|].
  cbn [quote]. rewrite length_app_string, quote_byte_length.
  simpl. destruct (kept c); lia.
Qed.

(** [quote] leaves a text unchanged exactly when all its bytes are
    letters, digits or one of [_ . - ~ /]. *)
Lemma quote_identity_iff (text : string) :
  quote text = text <-> all_bytes kept text = true.
Proof.
  induction text as [|c text IH]; [split; reflexivity|].
  cbn [quote all_bytes]. unfold quote_byte. fold (kept c).
  destruct (kept c) eqn:Hkept.
  - cbn [append andb]. rewrite <- IH.
    split; [intros [= H]; exact H | intros ->; reflexivity].
  - cbn [andb]. split; [|discriminate].
    intros Heq. exfalso.
    apply (f_equal String.length) in Heq.
    rewrite length_app_string in Heq.
    pose proof (quote_length_ge text). simpl in Heq. lia.
Qed.

Lemma append_inv_tail (a b x : string) : a ++ x = b ++ x -> a = b.
Proof.
  revert b. induction a as [|c a IH]; intros [|c' b] Heq.
  - reflexivity.
  - exfalso. apply (f_equal String.length) in Heq.
    cbn [append] in Heq. simpl in Heq.
    rewrite length_app_string in Heq. lia.
  - exfalso. apply (f_equal String.length) in Heq.
    cbn [append] in Heq. simpl in Heq.
    rewrite length_app_string in Heq. lia.
  - cbn [append] in Heq. injection Heq as -> Heq.
    f_equal. apply IH, Heq.
Qed.

(** X12. The URL [speak_text] builds with the language as given is the
    URL it would build with the language put through [quote] exactly
    when every byte of the language is a letter, a digit or one of
    [_ . - ~ /]: for such tags, [vi-VN] among them, leaving the
    language unescaped changes nothing, and for every other language
    it does. *)
Theorem language_unescaped_harmless_iff (language text : string) :
  tts_url language text = tts_url (quote language) text
  <-> all_bytes kept language = true.
Proof.
  unfold tts_url. split.
  - intros Heq. apply quote_identity_iff.
    assert (Hcancel : forall p x y : string, p ++ x = p ++ y -> x = y).
    { induction p as [|c p IH]; intros x y H; [exact H|].
      injection H as H. apply IH, H. }
    apply Hcancel in Heq. symmetry.
    apply (append_inv_tail _ _ ("&q=" ++ quote text)). exact Heq.
  - intros Hkept. apply quote_identity_iff in Hkept.
    rewrite Hkept. reflexivity.
Qed.

End Quoting.

(** ** Concrete runs of the further properties *)

(** Both servers on the living-room device, which answers. *)
Lemma google_commands_follow_script_witness :
  GoogleHome._find_device (self (start prior 100))
    (device_name_of (device_args "living room")) = Some living_room
  /\ runs_script_then home_layer (GoogleHome.set_volume home_layer)
       (device_args "living room") (start prior 100)
       [Wait living_room; SetVolume living_room number_half]
       (int_percent number_half)
  /\ runs_script home_layer (GoogleHome.pause_media home_layer)
       (device_args "living room") (start prior 100)
       [Wait living_room; Pause living_room]
  /\ GoogleHome.set_volume home_layer (volume_args "living room" too_loud)
       (start prior 100)
     = (Ok (failure "cannot convert float infinity to integer"),
        after_calls home_layer
          [Wait living_room; SetVolume living_room too_loud]
          (start prior 100)).
Proof.
  split; [reflexivity|].
  pose proof (google_commands_follow_script home_layer
                (device_args "living room") (start prior 100) living_room
                eq_refl)
    as (_ & Hpause & _ & _ & Hvolume & _).
  split; [exact Hvolume|]. split; [exact Hpause|].
  pose proof (google_commands_follow_script home_layer
                (volume_args "living room" too_loud) (start prior 100)
                living_room eq_refl)
    as (_ & _ & _ & _ & (d & Hrun & Hd) & _).
  change (d = failure "cannot convert float infinity to integer") in Hd.
  rewrite Hd in Hrun. exact Hrun.
Defined.

Lemma unified_commands_follow_script_witness :
  Unified._find_device (self (start prior 100))
    (device_name_of (device_args "living room")) = Some living_room
  /\ runs_script_then home_layer (Unified.set_volume home_layer)
       (device_args "living room") (start prior 100)
       [Wait living_room; SetVolume living_room number_half]
       (int_percent number_half)
  /\ runs_script home_layer (Unified.stop_media home_layer)
       (device_args "living room") (start prior 100)
       [Wait living_room; Stop living_room]
  /\ Unified.set_volume home_layer (volume_args "living room" too_loud)
       (start prior 100)
     = (Ok (failure "cannot convert float infinity to integer"),
        after_calls home_layer
          [Wait living_room; SetVolume living_room too_loud]
          (start prior 100)).
Proof.
  split; [reflexivity|].
  pose proof (unified_commands_follow_script home_layer
                (device_args "living room") (start prior 100) living_room
                eq_refl)
    as (_ & _ & _ & Hpause & Hvolume & _).
  split; [exact Hvolume|]. split; [exact Hpause|].
  pose proof (unified_commands_follow_script home_layer
                (volume_args "living room" too_loud) (start prior 100)
                living_room eq_refl)
    as (_ & _ & _ & _ & (d & Hrun & Hd) & _).
  change (d = failure "cannot convert float infinity to integer") in Hd.
  rewrite Hd in Hrun. exact Hrun.
Defined.

(** The status of the living-room device, first when it answers, then
    when it does not. *)
Lemma google_status_waits_once_witness :
  GoogleHome._find_device (self (start prior 100))
    (device_name_of (device_args "Living Room")) = Some living_room
  /\ exists d,
      GoogleHome.get_device_status living_room_down_layer
        (device_args "Living Room") (start prior 100)
      = (Ok d, after_call living_room_down_layer (Wait living_room)
                 (start prior 100))
      /\ d = failure "Timed out waiting for device".
Proof.
  split; [reflexivity|].
  exact (google_status_waits_once living_room_down_layer
           (device_args "Living Room") (start prior 100) living_room
           eq_refl).
Defined.

Lemma unified_status_waits_once_witness :
  Unified._find_device (self (start prior 100))
    (device_name_of (device_args "Living Room")) = Some living_room
  /\ exists d,
      Unified.get_device_status living_room_down_layer
        (device_args "Living Room") (start prior 100)
      = (Ok d, after_call living_room_down_layer (Wait living_room)
                 (start prior 100))
      /\ d = failure "Timed out waiting for device".
Proof.
  split; [reflexivity|].
  exact (unified_status_waits_once living_room_down_layer
           (device_args "Living Room") (start prior 100) living_room
           eq_refl).
Defined.

(** Listing the registry left by the earlier discovery. *)
Lemma list_devices_lists_registry_witness :
  chromecasts (self (start prior 100)) <> []
  /\ Forall
       (fun list_devices : M Dict =>
          exists d devices,
            list_devices (start prior 100) = (Ok d, start prior 100)
            /\ success d = Some true
            /\ dict_get d "devices" = Some (JList devices)
            /\ map entry_name devices = [Some "Living Room"]
            /\ dict_get d "device_count" = Some (JInt 1)
            /\ str_field d "last_discovery" = Some "50")
       [GoogleHome.list_devices; Unified.list_devices].
Proof.
  split; [discriminate|].
  assert (Hsome : chromecasts (self (start prior 100)) <> [])
    by discriminate.
  exact (list_devices_lists_registry (start prior 100) Hsome).
Defined.

(** The bedroom device is found by the scan, then stopping the browser
    raises: "bedroom speaker" is resolved all the same. *)
Lemma scanned_devices_resolvable_witness :
  get_chromecasts stop_error_layer (timeout_of no_args)
  = inr ([bedroom], Some (BrowserHandle 1))
  /\ exists d w',
      GoogleHome.discover_devices stop_error_layer no_args
        (start prior 100)
      = (Ok d, w')
      /\ forall cast device_name,
          In cast [bedroom] -> designates device_name cast ->
          exists found,
            GoogleHome._find_device (self w') device_name = Some found
            /\ In found [bedroom]
            /\ designates device_name found.
Proof.
  split; [reflexivity|].
  apply (scanned_devices_resolvable stop_error_layer no_args
           (start prior 100) [bedroom] (Some (BrowserHandle 1))).
  reflexivity.
Defined.

(** The bedroom device is skipped by the report and counted by the
    listing. *)
Lemma listing_counts_skipped_devices_witness :
  exists d w',
    GoogleHome.discover_devices bedroom_down_layer no_args (start prior 100)
    = (Ok d, w')
    /\ success d = Some true
    /\ chromecasts (self w') <> []
    /\ exists d' reported listed,
        GoogleHome.list_devices w' = (Ok d', w')
        /\ success d' = Some true
        /\ dict_get d "device_count" = Some (JInt (Z.of_nat reported))
        /\ dict_get d' "device_count" = Some (JInt (Z.of_nat listed))
        /\ listed = List.length (chromecasts (self w'))
        /\ (reported <= listed)%nat
        /\ (reported = listed
            <-> forall cast,
                  In cast (chromecasts (self w')) ->
                  reachable bedroom_down_layer cast = true).
Proof.
  eexists. eexists.
  split; [reflexivity|]. split; [reflexivity|]. split; [discriminate|].
  eapply (listing_counts_skipped_devices bedroom_down_layer no_args
            (start prior 100)); [reflexivity | reflexivity | discriminate].
Defined.

(** ** The data tools of the unified server *)

Section Keeping.
Context {RT : PyRuntime}.

Lemma keeps_ret (A : Type) (P : A -> Prop) (a : A) :
  P a -> keeps P (ret a).
Proof. intros Ha w. repeat split. exact Ha. Qed.

Lemma keeps_raise (A : Type) (P : A -> Prop) (e : Exn) :
  keeps P (raise e).
Proof. intros w. repeat split. Qed.

Lemma keeps_bind (A B : Type) (Q : A -> Prop) (P : B -> Prop) (m : M A)
    (k : A -> M B) :
  keeps Q m -> (forall a, Q a -> keeps P (k a)) -> keeps P (bind m k).
Proof.
  intros Hm Hk w. unfold bind.
  destruct (Hm w) as (Hself & Htrace & Hvalue).
  destruct (m w) as [[a|e] w1]; cbn [fst snd] in *.
  - destruct (Hk a Hvalue w1) as (Hself' & Htrace' & Hvalue').
    rewrite Hself', Htrace'. repeat split; assumption.
  - repeat split; assumption.
Qed.

Lemma keeps_then (A B : Type) (P : B -> Prop) (m : M A) (k : A -> M B) :
  keeps (fun _ => True) m -> (forall a, keeps P (k a)) ->
  keeps P (bind m k).
Proof.
  intros Hm Hk. apply (keeps_bind A B (fun _ => True)); [exact Hm|].
  intros a _. apply Hk.
Qed.

Lemma keeps_any (A : Type) (P : A -> Prop) (m : M A) :
  keeps P m -> keeps (fun _ => True) m.
Proof.
  intros Hm w. destruct (Hm w) as (Hself & Htrace & _).
  repeat split; try assumption. destruct (fst (m w)); exact I.
Qed.

(** A body that keeps the server object inside [try: ... except:],
    with a handler that returns an enveloped dictionary. *)
Lemma keeps_caught (body : M Dict) (handler : Exn -> Dict) :
  keeps enveloped body ->
  (forall e, enveloped (handler e)) ->
  answers (try_catch body (fun e => ret (handler e))).
Proof.
  intros Hbody Hhandler w. unfold try_catch.
  destruct (Hbody w) as (Hself & Htrace & Hvalue).
  destruct (body w) as [[d|e] w1]; cbn [fst snd] in *.
  - exists d, w1. repeat split; assumption.
  - exists (handler e), w1. repeat split; try assumption.
    apply Hhandler.
Qed.

End Keeping.

Section DataKeeping.
Context {RT : PyRuntime} {LIB : PyLibrary}.
Variable http : HttpLayer.

Lemma keeps_client_get (client : Client) (url : string)
    (params : list (string * Json)) :
  keeps (fun _ => True) (client_get http client url params).
Proof.
  intros w. unfold client_get.
  destruct (http_get http client url params); repeat split.
Qed.

Lemma keeps_check_status (response : Response) :
  keeps (fun _ => True) (check_status response).
Proof.
  intros w. unfold check_status.
  destruct (raise_for_status response); repeat split.
Qed.

Lemma keeps_read_json (response : Response) :
  keeps (fun _ => True) (read_json response).
Proof.
  intros w. unfold read_json.
  destruct (response_json response); repeat split.
Qed.

Lemma keeps_py_get (value : Json) (key : string) (default : Json) :
  keeps (fun _ => True) (py_get value key default).
Proof. intros w. destruct value; repeat split. Qed.

Lemma keeps_now :
  keeps (fun _ => True) (fun w => ret (now_text (clock w)) w).
Proof. intros w. repeat split. Qed.

Lemma keeps_format_money (value : Json) :
  keeps (fun _ => True) (Unified.format_money value).
Proof.
  intros w. destruct value; cbn [Unified.format_money];
    try destruct (format_2f _); repeat split.
Qed.

Lemma keeps_format_price (value : Json) :
  keeps (fun _ => True) (format_price value).
Proof.
  intros w. unfold format_price. destruct (py_int value); repeat split.
Qed.

Lemma keeps_py_upper (value : Json) :
  keeps (fun _ => True) (py_upper value).
Proof. intros w. destruct value; repeat split. Qed.

Lemma keeps_weather_codes_get (key : Json) (default : string) :
  keeps (fun _ => True) (Unified.weather_codes_get key default).
Proof.
  intros w. destruct key; cbn [Unified.weather_codes_get];
    try destruct (number_as_int _); repeat split.
Qed.

End DataKeeping.

(** Takes a body apart along its binds; every step keeps the server
    object. *)
Ltac keep_step :=
  lazymatch goal with
  | |- keeps _ (bind ?m _) =>
      apply keeps_then;
      [ lazymatch m with
        | client_get _ _ _ _ => apply keeps_client_get
        | check_status _ => apply keeps_check_status
        | read_json _ => apply keeps_read_json
        | py_get _ _ _ => apply keeps_py_get
        | Unified.format_money _ => apply keeps_format_money
        | format_price _ => apply keeps_format_price
        | py_upper _ => apply keeps_py_upper
        | Unified.weather_codes_get _ _ => apply keeps_weather_codes_get
        | (fun w => ret (now_text (clock w)) w) => apply keeps_now
        end
      | intros ? ]
  | |- keeps _ (raise _) => apply keeps_raise
  | |- keeps (fun _ => True) (ret _) => apply keeps_ret; exact I
  | |- keeps _ (ret _) => apply keeps_ret
  end.

Ltac keep_steps := repeat keep_step.

Section DataAnswers.
Context {RT : PyRuntime} {LIB : PyLibrary}.
Variable http : HttpLayer.
Variable environ : Environ.

Lemma enveloped_failure (e : Exn) : enveloped (failure e).
Proof. exists false. reflexivity. Qed.

Lemma keeps_gold_entry (kind : string) (purity buy sell updated : Json) :
  keeps (fun _ => True) (Unified.gold_entry kind purity buy sell updated).
Proof. unfold Unified.gold_entry. keep_steps. Qed.

Lemma keeps_gold_step (item : Json) (state : Unified.GoldState) :
  keeps (fun _ => True) (Unified.gold_step item state).
Proof.
  unfold Unified.gold_step. keep_steps.
  apply keeps_then.
  - match goal with
    | |- context [if ?c then _ else _] => destruct c
    end.
    + apply keeps_then; [apply keeps_gold_entry|]. intros entry.
      apply keeps_ret. exact I.
    + apply keeps_ret. exact I.
  - intros state'.
    match goal with
    | |- context [if ?c then _ else _] => destruct c
    end.
    + apply keeps_then; [apply keeps_gold_entry|]. intros entry.
      apply keeps_ret. exact I.
    + apply keeps_ret. exact I.
Qed.

Lemma keeps_gold_loop (items : list Json) (state : Unified.GoldState) :
  keeps (fun _ => True) (Unified.gold_loop items state).
Proof.
  revert state. induction items as [|item rest IH]; intros state.
  - apply keeps_ret. exact I.
  - cbn [Unified.gold_loop].
    apply keeps_then; [apply keeps_gold_step|]. exact IH.
Qed.

Lemma keeps_gold_rows (data_list : Json) :
  keeps (fun _ => True) (Unified.gold_rows data_list).
Proof.
  destruct data_list; cbn [Unified.gold_rows];
    first [apply keeps_raise | apply keeps_gold_loop].
Qed.

Lemma gold_answers : answers (Unified.get_gold_price http).
Proof.
  unfold Unified.get_gold_price.
  apply (keeps_caught _
           (fun e => [("success", JBool false); ("error", JStr e);
                      ("message", JStr "Không thể lấy giá vàng từ API")])).
  - keep_steps.
    match goal with
    | |- keeps _ (match ?data with _ => _ end) =>
        destruct data as [| | | | | |d]; try apply keeps_raise
    end.
    destruct (dict_get d "DataList") as [holder|]; [|apply keeps_raise].
    keep_steps.
    apply keeps_then.
    { match goal with
      | |- context [if ?c then _ else _] => destruct c
      end; [apply keeps_ret; exact I | apply keeps_raise]. }
    intros _.
    apply keeps_then; [apply keeps_gold_rows|]. intros state.
    destruct (Unified.sjc_data state), (Unified.nhan_tron_data state);
      cbn [app]; first [apply keeps_raise | apply keeps_ret];
      exists true; reflexivity.
  - intros e. exists false. reflexivity.
Qed.

Lemma keeps_usd_loop (exrates : list (list (string * string))) :
  keeps enveloped (Unified.usd_loop exrates).
Proof.
  induction exrates as [|exrate rest IH]; [apply keeps_raise|].
  cbn [Unified.usd_loop].
  destruct (find _ exrate) as [kv|]; [|exact IH].
  destruct (String.eqb (snd kv) "USD"); [|exact IH].
  intros w. repeat split. exists true. reflexivity.
Qed.

Lemma usd_answers : answers (Unified.get_usd_rate http).
Proof.
  unfold Unified.get_usd_rate, Unified.failed.
  apply (keeps_caught _ failure); [|apply enveloped_failure].
  keep_steps.
  destruct (xml_exrates _); [apply keeps_raise | apply keeps_usd_loop].
Qed.

Lemma bitcoin_answers : answers (Unified.get_bitcoin_price http).
Proof.
  unfold Unified.get_bitcoin_price, Unified.failed.
  apply (keeps_caught _ failure); [|apply enveloped_failure].
  keep_steps. exists true. reflexivity.
Qed.

Lemma weather_answers (args : Arguments) :
  answers (Unified.get_weather http args).
Proof.
  unfold Unified.get_weather, Unified.failed.
  destruct (Unified.weather_place _) as [[city_name lat] lon].
  apply (keeps_caught _ failure); [|apply enveloped_failure].
  keep_steps. exists true. reflexivity.
Qed.

Lemma adapter_answers : answers (Unified.get_adapter_status http environ).
Proof.
  unfold Unified.get_adapter_status.
  apply (keeps_caught _
           (fun e => [("success", JBool false);
                      ("adapter_url", JStr (Unified.ADAPTER_URL environ));
                      ("status", JStr "disconnected");
                      ("error", JStr e)])).
  - keep_steps. exists true. reflexivity.
  - intros e. exists false. reflexivity.
Qed.

End DataAnswers.

(** ** The tool layer *)

Section Routing.
Context {RT : PyRuntime} {LIB : PyLibrary}.
Variable dl : DeviceLayer.

Lemma google_discover_enveloped (args : Args) (w : World) :
  exists d w',
    GoogleHome.discover_devices dl args w = (Ok d, w') /\ enveloped d.
Proof.
  rewrite discover_devices_run.
  destruct (get_chromecasts dl (timeout_of args)) as [e|[casts browser]].
  - eexists. eexists. split; [reflexivity|]. exists false. reflexivity.
  - cbv zeta. destruct (stop_raises dl browser) as [e|];
      eexists; eexists; (split; [reflexivity|]);
      [exists false | exists true]; reflexivity.
Qed.

Lemma unified_discover_enveloped (args : Args) (w : World) :
  exists d w',
    Unified.discover_devices dl args w = (Ok d, w') /\ enveloped d.
Proof.
  rewrite unified_discover_devices_run.
  destruct (get_chromecasts dl (timeout_of args)) as [e|[casts browser]].
  - eexists. eexists. split; [reflexivity|]. exists false. reflexivity.
  - cbv zeta. destruct (stop_raises dl browser) as [e|];
      eexists; eexists; (split; [reflexivity|]);
      [exists false | exists true]; reflexivity.
Qed.

Lemma contained_enveloped (op : Args -> M Dict) (args : Args) (w : World) :
  contained op args w ->
  exists d w', op args w = (Ok d, w') /\ enveloped d /\ self w' = self w.
Proof.
  intros (d & w' & b & Hrun & Hb & Hself).
  exists d, w'. repeat split; try assumption. exists b. exact Hb.
Qed.

(** The branches of [dispatch] are tried in order. *)
Ltac next_branch name :=
  match goal with
  | |- context [String.eqb name ?tool] =>
      let Heq := fresh "Heq" in
      destruct (String.eqb name tool) eqn:Heq
  end.

(** A branch of [dispatch] that runs a contained operation. *)
Ltac contained_branch H :=
  apply contained_enveloped in H; cbv beta in H;
  let d := fresh "d" in
  let w' := fresh "w'" in
  let Hrun := fresh "Hrun" in
  let Hd := fresh "Hd" in
  let Hself := fresh "Hself" in
  destruct H as (d & w' & Hrun & Hd & Hself);
  exists d, w';
  split; [exact Hrun | split; [exact Hd | intros _; exact Hself]].

Lemma google_dispatch_answers (name : string) (args : Args) (w : World) :
  exists d w',
    GoogleHome.dispatch dl name args w = (Ok d, w')
    /\ enveloped d
    /\ (name <> "discover_devices" -> self w' = self w).
Proof.
  pose proof (google_operations_contained dl args w) as Hops.
  apply Forall_cons_iff in Hops. destruct Hops as [Hlist Hops].
  apply Forall_cons_iff in Hops. destruct Hops as [Hstatus Hops].
  apply Forall_cons_iff in Hops. destruct Hops as [Hplay Hops].
  apply Forall_cons_iff in Hops. destruct Hops as [Hpause Hops].
  apply Forall_cons_iff in Hops. destruct Hops as [Hresume Hops].
  apply Forall_cons_iff in Hops. destruct Hops as [Hstop Hops].
  apply Forall_cons_iff in Hops. destruct Hops as [Hvolume Hops].
  apply Forall_cons_iff in Hops. destruct Hops as [Hspeak _].
  unfold GoogleHome.dispatch.
  next_branch name.
  { apply String.eqb_eq in Heq. subst name.
    destruct (google_discover_enveloped args w) as (d & w' & Hrun & Hd).
    exists d, w'. repeat split; try assumption. congruence. }
  next_branch name; [contained_branch Hlist|].
  next_branch name; [contained_branch Hstatus|].
  next_branch name; [contained_branch Hplay|].
  next_branch name; [contained_branch Hpause|].
  next_branch name; [contained_branch Hresume|].
  next_branch name; [contained_branch Hstop|].
  next_branch name; [contained_branch Hvolume|].
  next_branch name; [contained_branch Hspeak|].
  eexists. eexists. split; [reflexivity|].
  split; [exists false; reflexivity | reflexivity].
Qed.

Variable http : HttpLayer.
Variable environ : Environ.

(** A branch of [dispatch] that runs a data tool. *)
Ltac answering_branch H w :=
  let d := fresh "d" in
  let w' := fresh "w'" in
  let Hrun := fresh "Hrun" in
  let Hd := fresh "Hd" in
  let Hself := fresh "Hself" in
  destruct (H w) as (d & w' & Hrun & Hd & Hself & _);
  exists d, w';
  split; [exact Hrun | split; [exact Hd | intros _; exact Hself]].

Lemma unified_dispatch_answers (name : string) (arguments : Arguments)
    (w : World) :
  exists d w',
    Unified.dispatch dl http environ name arguments w = (Ok d, w')
    /\ enveloped d
    /\ (name <> "discover_google_home" -> self w' = self w).
Proof.
  pose proof (unified_operations_contained dl (device_arguments arguments) w)
    as Hops.
  apply Forall_cons_iff in Hops. destruct Hops as [Hlist Hops].
  apply Forall_cons_iff in Hops. destruct Hops as [Hstatus Hops].
  apply Forall_cons_iff in Hops. destruct Hops as [Hplay Hops].
  apply Forall_cons_iff in Hops. destruct Hops as [Hpause Hops].
  apply Forall_cons_iff in Hops. destruct Hops as [Hresume Hops].
  apply Forall_cons_iff in Hops. destruct Hops as [Hstop Hops].
  apply Forall_cons_iff in Hops. destruct Hops as [Hvolume Hops].
  apply Forall_cons_iff in Hops. destruct Hops as [Hspeak _].
  unfold Unified.dispatch.
  next_branch name; [answering_branch (gold_answers http) w|].
  next_branch name; [answering_branch (usd_answers http) w|].
  next_branch name; [answering_branch (bitcoin_answers http) w|].
  next_branch name; [answering_branch (weather_answers http arguments) w|].
  next_branch name; [answering_branch (adapter_answers http environ) w|].
  next_branch name.
  { apply String.eqb_eq in Heq4. subst name.
    destruct (unified_discover_enveloped (device_arguments arguments) w)
      as (d & w' & Hrun & Hd).
    exists d, w'. repeat split; try assumption. congruence. }
  next_branch name; [contained_branch Hlist|].
  next_branch name; [contained_branch Hstatus|].
  next_branch name; [contained_branch Hplay|].
  next_branch name; [contained_branch Hpause|].
  next_branch name; [contained_branch Hresume|].
  next_branch name; [contained_branch Hstop|].
  next_branch name; [contained_branch Hvolume|].
  next_branch name; [contained_branch Hspeak|].
  eexists. eexists. split; [reflexivity|].
  split; [exists false; reflexivity | reflexivity].
Qed.

(** X5. Whatever the tool name, the arguments and the device layer,
    [call_tool] of [mcp_google_home.py] returns exactly one text
    content, the serialisation of a dictionary with a boolean
    ["success"]; no exception reaches its [except] clause.  Every tool
    but [discover_devices] leaves the registry and the last-discovery
    timestamp as they were. *)
Theorem google_call_tool_answers (name : string) (arguments : Args)
    (w : World) :
  exists d w',
    GoogleHome.call_tool dl name arguments w
    = (Ok [{| tc_type := "text"; tc_text := json_dumps d |}], w')
    /\ enveloped d
    /\ (name <> "discover_devices" -> self w' = self w).
Proof.
  destruct (google_dispatch_answers name arguments w)
    as (d & w' & Hrun & Hd & Hself).
  exists d, w'.
  unfold GoogleHome.call_tool, try_catch, bind. rewrite Hrun.
  repeat split; assumption.
Qed.

(** X6. The same for [call_tool] of [mcp_server.py], whose tools
    include the five data tools: one text content with an enveloped
    dictionary, no exception, and only [discover_google_home] writes
    the registry. *)
Theorem unified_call_tool_answers (name : string) (arguments : Arguments)
    (w : World) :
  exists d w',
    Unified.call_tool dl http environ name arguments w
    = (Ok [{| tc_type := "text"; tc_text := json_dumps d |}], w')
    /\ enveloped d
    /\ (name <> "discover_google_home" -> self w' = self w).
Proof.
  destruct (unified_dispatch_answers name arguments w)
    as (d & w' & Hrun & Hd & Hself).
  exists d, w'.
  unfold Unified.call_tool, try_catch, bind. rewrite Hrun.
  repeat split; assumption.
Qed.

(** A name that is none of the listed ones falls through every
    branch. *)
Ltac not_listed name Hnot :=
  repeat (next_branch name;
          [ exfalso; apply Hnot;
            match goal with
            | H : String.eqb name _ = true |- _ =>
                apply String.eqb_eq in H; subst name
            end;
            cbn; tauto
          | ]).

(** X13. The tools [list_tools] of [mcp_google_home.py] advertises are
    the tools [call_tool] routes: each advertised name runs the method
    of that name, and any other name is answered with
    [Unknown tool: name], without any device-layer call or change of
    state. *)
Theorem google_listed_tools_are_routed :
  map (fun tool => GoogleHome.dispatch dl (tool_name tool))
      GoogleHome.list_tools
  = [GoogleHome.discover_devices dl;
     (fun _ => GoogleHome.list_devices);
     GoogleHome.get_device_status dl;
     GoogleHome.play_media dl;
     GoogleHome.pause_media dl;
     GoogleHome.resume_media dl;
     GoogleHome.stop_media dl;
     GoogleHome.set_volume dl;
     GoogleHome.speak_text dl]
  /\ forall name arguments w,
      ~ In name (map tool_name GoogleHome.list_tools) ->
      GoogleHome.call_tool dl name arguments w
      = (Ok [{| tc_type := "text";
                tc_text := json_dumps (GoogleHome.unknown_tool name) |}],
         w).
Proof.
  split; [reflexivity|].
  intros name arguments w Hnot.
  unfold GoogleHome.call_tool, try_catch, bind, GoogleHome.dispatch.
  not_listed name Hnot.
  reflexivity.
Qed.

(** X14. The same for [mcp_server.py] and its fourteen tools. *)
Theorem unified_listed_tools_are_routed :
  map (fun tool => Unified.dispatch dl http environ (tool_name tool))
      Unified.list_tools
  = [(fun _ => Unified.get_gold_price http);
     (fun _ => Unified.get_usd_rate http);
     (fun _ => Unified.get_bitcoin_price http);
     Unified.get_weather http;
     (fun _ => Unified.get_adapter_status http environ);
     (fun arguments =>
        Unified.discover_devices dl (device_arguments arguments));
     (fun _ => Unified.list_devices);
     (fun arguments =>
        Unified.get_device_status dl (device_arguments arguments));
     (fun arguments => Unified.play_media dl (device_arguments arguments));
     (fun arguments => Unified.pause_media dl (device_arguments arguments));
     (fun arguments => Unified.resume_media dl (device_arguments arguments));
     (fun arguments => Unified.stop_media dl (device_arguments arguments));
     (fun arguments => Unified.set_volume dl (device_arguments arguments));
     (fun arguments => Unified.speak_text dl (device_arguments arguments))]
  /\ forall name arguments w,
      ~ In name (map tool_name Unified.list_tools) ->
      Unified.call_tool dl http environ name arguments w
      = (Ok [{| tc_type := "text";
                tc_text := json_dumps (Unified.unknown_tool name) |}],
         w).
Proof.
  split; [reflexivity|].
  intros name arguments w Hnot.
  unfold Unified.call_tool, try_catch, bind, Unified.dispatch.
  not_listed name Hnot.
  reflexivity.
Qed.

End Routing.

(** ** Weather *)

Section Weather.
Context {RT : PyRuntime} {LIB : PyLibrary}.
Variable http : HttpLayer.

(** The outcome of a body inside [try: ... except Exception as e:
    return {"success": False, "error": str(e)}]. *)
Lemma caught_cases (P : Dict -> Prop) (body : M Dict) (w : World) :
  keeps P body ->
  exists d w',
    try_catch body Unified.failed w = (Ok d, w')
    /\ self w' = self w
    /\ (P d \/ exists e, d = failure e).
Proof.
  intros Hbody. unfold try_catch.
  destruct (Hbody w) as (Hself & _ & Hvalue).
  destruct (body w) as [[d|e] w1]; cbn [fst snd] in *.
  - exists d, w1. repeat split; [assumption | left; assumption].
  - exists (failure e), w1. repeat split; [assumption|].
    right. exists e. reflexivity.
Qed.

Lemma weather_place_cases (city : string) :
  (lower city = "cao lanh" \/ lower city = "cao lãnh" ->
   Unified.weather_place city
   = ("Cao Lanh", float_literal "10.4606", float_literal "105.6328"))
  /\ (lower city <> "cao lanh" -> lower city <> "cao lãnh" ->
      Unified.weather_place city
      = ("Ho Chi Minh City", float_literal "10.8231",
         float_literal "106.6297")).
Proof.
  unfold Unified.weather_place.
  destruct (String.eqb (lower city) "cao lanh") eqn:Hplain;
    destruct (String.eqb (lower city) "cao lãnh") eqn:Haccent;
    cbn [orb]; split; try reflexivity; intros;
    try apply String.eqb_eq in Hplain;
    try apply String.eqb_eq in Haccent;
    try apply String.eqb_neq in Hplain;
    try apply String.eqb_neq in Haccent;
    try contradiction; try reflexivity.
  destruct H; contradiction.
Qed.

(** X15. A city that is neither "cao lanh" nor "cao lãnh" once
    lower-cased, known or not, is answered with the weather of Ho Chi
    Minh City: [get_weather] asks for latitude 10.8231 and longitude
    106.6297, labels a successful result "Ho Chi Minh City", and
    reports the exception of that request when it raises.  No city is
    rejected. *)
Theorem weather_other_city_is_ho_chi_minh (args : Arguments) (w : World) :
  lower (city_of args) <> "cao lanh" ->
  lower (city_of args) <> "cao lãnh" ->
  exists d w',
    Unified.get_weather http args w = (Ok d, w')
    /\ self w' = self w
    /\ (success d = Some true ->
        str_field d "city" = Some "Ho Chi Minh City")
    /\ (forall e,
           http_get http Unified.data_client
             "https://api.open-meteo.com/v1/forecast"
             (weather_params (float_literal "10.8231")
                (float_literal "106.6297"))
           = inl e ->
           d = failure e).
Proof.
  intros Hplain Haccent.
  destruct (weather_place_cases (city_of args)) as [_ Hplace].
  specialize (Hplace Hplain Haccent).
  unfold Unified.get_weather. fold (city_of args). rewrite Hplace.
  match goal with
  | |- context [try_catch ?body Unified.failed w] =>
      destruct (caught_cases
                  (fun d => str_field d "city" = Some "Ho Chi Minh City")
                  body w) as (d & w' & Hrun & Hself & Hd)
  end.
  { keep_steps. reflexivity. }
  exists d, w'. split; [exact Hrun|]. split; [exact Hself|]. split.
  - intros Hs. destruct Hd as [Hd|[e ->]]; [exact Hd | discriminate Hs].
  - intros e Hreq.
    unfold try_catch, bind at 1, client_get in Hrun.
    fold (weather_params (float_literal "10.8231")
            (float_literal "106.6297")) in Hrun.
    rewrite Hreq in Hrun. injection Hrun as <- _. reflexivity.
Qed.

End Weather.

Section WeatherAnswer.
Context {RT : PyRuntime} {LIB : PyLibrary}.
Variable http : HttpLayer.

(** Runs [get_weather] up to the parsed answer. *)
Ltac weather_answered args Hanswer Hstatus Hjson :=
  unfold Unified.get_weather; unfold weather_answer in Hanswer;
  fold (city_of args) in *;
  let city_name := fresh "city_name" in
  let lat := fresh "lat" in
  let lon := fresh "lon" in
  destruct (Unified.weather_place (city_of args))
    as [[city_name lat] lon];
  unfold try_catch, bind at 1, client_get;
  fold (weather_params lat lon); rewrite Hanswer;
  unfold bind at 1, check_status; rewrite Hstatus;
  unfold ret at 1;
  unfold bind at 1, read_json; rewrite Hjson;
  unfold ret at 1.

(** X16. When the weather service answers with a JSON object that has
    no ["current"] entry, [get_weather] still reports [success: true]:
    temperature and humidity are [None], the weather reads "Quang đãng"
    (clear sky, the label of code 0) and the message shows the text of
    [None] as the temperature. *)
Theorem weather_without_current_reads_clear_sky (args : Arguments)
    (w : World) (response : Response) (data : Dict) :
  weather_answer http args = inr response ->
  raise_for_status response = None ->
  response_json response = inr (JDict data) ->
  dict_get data "current" = None ->
  exists w',
    Unified.get_weather http args w
    = (Ok [("success", JBool true);
           ("city", JStr (fst (fst (Unified.weather_place (city_of args)))));
           ("temperature", JNone);
           ("humidity", JNone);
           ("weather", JStr "Quang đãng");
           ("message",
            JStr (fst (fst (Unified.weather_place (city_of args)))
                  ++ ": " ++ py_str JNone ++ "°C"))],
       w')
    /\ self w' = self w.
Proof.
  intros Hanswer Hstatus Hjson Hcurrent.
  weather_answered args Hanswer Hstatus Hjson.
  unfold bind, py_get, ret. rewrite Hcurrent.
  eexists. split; reflexivity.
Qed.

Lemma lookup_code_unlisted (code : Z) (default : string) :
  ~ In code (map fst Unified.weather_codes) ->
  Unified.lookup_code code default = default.
Proof.
  intros Hnot. unfold Unified.lookup_code.
  destruct (find _ Unified.weather_codes) as [entry|] eqn:Hfind;
    [|reflexivity].
  apply find_some in Hfind. destruct Hfind as [Hin Heq].
  apply Z.eqb_eq in Heq. exfalso. apply Hnot. rewrite <- Heq.
  apply in_map. exact Hin.
Qed.

(** X17. When the answer has a ["current"] object with an integer
    ["weather_code"], the reported weather is the label of that code in
    the table of eight codes, and "Không xác định" for every other
    code; temperature and humidity are passed on as received, [None]
    when absent. *)
Theorem weather_label_of_code (args : Arguments) (w : World)
    (response : Response) (data current : Dict) (code : Z) :
  weather_answer http args = inr response ->
  raise_for_status response = None ->
  response_json response = inr (JDict data) ->
  dict_get data "current" = Some (JDict current) ->
  dict_get current "weather_code" = Some (JInt code) ->
  (exists d w',
      Unified.get_weather http args w = (Ok d, w')
      /\ success d = Some true
      /\ str_field d "weather"
         = Some (Unified.lookup_code code "Không xác định")
      /\ dict_get d "temperature"
         = Some match dict_get current "temperature_2m" with
                | Some t => t
                | None => JNone
                end
      /\ dict_get d "humidity"
         = Some match dict_get current "relative_humidity_2m" with
                | Some h => h
                | None => JNone
                end)
  /\ (~ In code [0; 1; 2; 3; 61; 63; 65; 95]%Z ->
      Unified.lookup_code code "Không xác định" = "Không xác định").
Proof.
  intros Hanswer Hstatus Hjson Hcurrent Hcode.
  split; [|apply lookup_code_unlisted].
  weather_answered args Hanswer Hstatus Hjson.
  unfold bind, py_get, ret, Unified.weather_codes_get.
  rewrite Hcurrent, Hcode.
  eexists. eexists. repeat split.
Qed.

End WeatherAnswer.

(** ** Bitcoin price and dollar rate *)

Section Rates.
Context {RT : PyRuntime} {LIB : PyLibrary}.
Variable http : HttpLayer.

(** X18. When the price service answers with a JSON object that has
    no ["bitcoin"] entry, or whose ["bitcoin"] object has no ["usd"]
    price, [get_bitcoin_price] reports [success: false]: formatting the
    missing price for the message raises, and the text of that error
    is returned instead of a result with empty prices. *)
Theorem bitcoin_without_price_fails (w : World) (response : Response)
    (data : Dict) :
  bitcoin_answer http = inr response ->
  raise_for_status response = None ->
  response_json response = inr (JDict data) ->
  dict_get data "bitcoin" = None
  \/ (exists btc,
         dict_get data "bitcoin" = Some (JDict btc)
         /\ dict_get btc "usd" = None) ->
  exists w',
    Unified.get_bitcoin_price http w
    = (Ok (failure
             "unsupported format string passed to NoneType.__format__"),
       w')
    /\ self w' = self w.
Proof.
  intros Hanswer Hstatus Hjson Hmissing.
  unfold bitcoin_answer in Hanswer.
  unfold Unified.get_bitcoin_price, try_catch, bind at 1, client_get.
  rewrite Hanswer.
  unfold bind at 1, check_status. rewrite Hstatus. unfold ret at 1.
  unfold bind at 1, read_json. rewrite Hjson. unfold ret at 1.
  unfold bind, py_get, ret, Unified.format_money, raise.
  destruct Hmissing as [Hnone|(btc & Hbtc & Husd)].
  - rewrite Hnone. cbn [dict_get]. eexists. split; reflexivity.
  - rewrite Hbtc, Husd. eexists. split; reflexivity.
Qed.

Lemma usd_loop_run (exrates : list (list (string * string))) (w : World) :
  Unified.usd_loop exrates w
  = match find is_usd exrates with
    | Some element =>
        (Ok [("success", JBool true);
             ("timestamp", JStr (now_text (clock w)));
             ("bank", JStr "Vietcombank");
             ("data",
              JDict [("currency", JStr "USD");
                     ("buy_cash", JOptStr (attribute_of element "Buy"));
                     ("buy_transfer",
                      JOptStr (attribute_of element "Transfer"));
                     ("sell", JOptStr (attribute_of element "Sell"))])],
         w)
    | None => (Raised "USD rate not found", w)
    end.
Proof.
  induction exrates as [|element rest IH]; [reflexivity|].
  cbn [Unified.usd_loop find]. unfold is_usd at 1, attribute_of at 1.
  destruct (find (fun kv => String.eqb (fst kv) "CurrencyCode") element)
    as [kv|]; [|exact IH].
  destruct (String.eqb (snd kv) "USD"); [reflexivity | exact IH].
Qed.

(** X19. [get_usd_rate] reports the first [Exrate] element of the
    bank's answer whose [CurrencyCode] is [USD], with its [Buy],
    [Transfer] and [Sell] attributes ([None] for a missing one); later
    dollar elements are ignored, and an answer without a dollar element
    gives [success: false] with "USD rate not found". *)
Theorem usd_rate_is_first_dollar_element (w : World) (response : Response)
    (exrates : list (list (string * string))) :
  usd_answer http = inr response ->
  raise_for_status response = None ->
  xml_exrates (response_text response) = inr exrates ->
  exists d w',
    Unified.get_usd_rate http w = (Ok d, w')
    /\ self w' = self w
    /\ match find is_usd exrates with
       | Some element =>
           success d = Some true
           /\ dict_get d "data"
              = Some (JDict
                        [("currency", JStr "USD");
                         ("buy_cash", JOptStr (attribute_of element "Buy"));
                         ("buy_transfer",
                          JOptStr (attribute_of element "Transfer"));
                         ("sell", JOptStr (attribute_of element "Sell"))])
       | None => d = failure "USD rate not found"
       end.
Proof.
  intros Hanswer Hstatus Hxml.
  unfold usd_answer in Hanswer.
  unfold Unified.get_usd_rate, try_catch, bind at 1, client_get.
  rewrite Hanswer.
  unfold bind at 1, check_status. rewrite Hstatus. unfold ret at 1.
  rewrite Hxml, usd_loop_run.
  destruct (find is_usd exrates) as [element|];
    eexists; eexists; repeat split.
Qed.

End Rates.

(** ** Gold price *)

Section Gold.
Context {RT : PyRuntime} {LIB : PyLibrary}.
Variable http : HttpLayer.

Lemma gold_kept_refl (state : Unified.GoldState) :
  gold_consistent state -> gold_kept state state.
Proof. intros H. repeat split; try apply H; auto. Qed.

Lemma gold_kept_trans (a b c : Unified.GoldState) :
  gold_kept a b -> gold_kept b c -> gold_kept a c.
Proof.
  intros (_ & Hs1 & Hn1) (Hc & Hs2 & Hn2).
  repeat split; try apply Hc; auto.
Qed.

(** The first [if] of the loop body. *)
Lemma keeps_sjc_branch (state : Unified.GoldState) (matching : bool)
    (purity buy sell updated : Json) :
  gold_consistent state ->
  keeps (gold_kept state)
    (if matching && negb (Unified.seen "SJC" state)
     then
       bind (Unified.gold_entry "VÀNG MIẾNG SJC" purity buy sell updated)
         (fun entry =>
            ret {| Unified.sjc_data := Some entry;
                   Unified.nhan_tron_data := Unified.nhan_tron_data state;
                   Unified.seen_types :=
                     ("SJC" :: Unified.seen_types state)%list |})
     else ret state).
Proof.
  intros Hc.
  destruct (matching && negb (Unified.seen "SJC" state)) eqn:Htest.
  - apply keeps_then; [apply keeps_gold_entry|]. intros entry.
    apply keeps_ret.
    apply andb_true_iff in Htest. destruct Htest as [_ Hunseen].
    apply negb_true_iff in Hunseen.
    destruct Hc as [Hsjc Hring].
    split; [split|split].
    + cbn. split; [discriminate | reflexivity].
    + exact Hring.
    + cbn [Unified.sjc_data]. intros entry' Hset. exfalso.
      assert (Unified.seen "SJC" state = true)
        by (apply Hsjc; congruence).
      congruence.
    + cbn [Unified.nhan_tron_data]. auto.
  - apply keeps_ret. apply gold_kept_refl, Hc.
Qed.

(** The second [if] of the loop body. *)
Lemma keeps_ring_branch (state : Unified.GoldState) (matching : bool)
    (purity buy sell updated : Json) :
  gold_consistent state ->
  keeps (gold_kept state)
    (if matching && negb (Unified.seen "NHAN_TRON" state)
     then
       bind (Unified.gold_entry "NHẪN TRÒN TRƠN" purity buy sell updated)
         (fun entry =>
            ret {| Unified.sjc_data := Unified.sjc_data state;
                   Unified.nhan_tron_data := Some entry;
                   Unified.seen_types :=
                     ("NHAN_TRON" :: Unified.seen_types state)%list |})
     else ret state).
Proof.
  intros Hc.
  destruct (matching && negb (Unified.seen "NHAN_TRON" state)) eqn:Htest.
  - apply keeps_then; [apply keeps_gold_entry|]. intros entry.
    apply keeps_ret.
    apply andb_true_iff in Htest. destruct Htest as [_ Hunseen].
    apply negb_true_iff in Hunseen.
    destruct Hc as [Hsjc Hring].
    split; [split|split].
    + exact Hsjc.
    + cbn. split; [discriminate | reflexivity].
    + cbn [Unified.sjc_data]. auto.
    + cbn [Unified.nhan_tron_data]. intros entry' Hset. exfalso.
      assert (Unified.seen "NHAN_TRON" state = true)
        by (apply Hring; congruence).
      congruence.
  - apply keeps_ret. apply gold_kept_refl, Hc.
Qed.

Lemma keeps_gold_step_kept (item : Json) (state : Unified.GoldState) :
  gold_consistent state ->
  keeps (gold_kept state) (Unified.gold_step item state).
Proof.
  intros Hc. unfold Unified.gold_step. keep_steps.
  match goal with
  | |- keeps _ (bind (if ?c && ?c' && _ then _ else _) _) =>
      apply (keeps_bind _ _ (gold_kept state));
      [rewrite <- andb_assoc; rewrite andb_assoc;
       apply (keeps_sjc_branch state (c && c')); exact Hc|]
  end.
  intros state' Hkept.
  intros w.
  destruct (keeps_ring_branch state' (contains "NHẪN TRÒN TRƠN" a5)
              a4 a1 a2 a3 (proj1 Hkept) w)
    as (Hself & Htrace & Hvalue).
  repeat split; try assumption.
  destruct (fst _); [|exact I].
  eapply gold_kept_trans; eassumption.
Qed.

(** The loop keeps what it was started with. *)
Lemma gold_loop_kept (items : list Json)
    (state state' : Unified.GoldState) (w w' : World) :
  gold_consistent state ->
  Unified.gold_loop items state w = (Ok state', w') ->
  gold_kept state state'.
Proof.
  revert state w.
  induction items as [|item rest IH]; intros state w Hc Hrun.
  - injection Hrun as <- _. apply gold_kept_refl, Hc.
  - cbn [Unified.gold_loop] in Hrun. unfold bind in Hrun.
    destruct (keeps_gold_step_kept item state Hc w)
      as (_ & _ & Hvalue).
    destruct (Unified.gold_step item state w) as [[middle|e] w1];
      [|discriminate Hrun].
    cbn [fst] in Hvalue.
    apply (gold_kept_trans state middle state' Hvalue).
    apply (IH middle w1); [apply Hvalue | exact Hrun].
Qed.

Lemma unmatched_step (item : Json) (state : Unified.GoldState) (w : World) :
  unmatched item -> Unified.gold_step item state w = (Ok state, w).
Proof.
  intros (fields & n & -> & Hname & Hsjc & Hring).
  unfold row_field in Hname. cbv zeta in Hname.
  unfold Unified.gold_step, bind, py_get, ret.
  rewrite Hname. cbn [py_upper]. unfold ret.
  rewrite Hsjc, Hring. reflexivity.
Qed.

Lemma unmatched_loop (items : list Json) (state : Unified.GoldState)
    (w : World) :
  Forall unmatched items -> Unified.gold_loop items state w = (Ok state, w).
Proof.
  intros Hall. induction Hall as [|item rest Hitem _ IH]; [reflexivity|].
  cbn [Unified.gold_loop]. unfold bind.
  rewrite (unmatched_step item state w Hitem). exact IH.
Qed.

Lemma unmatched_prefix (before rest : list Json)
    (state : Unified.GoldState) (w : World) :
  Forall unmatched before ->
  Unified.gold_loop (before ++ rest) state w
  = Unified.gold_loop rest state w.
Proof.
  intros Hall. induction Hall as [|item before' Hitem _ IH]; [reflexivity|].
  cbn [app Unified.gold_loop]. unfold bind.
  rewrite (unmatched_step item state w Hitem). exact IH.
Qed.

Lemma unseen_of_unset (state : Unified.GoldState) :
  gold_consistent state ->
  (Unified.sjc_data state = None -> Unified.seen "SJC" state = false)
  /\ (Unified.nhan_tron_data state = None ->
      Unified.seen "NHAN_TRON" state = false).
Proof.
  intros [Hsjc Hring]. split; intros Hnone.
  - destruct (Unified.seen "SJC" state); [|reflexivity].
    exfalso. apply (proj1 Hsjc eq_refl). exact Hnone.
  - destruct (Unified.seen "NHAN_TRON" state); [|reflexivity].
    exfalso. apply (proj1 Hring eq_refl). exact Hnone.
Qed.

(** The loop body on a row that names SJC gold bars, while no such
    row has been seen: when it completes, both prices were read and
    the SJC entry is the one of this row. *)
Lemma sjc_row_step (fields : Dict) (n : string)
    (state middle : Unified.GoldState) (w w1 : World) :
  row_field fields "@n_" (JStr "") = JStr n ->
  contains "SJC" (upper n) && contains "VÀNG MIẾNG" (upper n) = true ->
  Unified.seen "SJC" state = false ->
  Unified.gold_step (JDict fields) state w = (Ok middle, w1) ->
  exists buy sell,
    py_int (row_field fields "@pb_" (JStr "0")) = inr buy
    /\ py_int (row_field fields "@ps_" (JStr "0")) = inr sell
    /\ Unified.sjc_data middle
       = Some (JDict
                       [("type", JStr "VÀNG MIẾNG SJC");
                        ("purity", row_field fields "@h_" (JStr ""));
                        ("buy", JStr (format_thousands buy));
                        ("sell", JStr (format_thousands sell));
                        ("updated", row_field fields "@d_" (JStr ""))]).
Proof.
  intros Hname Hsjc Hunseen.
  unfold row_field in *. cbv zeta in *.
  unfold Unified.gold_step, bind, py_get, ret.
  rewrite Hname. cbn [py_upper]. unfold ret.
  rewrite Hsjc, Hunseen. cbn [negb andb].
  unfold Unified.gold_entry, bind, format_price, ret, raise.
  destruct (py_int _) as [e|buy]; [intros Hrun; discriminate Hrun|].
  destruct (py_int _) as [e|sell]; [intros Hrun; discriminate Hrun|].
  destruct (contains "NHẪN TRÒN TRƠN" (upper n) && negb _);
    intros [= <- _]; exists buy, sell; repeat split.
Qed.

(** The same for a row that names plain rings. *)
Lemma ring_row_step (fields : Dict) (n : string)
    (state middle : Unified.GoldState) (w w1 : World) :
  row_field fields "@n_" (JStr "") = JStr n ->
  contains "NHẪN TRÒN TRƠN" (upper n) = true ->
  Unified.seen "NHAN_TRON" state = false ->
  Unified.gold_step (JDict fields) state w = (Ok middle, w1) ->
  exists buy sell,
    py_int (row_field fields "@pb_" (JStr "0")) = inr buy
    /\ py_int (row_field fields "@ps_" (JStr "0")) = inr sell
    /\ Unified.nhan_tron_data middle
       = Some (JDict
                       [("type", JStr "NHẪN TRÒN TRƠN");
                        ("purity", row_field fields "@h_" (JStr ""));
                        ("buy", JStr (format_thousands buy));
                        ("sell", JStr (format_thousands sell));
                        ("updated", row_field fields "@d_" (JStr ""))]).
Proof.
  intros Hname Hring Hunseen.
  unfold row_field in *. cbv zeta in *.
  unfold Unified.gold_step, bind, py_get, ret.
  rewrite Hname. cbn [py_upper]. unfold ret.
  rewrite Hring.
  unfold Unified.gold_entry, bind, format_price, ret, raise.
  destruct (contains "SJC" (upper n) && contains "VÀNG MIẾNG" (upper n)
            && negb (Unified.seen "SJC" state)).
  - destruct (py_int _) as [e|buy]; [intros Hrun; discriminate Hrun|].
    destruct (py_int _) as [e|sell]; [intros Hrun; discriminate Hrun|].
    unfold Unified.seen in *. cbn [Unified.seen_types existsb].
    change (String.eqb "NHAN_TRON" "SJC") with false. cbn [orb].
    rewrite Hunseen. cbn [negb andb].
    intros [= <- _]; exists buy, sell; repeat split.
  - rewrite Hunseen. cbn [negb andb].
    destruct (py_int _) as [e|buy]; [intros Hrun; discriminate Hrun|].
    destruct (py_int _) as [e|sell]; [intros Hrun; discriminate Hrun|].
    intros [= <- _]; exists buy, sell; repeat split.
Qed.

(** X20. In the loop of [get_gold_price] the first matching row of
    each kind of gold decides.  When the loop completes on rows of
    which the first to name SJC gold bars is [fields] (the rows before
    it name neither kind, and no SJC entry was set before), both
    prices of that row were read by [int()] and the SJC entry is the
    one built from that row, whatever rows follow; likewise for the
    first row that names plain rings.  Once an entry is set no later
    row replaces it, and a kind is marked as seen exactly when its
    entry is set. *)
Theorem gold_first_match_is_kept (items : list Json)
    (state state' : Unified.GoldState) (w w' : World) :
  gold_consistent state ->
  Unified.gold_loop items state w = (Ok state', w') ->
  gold_consistent state'
  /\ (forall entry,
         Unified.sjc_data state = Some entry ->
         Unified.sjc_data state' = Some entry)
  /\ (forall entry,
         Unified.nhan_tron_data state = Some entry ->
         Unified.nhan_tron_data state' = Some entry)
  /\ (forall (before after : list Json) (fields : Dict) (n : string),
         items = (before ++ JDict fields :: after)%list ->
         Forall unmatched before ->
         Unified.sjc_data state = None ->
         row_field fields "@n_" (JStr "") = JStr n ->
         contains "SJC" (upper n) && contains "VÀNG MIẾNG" (upper n) = true ->
         exists buy sell,
           py_int (row_field fields "@pb_" (JStr "0")) = inr buy
           /\ py_int (row_field fields "@ps_" (JStr "0")) = inr sell
           /\ Unified.sjc_data state'
              = Some (JDict
                       [("type", JStr "VÀNG MIẾNG SJC");
                        ("purity", row_field fields "@h_" (JStr ""));
                        ("buy", JStr (format_thousands buy));
                        ("sell", JStr (format_thousands sell));
                        ("updated", row_field fields "@d_" (JStr ""))]))
  /\ (forall (before after : list Json) (fields : Dict) (n : string),
         items = (before ++ JDict fields :: after)%list ->
         Forall unmatched before ->
         Unified.nhan_tron_data state = None ->
         row_field fields "@n_" (JStr "") = JStr n ->
         contains "NHẪN TRÒN TRƠN" (upper n) = true ->
         exists buy sell,
           py_int (row_field fields "@pb_" (JStr "0")) = inr buy
           /\ py_int (row_field fields "@ps_" (JStr "0")) = inr sell
           /\ Unified.nhan_tron_data state'
              = Some (JDict
                       [("type", JStr "NHẪN TRÒN TRƠN");
                        ("purity", row_field fields "@h_" (JStr ""));
                        ("buy", JStr (format_thousands buy));
                        ("sell", JStr (format_thousands sell));
                        ("updated", row_field fields "@d_" (JStr ""))])).
Proof.
  intros Hc Hrun.
  destruct (gold_loop_kept items state state' w w' Hc Hrun)
    as (Hc' & Hsjc_kept & Hring_kept).
  split; [exact Hc'|]. split; [exact Hsjc_kept|]. split; [exact Hring_kept|].
  destruct (unseen_of_unset state Hc) as [Hsjc_unseen Hring_unseen].
  split.
  - intros before after fields n -> Hbefore Hunset Hname Hmatch.
    rewrite (unmatched_prefix before _ _ _ Hbefore) in Hrun.
    cbn [Unified.gold_loop] in Hrun. unfold bind at 1 in Hrun.
    destruct (keeps_gold_step_kept (JDict fields) state Hc w)
      as (_ & _ & Hmiddle).
    destruct (Unified.gold_step (JDict fields) state w)
      as [[middle|e] w1] eqn:Hstep; [|discriminate Hrun].
    cbn [fst] in Hmiddle.
    destruct (sjc_row_step fields n state middle w w1 Hname Hmatch
                (Hsjc_unseen Hunset) Hstep)
      as (buy & sell & Hbuy & Hsell & Hentry).
    exists buy, sell. split; [exact Hbuy|]. split; [exact Hsell|].
    destruct (gold_loop_kept after middle state' w1 w' (proj1 Hmiddle) Hrun)
      as (_ & Hkept & _).
    apply Hkept, Hentry.
  - intros before after fields n -> Hbefore Hunset Hname Hmatch.
    rewrite (unmatched_prefix before _ _ _ Hbefore) in Hrun.
    cbn [Unified.gold_loop] in Hrun. unfold bind at 1 in Hrun.
    destruct (keeps_gold_step_kept (JDict fields) state Hc w)
      as (_ & _ & Hmiddle).
    destruct (Unified.gold_step (JDict fields) state w)
      as [[middle|e] w1] eqn:Hstep; [|discriminate Hrun].
    cbn [fst] in Hmiddle.
    destruct (ring_row_step fields n state middle w w1 Hname Hmatch
                (Hring_unseen Hunset) Hstep)
      as (buy & sell & Hbuy & Hsell & Hentry).
    exists buy, sell. split; [exact Hbuy|]. split; [exact Hsell|].
    destruct (gold_loop_kept after middle state' w1 w' (proj1 Hmiddle) Hrun)
      as (_ & _ & Hkept).
    apply Hkept, Hentry.
Qed.

End Gold.

Section GoldRows.
Context {RT : PyRuntime} {LIB : PyLibrary}.
Variable http : HttpLayer.

(** X21. When the gold service answers with a list of price rows of
    which none names SJC gold bars or plain rings, [get_gold_price]
    reports [success: false]: with "No data in BTMC response" for an
    empty list, and with "SJC or NHẪN TRÒN TRƠN not found" otherwise.
    The prices of such rows are never read. *)
Theorem gold_without_matching_row_fails (w : World) (response : Response)
    (data holder : Dict) (items : list Json) :
  gold_answer http = inr response ->
  raise_for_status response = None ->
  response_json response = inr (JDict data) ->
  dict_get data "DataList" = Some (JDict holder) ->
  dict_get holder "Data" = Some (JList items) ->
  Forall unmatched items ->
  exists w',
    Unified.get_gold_price http w
    = (Ok [("success", JBool false);
           ("error",
            JStr match items with
                 | [] => "No data in BTMC response"
                 | _ :: _ => "SJC or NHẪN TRÒN TRƠN not found"
                 end);
           ("message", JStr "Không thể lấy giá vàng từ API")],
       w')
    /\ self w' = self w.
Proof.
  intros Hanswer Hstatus Hjson Hlist Hdata Hrows.
  unfold gold_answer in Hanswer.
  unfold Unified.get_gold_price, try_catch, bind at 1, client_get.
  rewrite Hanswer.
  unfold bind at 1, check_status. rewrite Hstatus. unfold ret at 1.
  unfold bind at 1, read_json. rewrite Hjson. unfold ret at 1.
  unfold bind at 1. unfold ret at 1. rewrite Hlist.
  unfold bind at 1, py_get. rewrite Hdata. unfold ret at 1.
  destruct items as [|item rest].
  - eexists. split; reflexivity.
  - unfold bind at 1. cbn [truthy]. unfold ret at 1.
    unfold bind at 1. cbn [Unified.gold_rows].
    rewrite (unmatched_loop (item :: rest) _ _ Hrows).
    eexists. split; reflexivity.
Qed.

End GoldRows.

Section GoldBars.
Context {RT : PyRuntime} {LIB : PyLibrary}.
Variable http : HttpLayer.

(** X22. When exactly one row of the gold service's answer names SJC
    gold bars (and not rings) and the other rows name neither kind,
    [get_gold_price] reports that row alone: its purity and update
    date as received and its buying and selling price as integers with
    thousands separators.  If [int()] rejects the buying or, next, the
    selling price of that row, the call reports [success: false] with
    that error. *)
Theorem gold_reports_the_sjc_row (w : World) (response : Response)
    (data holder fields : Dict) (before after : list Json) (n : string) :
  gold_answer http = inr response ->
  raise_for_status response = None ->
  response_json response = inr (JDict data) ->
  dict_get data "DataList" = Some (JDict holder) ->
  dict_get holder "Data"
  = Some (JList (before ++ JDict fields :: after)) ->
  Forall unmatched before ->
  Forall unmatched after ->
  row_field fields "@n_" (JStr "") = JStr n ->
  contains "SJC" (upper n) && contains "VÀNG MIẾNG" (upper n) = true ->
  contains "NHẪN TRÒN TRƠN" (upper n) = false ->
  exists d w',
    Unified.get_gold_price http w = (Ok d, w')
    /\ self w' = self w
    /\ match py_int (row_field fields "@pb_" (JStr "0")),
             py_int (row_field fields "@ps_" (JStr "0")) with
       | inr buy, inr sell =>
           success d = Some true
           /\ dict_get d "data"
              = Some (JList
                        [JDict
                           [("type", JStr "VÀNG MIẾNG SJC");
                            ("purity", row_field fields "@h_" (JStr ""));
                            ("buy", JStr (format_thousands buy));
                            ("sell", JStr (format_thousands sell));
                            ("updated",
                             row_field fields "@d_" (JStr ""))]])
       | inl e, _ | inr _, inl e =>
           d = [("success", JBool false);
                ("error", JStr e);
                ("message", JStr "Không thể lấy giá vàng từ API")]
       end.
Proof.
  intros Hanswer Hstatus Hjson Hlist Hdata Hbefore Hafter Hname Hsjc Hring.
  unfold gold_answer in Hanswer.
  unfold Unified.get_gold_price, try_catch, bind at 1, client_get.
  rewrite Hanswer.
  unfold bind at 1, check_status. rewrite Hstatus. unfold ret at 1.
  unfold bind at 1, read_json. rewrite Hjson. unfold ret at 1.
  unfold bind at 1. unfold ret at 1. rewrite Hlist.
  unfold bind at 1, py_get. rewrite Hdata. unfold ret at 1.
  unfold bind at 1.
  assert (Htruthy : truthy (JList (before ++ JDict fields :: after)) = true)
    by (destruct before; reflexivity).
  rewrite Htruthy. unfold ret at 1.
  unfold bind at 1. cbn [Unified.gold_rows].
  rewrite (unmatched_prefix before _ _ _ Hbefore).
  cbn [Unified.gold_loop]. unfold bind at 1.
  unfold row_field in *. cbv zeta in *.
  unfold Unified.gold_step, bind, py_get, ret.
  rewrite Hname. cbn [py_upper]. unfold ret.
  rewrite Hsjc, Hring. cbn [Unified.seen Unified.seen_types existsb negb andb].
  unfold Unified.gold_entry, bind, format_price, ret, raise.
  destruct (py_int _) as [e|buy].
  - eexists. eexists. repeat split.
  - destruct (py_int _) as [e|sell].
    + eexists. eexists. repeat split.
    + rewrite (unmatched_loop after _ _ Hafter).
      eexists. eexists. repeat split.
Qed.

End GoldBars.

(** ** Concrete runs of the data tools *)

(** The weather of "Hanoi" is asked for while the service is
    unreachable. *)
Lemma weather_other_city_is_ho_chi_minh_witness :
  lower (city_of (city_arguments "Hanoi")) <> "cao lanh"
  /\ lower (city_of (city_arguments "Hanoi")) <> "cao lãnh"
  /\ exists d w',
      Unified.get_weather (answering (inl "ConnectTimeout"))
        (city_arguments "Hanoi") (start prior 100)
      = (Ok d, w')
      /\ self w' = self (start prior 100)
      /\ (success d = Some true ->
          str_field d "city" = Some "Ho Chi Minh City")
      /\ (forall e,
             http_get (answering (inl "ConnectTimeout")) Unified.data_client
               "https://api.open-meteo.com/v1/forecast"
               (weather_params (float_literal "10.8231")
                  (float_literal "106.6297"))
             = inl e ->
             d = failure e).
Proof.
  assert (Hplain : lower (city_of (city_arguments "Hanoi")) <> "cao lanh")
    by (cbv; discriminate).
  assert (Haccent : lower (city_of (city_arguments "Hanoi")) <> "cao lãnh")
    by (cbv; discriminate).
  split; [exact Hplain|]. split; [exact Haccent|].
  exact (weather_other_city_is_ho_chi_minh
           (answering (inl "ConnectTimeout")) (city_arguments "Hanoi")
           (start prior 100) Hplain Haccent).
Defined.

(** The weather service answers with an empty JSON object. *)
Lemma weather_without_current_reads_clear_sky_witness :
  weather_answer (answering (inr (json_response (JDict [])))) no_arguments
  = inr (json_response (JDict []))
  /\ exists w',
      Unified.get_weather (answering (inr (json_response (JDict []))))
        no_arguments (start prior 100)
      = (Ok [("success", JBool true);
             ("city", JStr "Ho Chi Minh City");
             ("temperature", JNone);
             ("humidity", JNone);
             ("weather", JStr "Quang đãng");
             ("message", JStr "Ho Chi Minh City: None°C")],
         w')
      /\ self w' = self (start prior 100).
Proof.
  split; [reflexivity|].
  exact (weather_without_current_reads_clear_sky
           (answering (inr (json_response (JDict [])))) no_arguments
           (start prior 100) (json_response (JDict [])) []
           eq_refl eq_refl eq_refl eq_refl).
Defined.

(** The weather service answers with code 63 at 31 degrees. *)
Lemma weather_label_of_code_witness :
  exists d w',
    Unified.get_weather
      (answering
         (inr (json_response
                 (JDict [("current",
                          JDict [("temperature_2m", JInt 31);
                                 ("weather_code", JInt 63)])]))))
      (city_arguments "Cao Lanh") (start prior 100)
    = (Ok d, w')
    /\ success d = Some true
    /\ str_field d "weather" = Some "Mưa vừa"
    /\ dict_get d "temperature" = Some (JInt 31)
    /\ dict_get d "humidity" = Some JNone.
Proof.
  exact (proj1
           (weather_label_of_code
              (answering
                 (inr (json_response
                         (JDict [("current",
                                  JDict [("temperature_2m", JInt 31);
                                         ("weather_code", JInt 63)])]))))
              (city_arguments "Cao Lanh") (start prior 100) _ _ _ 63%Z
              eq_refl eq_refl eq_refl eq_refl eq_refl)).
Defined.

(** The price service answers with an object without prices. *)
Lemma bitcoin_without_price_fails_witness :
  bitcoin_answer (answering (inr (json_response (JDict []))))
  = inr (json_response (JDict []))
  /\ exists w',
      Unified.get_bitcoin_price
        (answering (inr (json_response (JDict [])))) (start prior 100)
      = (Ok (failure
               "unsupported format string passed to NoneType.__format__"),
         w')
      /\ self w' = self (start prior 100).
Proof.
  split; [reflexivity|].
  exact (bitcoin_without_price_fails
           (answering (inr (json_response (JDict [])))) (start prior 100)
           (json_response (JDict [])) [] eq_refl eq_refl eq_refl
           (or_introl eq_refl)).
Defined.

(** The bank's answer lists the euro, the dollar, and the dollar once
    more. *)
Lemma usd_rate_is_first_dollar_element_witness :
  usd_answer (answering (inr xml_response)) = inr xml_response
  /\ exists d w',
      Unified.get_usd_rate (answering (inr xml_response)) (start prior 100)
      = (Ok d, w')
      /\ self w' = self (start prior 100)
      /\ success d = Some true
      /\ dict_get d "data"
         = Some (JDict [("currency", JStr "USD");
                        ("buy_cash", JStr "25,100.00");
                        ("buy_transfer", JStr "25,130.00");
                        ("sell", JStr "25,470.00")]).
Proof.
  split; [reflexivity|].
  assert (Hxml : xml_exrates (response_text xml_response)
                 = inr [[("CurrencyCode", "EUR"); ("Buy", "27,000.00");
                         ("Transfer", "27,100.00"); ("Sell", "28,300.00")];
                        [("CurrencyCode", "USD"); ("Buy", "25,100.00");
                         ("Transfer", "25,130.00"); ("Sell", "25,470.00")];
                        [("CurrencyCode", "USD"); ("Buy", "1.00")]])
    by reflexivity.
  destruct (usd_rate_is_first_dollar_element
              (answering (inr xml_response)) (start prior 100)
              xml_response _ eq_refl eq_refl Hxml)
    as (d & w' & Hrun & Hself & Hd).
  exists d, w'. split; [exact Hrun|]. split; [exact Hself|]. exact Hd.
Defined.

(** Silver, gold bars, then gold bars once more at other prices: the
    loop, started as [get_gold_price] starts it, ends with the entry of
    the first bars row. *)
Lemma gold_first_match_is_kept_witness :
  gold_consistent
    {| Unified.sjc_data := None;
       Unified.nhan_tron_data := None;
       Unified.seen_types := [] |}
  /\ Forall unmatched [silver_row]
  /\ exists state' w',
      Unified.gold_loop [silver_row; bars_row; later_bars_row]
        {| Unified.sjc_data := None;
           Unified.nhan_tron_data := None;
           Unified.seen_types := [] |}
        (start prior 100)
      = (Ok state', w')
      /\ Unified.sjc_data state'
         = Some (JDict [("type", JStr "VÀNG MIẾNG SJC");
                        ("purity", JStr "999.9");
                        ("buy", JStr "8,150,000");
                        ("sell", JStr "8,350,000");
                        ("updated", JStr "04/11/2026 09:00")]).
Proof.
  assert (Hc : gold_consistent
                 {| Unified.sjc_data := None;
                    Unified.nhan_tron_data := None;
                    Unified.seen_types := [] |}).
  { split; cbn; split; try discriminate.
    - intros H. exfalso. apply H. reflexivity.
    - intros H. exfalso. apply H. reflexivity. }
  assert (Hrows : Forall unmatched [silver_row]).
  { apply Forall_cons; [|apply Forall_nil].
    eexists. exists "BAC MIENG". repeat split. }
  split; [exact Hc|]. split; [exact Hrows|].
  eexists. eexists.
  match goal with
  | |- ?run /\ _ => assert (Hrun : run) by reflexivity
  end.
  split; [exact Hrun|].
  destruct (gold_first_match_is_kept
              [silver_row; bars_row; later_bars_row] _ _ (start prior 100) _
              Hc Hrun)
    as (_ & _ & _ & Hfirst & _).
  destruct (Hfirst [silver_row] [later_bars_row]
              [("@row", JStr "1");
               ("@n_1", JStr "VÀNG MIẾNG SJC (Vàng SJC)");
               ("@h_1", JStr "999.9");
               ("@pb_1", JStr "8150000");
               ("@ps_1", JStr "8350000");
               ("@d_1", JStr "04/11/2026 09:00")]
              "VÀNG MIẾNG SJC (Vàng SJC)"
              eq_refl Hrows eq_refl eq_refl eq_refl)
    as (buy & sell & Hbuy & Hsell & Hentry).
  injection Hbuy as <-. injection Hsell as <-.
  exact Hentry.
Defined.

(** The gold service lists silver only. *)
Lemma gold_without_matching_row_fails_witness :
  Forall unmatched [silver_row]
  /\ exists w',
      Unified.get_gold_price
        (answering
           (inr (json_response
                   (JDict [("DataList",
                            JDict [("Data", JList [silver_row])])]))))
        (start prior 100)
      = (Ok [("success", JBool false);
             ("error", JStr "SJC or NHẪN TRÒN TRƠN not found");
             ("message", JStr "Không thể lấy giá vàng từ API")],
         w')
      /\ self w' = self (start prior 100).
Proof.
  assert (Hrows : Forall unmatched [silver_row]).
  { apply Forall_cons; [|apply Forall_nil].
    eexists. exists "BAC MIENG". repeat split. }
  split; [exact Hrows|].
  exact (gold_without_matching_row_fails
           (answering
              (inr (json_response
                      (JDict [("DataList",
                               JDict [("Data", JList [silver_row])])]))))
           (start prior 100) _ _ _ [silver_row]
           eq_refl eq_refl eq_refl eq_refl eq_refl Hrows).
Defined.

(** The gold service lists silver, then gold bars. *)
Lemma gold_reports_the_sjc_row_witness :
  exists d w',
    Unified.get_gold_price
      (answering
         (inr (json_response
                 (JDict [("DataList",
                          JDict [("Data",
                                  JList [silver_row; bars_row])])]))))
      (start prior 100)
    = (Ok d, w')
    /\ self w' = self (start prior 100)
    /\ success d = Some true
    /\ dict_get d "data"
       = Some (JList
                 [JDict [("type", JStr "VÀNG MIẾNG SJC");
                         ("purity", JStr "999.9");
                         ("buy", JStr "8,150,000");
                         ("sell", JStr "8,350,000");
                         ("updated", JStr "04/11/2026 09:00")]]).
Proof.
  assert (Hrows : Forall unmatched [silver_row]).
  { apply Forall_cons; [|apply Forall_nil].
    eexists. exists "BAC MIENG". repeat split. }
  exact (gold_reports_the_sjc_row
           (answering
              (inr (json_response
                      (JDict [("DataList",
                               JDict [("Data",
                                       JList [silver_row; bars_row])])]))))
           (start prior 100) _ _ _
           [("@row", JStr "1");
            ("@n_1", JStr "VÀNG MIẾNG SJC (Vàng SJC)");
            ("@h_1", JStr "999.9");
            ("@pb_1", JStr "8150000");
            ("@ps_1", JStr "8350000");
            ("@d_1", JStr "04/11/2026 09:00")]
           [silver_row] [] "VÀNG MIẾNG SJC (Vàng SJC)"
           eq_refl eq_refl eq_refl eq_refl eq_refl Hrows (Forall_nil _)
           eq_refl eq_refl eq_refl).
Defined.
